(** * MicrobeAtlas companion: the cached group-by aggregation kernel

    A shallow embedding of the Julia notebook cells "Cache-based
    statistics" and "Latitudinal correlations":
    [_populate_caches!] (generic fallback and sparse method),
    [_populate_caches_logged!], [groupby_mean!], [_fast_cor_binned],
    [make_bins] and [compute_latitudinal_abundance_cors].

    Conventions of the embedding.
    - Julia's [Int] is a 64-bit machine integer: it is a [Z] and every
      addition and subtraction of the source wraps ([wrap64]).
    - The element type of the value vectors and of the floating caches is
      a parameter [F] with the operations the source uses on it (class
      [Number]); the code is generic in it the way the Julia functions
      are.  [Rnumber] instantiates it with exact real arithmetic on
      finite values, [Xnumber] with the reals extended by [Inf], [-Inf]
      and [NaN]; neither rounds.
    - Julia vectors are lists, indexed from 1; an index outside the vector
      raises [BoundsError].
    - The caches are one mutable object shared by all calls: it is the
      state of a state-and-exception monad [M].  An exception aborts the
      computation; the state it leaves behind is not modelled. *)

From Stdlib Require Import ZArith List Bool Reals Lra Lia.
From stdpp Require Import base list gmap sorting strings.
Import ListNotations.

Local Open Scope Z_scope.

(** ** Exceptions and results *)

Inductive exn : Type :=
  | BoundsError | ArgumentError | MethodError | DimensionMismatch
  | DivideError | AssertionError | KeyError | DomainError.

Inductive res (A : Type) : Type :=
  | Ok (a : A)
  | Err (e : exn).
Arguments Ok {A} a.
Arguments Err {A} e.

Definition is_ok {A} (r : res A) : bool :=
  match r with Ok _ => true | Err _ => false end.

Definition res_bind {A B} (r : res A) (k : A -> res B) : res B :=
  match r with Ok a => k a | Err e => Err e end.

(** ** Machine integers *)

Definition wrap64 (z : Z) : Z := (z + 2 ^ 63) mod 2 ^ 64 - 2 ^ 63.
Definition int_add (a b : Z) : Z := wrap64 (a + b).
Definition int_sub (a b : Z) : Z := wrap64 (a - b).

(** [sum(v)] of an [Int] vector. *)
Definition int_sum (v : list Z) : Z := fold_left int_add v 0.

(** [sum(!iszero, v)] of an [Int] vector: the number of its non-zero
    entries.  It is at most the length of [v], which is an [Int]. *)
Definition count_nonzero (v : list Z) : Z :=
  Z.of_nat (length (filter (fun x => x <> 0) v)).

(** [div(a, b)] on [Int]: the quotient rounded towards zero;
    [DivideError] when [b] is zero, and for [typemin(Int)] by [-1]. *)
Definition int_div (a b : Z) : res Z :=
  if (b =? 0) || ((a =? - 2 ^ 63) && (b =? -1)) then Err DivideError
  else Ok (Z.quot a b).

(** In range for an [Int]. *)
Definition int_range (z : Z) : Prop := - 2 ^ 63 <= z < 2 ^ 63.

(** ** Vectors, indexed from 1 *)

Definition getindex {A} (a : list A) (i : Z) : res A :=
  if 1 <=? i then
    match a !! Z.to_nat (i - 1) with
    | Some x => Ok x
    | None => Err BoundsError
    end
  else Err BoundsError.

Definition setindex {A} (a : list A) (x : A) (i : Z) : res (list A) :=
  if (1 <=? i) && (i <=? Z.of_nat (length a))
  then Ok (<[Z.to_nat (i - 1) := x]> a)
  else Err BoundsError.

(** [fill!(a, x)] *)
Definition fill {A} (a : list A) (x : A) : list A := replicate (length a) x.

(** The range [1:n]. *)
Definition range1 (n : nat) : list Z := seqZ 1 (Z.of_nat n).

(** [minimum(v)]: a reduction with [min], whatever the order of the
    reduction; [ArgumentError] on an empty collection. *)
Definition minimum {A} (fmin : A -> A -> A) (v : list A) : res A :=
  match v with
  | [] => Err ArgumentError
  | x :: v' => Ok (fold_left fmin v' x)
  end.

(** ** The numeric type of the observations *)

Class Number (F : Type) : Type := {
  fzero : F;                  (* the literal 0.0 *)
  of_int : Z -> F;            (* promotion of an Int operand *)
  fadd : F -> F -> F;
  fmul : F -> F -> F;
  fdiv : F -> F -> F;
  fmin : F -> F -> F;         (* min *)
  fiszero : F -> bool;        (* iszero *)
  flog10 : F -> res F;        (* log10; DomainError below zero *)
}.

(** ** The state-and-exception monad over a store [S] *)

Definition M (S A : Type) : Type := S -> res (A * S).

Definition ret {S A} (a : A) : M S A := fun s => Ok (a, s).
Definition bind {S A B} (m : M S A) (k : A -> M S B) : M S B :=
  fun s => match m s with
           | Ok (a, s') => k a s'
           | Err e => Err e
           end.
Definition throw {S A} (e : exn) : M S A := fun _ => Err e.
Definition lift {S A} (r : res A) : M S A :=
  fun s => match r with Ok a => Ok (a, s) | Err e => Err e end.
Definition get {S} : M S S := fun s => Ok (s, s).
Definition gets {S A} (f : S -> A) : M S A := fun s => Ok (f s, s).
Definition modify {S} (f : S -> S) : M S unit := fun s => Ok (tt, f s).

Declare Scope monad_scope.
Delimit Scope monad_scope with monad.
Notation "x <- c1 ;; c2" := (bind c1 (fun x => c2))
  (at level 100, c1 at next level, right associativity) : monad_scope.
Notation "c1 ;; c2" := (bind c1 (fun _ => c2))
  (at level 100, c2 at level 200, right associativity) : monad_scope.
Local Open Scope monad_scope.

(** [for x in l ... end] *)
Fixpoint for_each {S A} (l : list A) (body : A -> M S unit) : M S unit :=
  match l with
  | [] => ret tt
  | x :: l' => body x ;; for_each l' body
  end.

(** [map(f, l)] with an effectful [f], left to right. *)
Fixpoint map_each {S A B} (l : list A) (f : A -> M S B) : M S (list B) :=
  match l with
  | [] => ret []
  | x :: l' => y <- f x ;; ys <- map_each l' f ;; ret (y :: ys)
  end.

(** Pure version, for broadcasts of a fallible function. *)
Fixpoint res_map {A B} (f : A -> res B) (l : list A) : res (list B) :=
  match l with
  | [] => Ok []
  | x :: l' => res_bind (f x) (fun y => res_bind (res_map f l') (fun ys => Ok (y :: ys)))
  end.

(** ** The aggregator *)

Section Aggregator.
Context {F : Type} {HF : Number F}.

(** A value vector is dense, or sparse: its logical length and its stored
    entries, the pairs of [rowvals] and [nonzeros]. *)
Inductive vec : Type :=
  | Dense (xs : list F)
  | Sparse (n : Z) (entries : list (Z * F)).

Definition rowvals (entries : list (Z * F)) : list Z := map fst entries.
Definition nonzeros (entries : list (Z * F)) : list F := map snd entries.

(** [all(iszero, val_vec)]: the entries a sparse vector does not store
    are zero. *)
Definition all_iszero (v : vec) : bool :=
  match v with
  | Dense xs => forallb fiszero xs
  | Sparse _ entries => forallb fiszero (nonzeros entries)
  end.

(** The caches named tuple. *)
Record caches : Type := mk_caches {
  abunds_cache : list F;
  mean_cache : list F;
  sum_cache : list F;
  group_count_cache : list Z;
  prev_cache : list Z;
}.

Definition set_mean (m : list F) (c : caches) : caches :=
  mk_caches (abunds_cache c) m (sum_cache c) (group_count_cache c) (prev_cache c).
Definition set_sum (s : list F) (c : caches) : caches :=
  mk_caches (abunds_cache c) (mean_cache c) s (group_count_cache c) (prev_cache c).
Definition set_prev (p : list Z) (c : caches) : caches :=
  mk_caches (abunds_cache c) (mean_cache c) (sum_cache c) (group_count_cache c) p.

(** [sum_cache[group] += x] *)
Definition sum_cache_add (group : Z) (x : F) : M caches unit :=
  s <- gets sum_cache ;;
  old <- lift (getindex s group) ;;
  s' <- lift (setindex s (fadd old x) group) ;;
  modify (set_sum s').

(** [prev_cache[group] += 1] *)
Definition prev_cache_incr (group : Z) : M caches unit :=
  p <- gets prev_cache ;;
  old <- lift (getindex p group) ;;
  p' <- lift (setindex p (int_add old 1) group) ;;
  modify (set_prev p').

(** [_populate_caches!], the generic fallback. *)
Definition _populate_caches_generic (val_vec : list F) (group_vec : list Z)
  : M caches unit :=
  for_each (range1 (length val_vec)) (fun i =>
    group <- lift (getindex group_vec i) ;;
    x <- lift (getindex val_vec i) ;;
    sum_cache_add group x ;;
    prev_cache_incr group).

(** [_populate_caches!], the method for sparse vectors. *)
Definition _populate_caches_sparse (entries : list (Z * F)) (group_vec : list Z)
  : M caches unit :=
  let inds := rowvals entries in
  let vals := nonzeros entries in
  for_each (zip inds vals) (fun '(i, val) =>
    group <- lift (getindex group_vec i) ;;
    sum_cache_add group val ;;
    prev_cache_incr group).

(** Dispatch on the type of the value vector. *)
Definition _populate_caches (val_vec : vec) (group_vec : list Z) : M caches unit :=
  match val_vec with
  | Dense xs => _populate_caches_generic xs group_vec
  | Sparse _ entries => _populate_caches_sparse entries group_vec
  end.

(** [_populate_caches_logged!]: it has a method for sparse vectors only. *)
Definition _populate_caches_logged (val_vec : vec) (group_vec : list Z)
  : M caches unit :=
  match val_vec with
  | Dense _ => throw MethodError
  | Sparse _ entries =>
      let inds := rowvals entries in
      let vals := nonzeros entries in
      m <- lift (minimum fmin vals) ;;
      let pcount := fdiv m (of_int 10) in
      for_each (zip inds vals) (fun '(i, val) =>
        group <- lift (getindex group_vec i) ;;
        s <- gets sum_cache ;;
        old <- lift (getindex s group) ;;
        l <- lift (flog10 (fadd val pcount)) ;;
        s' <- lift (setindex s (fadd old l) group) ;;
        modify (set_sum s') ;;
        prev_cache_incr group) ;;
      n <- gets (fun c => length (sum_cache c)) ;;
      for_each (range1 n) (fun i =>
        gc <- gets group_count_cache ;;
        g <- lift (getindex gc i) ;;
        p <- gets prev_cache ;;
        k <- lift (getindex p i) ;;
        let n_zeros := int_sub g k in
        lp <- lift (flog10 pcount) ;;
        let total_zero_pcounts_logged := fmul lp (of_int n_zeros) in
        sum_cache_add i total_zero_pcounts_logged)
  end.

(** An operand of a broadcast into a destination of length [n]: it has
    that length, or one element, which is repeated. *)
Definition bc_ok {A} (n : nat) (a : list A) : bool :=
  (length a =? n)%nat || (length a =? 1)%nat.
Definition bc_extend {A} (n : nat) (a : list A) : list A :=
  if (length a =? n)%nat then a
  else match a with
       | [x] => replicate n x
       | _ => a
       end.

(** [dest .= a ./ b], element by element; [DimensionMismatch] when an
    operand does not fit the destination. *)
Definition broadcast_div (dest : list F) (a : list F) (b : list Z) : res (list F) :=
  let n := length dest in
  if bc_ok n a && bc_ok n b
  then Ok (zip_with (fun x g => fdiv x (of_int g)) (bc_extend n a) (bc_extend n b))
  else Err DimensionMismatch.

(** The three [fill!] of [groupby_mean!]. *)
Definition reset (c : caches) : caches :=
  mk_caches (abunds_cache c) (fill (mean_cache c) fzero) (fill (sum_cache c) fzero)
            (group_count_cache c) (fill (prev_cache c) 0).

(** [groupby_mean!] *)
Definition groupby_mean (val_vec : vec) (group_vec : list Z) (log_vals : bool)
  : M caches unit :=
  modify reset ;;
  (if log_vals
   then _populate_caches_logged val_vec group_vec
   else _populate_caches val_vec group_vec) ;;
  c <- get ;;
  m <- lift (broadcast_div (mean_cache c) (sum_cache c) (group_count_cache c)) ;;
  modify (set_mean m).

(** ** Binned correlation *)

(** [Statistics.cor] is a library function: it is a parameter, and so are
    the type [C] of a correlation coefficient with its [NaN], and the type
    [L] of the reference values. *)
Context {C L : Type} (NaN : C) (Statistics_cor : list F -> list L -> res C).

(** The named tuple [(;cor=stat, n_bins_obs, prev)]. *)
Record cor_result : Type := mk_cor_result {
  cor : C;
  n_bins_obs : Z;
  prev : Z;
}.

(** [_fast_cor_binned] *)
Definition _fast_cor_binned (val_vec : vec) (v2_binned : list Z) (bins_srt : list L)
    (log_means : bool) : M caches cor_result :=
  if all_iszero val_vec then
    ret (mk_cor_result NaN 0 0)
  else
    groupby_mean val_vec v2_binned false ;;
    p <- gets prev_cache ;;
    let n_bins_obs := count_nonzero p in
    (if log_means then
       m <- gets mean_cache ;;
       pcount <- (if existsb fiszero m
                  then lo <- lift (minimum fmin (filter (fun x => fiszero x = false) m)) ;;
                       ret (fdiv lo (of_int 10))
                  else ret fzero) ;;
       m <- gets mean_cache ;;
       m' <- lift (res_map (fun x => flog10 (fadd x pcount)) m) ;;
       modify (set_mean m')
     else ret tt) ;;
    m <- gets mean_cache ;;
    stat <- lift (Statistics_cor m bins_srt) ;;
    p <- gets prev_cache ;;
    ret (mk_cor_result stat n_bins_obs (int_sum p)).

End Aggregator.

Arguments vec F : clear implicits.
Arguments caches F : clear implicits.
Arguments cor_result C : clear implicits.

(** ** Latitudinal correlations *)

Declare Scope res_scope.
Delimit Scope res_scope with res.
Notation "x <- c1 ;; c2" := (res_bind c1 (fun x => c2))
  (at level 100, c1 at next level, right associativity) : res_scope.

Section Latitudinal.
Context {F : Type} {HF : Number F}.

(** Library functions and the types they work on are parameters:
    [Statistics.cor] with the type [C] of its result, [FlashWeave.fz_pval]
    and [MultipleTesting.adjust] with the type [P] of a p-value, [isless]
    and [>=(0)] on the type [L] of a latitude bin.  [K] is the type of the
    sample keys, [O] that of the OTU identifiers. *)
Context {C L K O P : Type}.
Context `{Countable L} `{EqDecision K}.
Context (NaN : C) (Statistics_cor : list F -> list L -> res C).
Context (isless : L -> L -> bool) (nonneg : L -> bool).
Context (fz_pval : C -> Z -> Z -> P) (adjust : list P -> list P).

(** The matrix under the keys: dense, or sparse by columns (each column
    holds its stored row indices and values). *)
Inductive matrix : Type :=
  | DenseMatrix (cols : list (list F))
  | SparseMatrixCSC (m : Z) (cols : list (list (Z * F))).

(** A [KeyedArray]: the keys of each dimension and the parent array. *)
Record keyed_matrix : Type := mk_keyed_matrix {
  axiskeys1 : list K;
  axiskeys2 : list O;
  parent : matrix;
}.
Record keyed_vector : Type := mk_keyed_vector {
  vector_keys : list K;
  vector_data : list L;
}.

(** [view(otu_mat, :, i)] *)
Definition view_column (A : matrix) (i : Z) : res (vec F) :=
  match A with
  | DenseMatrix cols => (c <- getindex cols i ;; Ok (Dense c))%res
  | SparseMatrixCSC m cols => (c <- getindex cols i ;; Ok (Sparse m c))%res
  end.

(** [unique(l)]: the first occurrence of each element, in order. *)
Fixpoint unique_from (seen l : list L) : list L :=
  match l with
  | [] => []
  | x :: l' => if decide (x ∈ seen) then unique_from seen l'
               else x :: unique_from (x :: seen) l'
  end.
Definition unique (l : list L) : list L := unique_from [] l.

(** [sort(l)], by [isless]. *)
Definition sort (l : list L) : list L :=
  merge_sort (fun x y => Is_true (negb (isless y x))) l.

(** [enumerate(l)] *)
Definition enumerate {A} (l : list A) : list (Z * A) := zip (range1 (length l)) l.

(** [Dict(bin=>i for (i, bin) in enumerate(bins_srt))] *)
Definition make_indmap (bins_srt : list L) : gmap L Z :=
  foldl (fun d '(i, bin) => <[bin := i]> d) ∅ (enumerate bins_srt).

(** [indmap[x]] *)
Definition dict_getindex (d : gmap L Z) (x : L) : res Z :=
  match d !! x with
  | Some i => Ok i
  | None => Err KeyError
  end.

(** The minimum number of bins an OTU must have been observed in. *)
Definition n_bins_obs_min_of (n_bins bins_obs_min_factor : Z) : res Z :=
  if negb (bins_obs_min_factor =? -1)
  then int_div n_bins bins_obs_min_factor
  else Ok 0.

(** [caches.group_count_cache[bin_ind] += 1] *)
Definition group_count_incr (bin_ind : Z) : M (caches F) unit :=
  (g <- gets group_count_cache ;;
   old <- lift (getindex g bin_ind) ;;
   g' <- lift (setindex g (int_add old 1) bin_ind) ;;
   modify (fun c => mk_caches (abunds_cache c) (mean_cache c) (sum_cache c) g'
                              (prev_cache c)))%monad.

(** A row of [cor_df]: [(;oid, sub_cor_res..., n_obs=n_bins)]. *)
Record row : Type := mk_row {
  oid : O;
  stats : cor_result C;
  n_obs : Z;
}.

(** A row of [test_df]: the columns [pval] and, with [do_FDR], [pval_adj]
    are added. *)
Record test_row : Type := mk_test_row {
  base : row;
  pval : P;
  pval_adj : option P;
}.

(** The [map] over the OTUs, on the shared caches. *)
Definition cor_res (otu_matn : keyed_matrix) (lats_binned_indmap : list Z)
    (bins_srt : list L) (n_bins : Z) : M (caches F) (list row) :=
  map_each (enumerate (axiskeys2 otu_matn)) (fun '(i, oid) =>
    (v <- lift (view_column (parent otu_matn) i) ;;
     sub_cor_res <- _fast_cor_binned NaN Statistics_cor v lats_binned_indmap bins_srt true ;;
     ret (mk_row oid sub_cor_res n_bins))%monad).

(** The filter criteria of an unreliable OTU. *)
Definition filt_mask (prev_min n_bins_obs_min : Z) (r : row) : bool :=
  (prev (stats r) <? prev_min) || (n_bins_obs (stats r) <? n_bins_obs_min).

(** [compute_latitudinal_abundance_cors]: the pair [(test_df, unrel_df)].
    A data frame is the list of its rows; a column of another length than
    the frame cannot be added to it ([ArgumentError]). *)
Definition compute_latitudinal_abundance_cors (otu_matn : keyed_matrix)
    (lats_binned : keyed_vector) (prev_min bins_obs_min_factor : Z) (do_FDR : bool)
  : res (list test_row * list row) :=
  (if negb (bool_decide (axiskeys1 otu_matn = vector_keys lats_binned))
   then Err AssertionError
   else if negb (forallb nonneg (vector_data lats_binned))
   then Err AssertionError
   else
     let n_samp := length (axiskeys1 otu_matn) in
     let bins_srt := sort (unique (vector_data lats_binned)) in
     let n_bins := length bins_srt in
     n_bins_obs_min <- n_bins_obs_min_of (Z.of_nat n_bins) bins_obs_min_factor ;;
     let indmap := make_indmap bins_srt in
     lats_binned_indmap <- res_map (dict_getindex indmap) (vector_data lats_binned) ;;
     let caches0 :=
       mk_caches (replicate n_samp fzero) (replicate n_bins fzero)
                 (replicate n_bins fzero) (replicate n_bins 0) (replicate n_bins 0) in
     counted <- for_each lats_binned_indmap group_count_incr caches0 ;;
     mapped <- cor_res otu_matn lats_binned_indmap bins_srt (Z.of_nat n_bins)
                       (snd counted) ;;
     let cor_df := fst mapped in
     let rm_cor_df := List.filter (filt_mask prev_min n_bins_obs_min) cor_df in
     let cor_df := List.filter (fun r => negb (filt_mask prev_min n_bins_obs_min r)) cor_df in
     let pvals := map (fun x => fz_pval (cor (stats x)) (n_obs x) 0) cor_df in
     if do_FDR then
       let adj := adjust pvals in
       if (length adj =? length cor_df)%nat
       then Ok (zip_with (fun '(r, p) a => mk_test_row r p (Some a)) (zip cor_df pvals) adj,
                rm_cor_df)
       else Err ArgumentError
     else Ok (zip_with (fun r p => mk_test_row r p None) cor_df pvals, rm_cor_df))%res.

End Latitudinal.

Arguments matrix F : clear implicits.
Arguments keyed_matrix F K O : clear implicits.
Arguments keyed_vector L K : clear implicits.
Arguments row C O : clear implicits.
Arguments test_row C O P : clear implicits.

(** ** Exact real arithmetic as the numeric type *)

Local Open Scope R_scope.

Definition Riszero (x : R) : bool := if Req_dec_T x 0 then true else false.

(** The decimal logarithm of a positive real.  The reals have no
    infinity: [log10(0)], which is [-Inf] in floating point, is outside
    the domain of this instance, like the negative arguments; the
    instance [Xnumber] below has the infinities and [NaN]. *)
Definition log10 (x : R) : R := ln x / ln 10.
Definition Rlog10 (x : R) : res R :=
  if Rlt_dec 0 x then Ok (log10 x) else Err DomainError.

#[export] Instance Rnumber : Number R := {|
  fzero := 0;
  of_int := IZR;
  fadd := Rplus;
  fmul := Rmult;
  fdiv := Rdiv;
  fmin := Rmin;
  fiszero := Riszero;
  flog10 := Rlog10;
|}.

Fixpoint Rsum (l : list R) : R :=
  match l with
  | [] => 0
  | x :: l' => x + Rsum l'
  end.

(** The values a vector holds: all of them when it is dense, the stored
    ones when it is sparse. *)
Definition values {F} (v : vec F) : list F :=
  match v with
  | Dense xs => xs
  | Sparse _ entries => nonzeros entries
  end.

(** For the examples, the parameter [Statistics_cor] is Pearson's
    correlation of a real vector with integer reference values; its type
    [C] is [option R], where [None] stands for [NaN] (a vanishing
    variance). *)
Definition pearson (xs ys : list R) : option R :=
  let mx := Rsum xs / INR (length xs) in
  let my := Rsum ys / INR (length ys) in
  let sxy := Rsum (zip_with (fun x y => (x - mx) * (y - my)) xs ys) in
  let sxx := Rsum (map (fun x => (x - mx) * (x - mx)) xs) in
  let syy := Rsum (map (fun y => (y - my) * (y - my)) ys) in
  if Req_dec_T (sxx * syy) 0 then None else Some (sxy / sqrt (sxx * syy)).

Definition Rcor (xs : list R) (ys : list Z) : res (option R) :=
  if (length xs =? length ys)%nat then Ok (pearson xs (map IZR ys))
  else Err DimensionMismatch.

(** ** Reals with infinities and NaN

    [Float64] without rounding, overflow and the sign of zero: a finite
    value is a real, the others are [Inf], [-Inf] and [NaN], with the
    arithmetic of the floating-point standard on them.  A division by
    zero is an infinity or [NaN], [log10(0.0)] is [-Inf], and [log10]
    raises a [DomainError] below zero only. *)

Inductive xreal : Type :=
  | XFin (x : R)
  | XInf
  | XNegInf
  | XNaN.

(** One of three values, by the sign of [x]. *)
Definition by_sign (x : R) (pos zero neg : xreal) : xreal :=
  if Rlt_dec 0 x then pos else if Rlt_dec x 0 then neg else zero.

Definition xneg (a : xreal) : xreal :=
  match a with
  | XFin x => XFin (- x)
  | XInf => XNegInf
  | XNegInf => XInf
  | XNaN => XNaN
  end.

Definition xadd (a b : xreal) : xreal :=
  match a, b with
  | XNaN, _ | _, XNaN => XNaN
  | XFin x, XFin y => XFin (x + y)
  | XInf, XNegInf | XNegInf, XInf => XNaN
  | XInf, _ | _, XInf => XInf
  | XNegInf, _ | _, XNegInf => XNegInf
  end.

Definition xmul (a b : xreal) : xreal :=
  match a, b with
  | XNaN, _ | _, XNaN => XNaN
  | XFin x, XFin y => XFin (x * y)
  | XFin x, XInf | XInf, XFin x => by_sign x XInf XNaN XNegInf
  | XFin x, XNegInf | XNegInf, XFin x => by_sign x XNegInf XNaN XInf
  | XInf, XInf | XNegInf, XNegInf => XInf
  | XInf, XNegInf | XNegInf, XInf => XNegInf
  end.

Definition xdiv (a b : xreal) : xreal :=
  match a, b with
  | XNaN, _ | _, XNaN => XNaN
  | XFin x, XFin y =>
      if Req_dec_T y 0 then by_sign x XInf XNaN XNegInf else XFin (x / y)
  | XFin _, _ => XFin 0
  | XInf, XFin y => if Rlt_dec y 0 then XNegInf else XInf
  | XNegInf, XFin y => if Rlt_dec y 0 then XInf else XNegInf
  | _, _ => XNaN
  end.

(** [min]: [NaN] when an operand is. *)
Definition xmin (a b : xreal) : xreal :=
  match a, b with
  | XNaN, _ | _, XNaN => XNaN
  | XNegInf, _ | _, XNegInf => XNegInf
  | XFin x, XFin y => XFin (Rmin x y)
  | XInf, _ => b
  | _, XInf => a
  end.

Definition xiszero (a : xreal) : bool :=
  match a with
  | XFin x => Riszero x
  | _ => false
  end.

Definition xlog10 (a : xreal) : res xreal :=
  match a with
  | XFin x =>
      if Rlt_dec 0 x then Ok (XFin (log10 x))
      else if Rlt_dec x 0 then Err DomainError
      else Ok XNegInf
  | XInf => Ok XInf
  | XNegInf => Err DomainError
  | XNaN => Ok XNaN
  end.

#[export] Instance Xnumber : Number xreal := {|
  fzero := XFin 0;
  of_int := fun z => XFin (IZR z);
  fadd := xadd;
  fmul := xmul;
  fdiv := xdiv;
  fmin := xmin;
  fiszero := xiszero;
  flog10 := xlog10;
|}.

Local Close Scope R_scope.

(** ** A small data set

    Four samples in the latitude bins 10, 20, 10, 20 and two OTUs, stored
    sparsely: OTU 101 is observed in both bins, OTU 102 in one sample of
    the first bin only.  P-values are not part of the example: their type
    is [unit]. *)

Definition demo_otu : keyed_matrix R nat Z :=
  mk_keyed_matrix [1; 2; 3; 4]%nat [101; 102]
    (SparseMatrixCSC 4 [[(1, 4%R); (2, 6%R)]; [(1, 4%R)]]).

Definition demo_lats : keyed_vector Z nat :=
  mk_keyed_vector [1; 2; 3; 4]%nat [10; 20; 10; 20].

Definition demo_pval (_ : option R) (_ _ : Z) : unit := tt.
Definition demo_adjust (pvals : list unit) : list unit := pvals.

(** The logarithms of the means of the two OTUs, and their rows. *)
Definition demo_logged_101 : list R :=
  [log10 ((0 + 4) / 2 + 0); log10 ((0 + 6) / 2 + 0)]%R.
Definition demo_logged_102 : list R :=
  [log10 ((0 + 4) / 2 + (0 + 4) / 2 / 10); log10 (0 / 2 + (0 + 4) / 2 / 10)]%R.
Definition demo_row_101 : row (option R) Z :=
  mk_row 101 (mk_cor_result (pearson demo_logged_101 [10; 20]%R) 2 2) 2.
Definition demo_row_102 : row (option R) Z :=
  mk_row 102 (mk_cor_result (pearson demo_logged_102 [10; 20]%R) 1 1) 2.




(** ** Notions used in the statements *)

Section Notions.
Context {F : Type} {HF : Number F}.

(** The accumulators of a caches object all have [G] entries. *)
Definition shape (G : nat) (c : caches F) : Prop :=
  length (mean_cache c) = G /\ length (sum_cache c) = G /\
  length (group_count_cache c) = G /\ length (prev_cache c) = G.

(** What a pass over the values leaves as it is: the group sizes, the
    means, the unused buffer and the length of the sums and counts. *)
Definition frame (c c' : caches F) : Prop :=
  abunds_cache c' = abunds_cache c /\ mean_cache c' = mean_cache c /\
  group_count_cache c' = group_count_cache c /\
  length (sum_cache c') = length (sum_cache c) /\
  length (prev_cache c') = length (prev_cache c).

(** Sample [i] has a group, and it is one of [1..G]. *)
Definition valid_group (group_vec : list Z) (G : nat) (i : Z) : bool :=
  match getindex group_vec i with
  | Ok g => (1 <=? g) && (g <=? Z.of_nat G)
  | Err _ => false
  end.

(** The stored value [e] belongs to group [g]. *)
Definition in_group (group_vec : list Z) (g : Z) (e : Z * F) : bool :=
  match getindex group_vec (fst e) with
  | Ok g' => g' =? g
  | Err _ => false
  end.

(** The stored values of group [g], in the order of the vector. *)
Definition present (group_vec : list Z) (g : Z) (entries : list (Z * F)) : list F :=
  nonzeros (List.filter (in_group group_vec g) entries).

(** The accumulators [s] once the first loop of the log pass, started in
    [c0] with pseudo-count [p], has visited the stored entries [pre]. *)
Definition logged_so_far (group_vec : list Z) (G : nat) (p : F)
    (c0 : caches F) (pre : list (Z * F)) (s : caches F) : Prop :=
  frame c0 s /\
  forall g, 1 <= g <= Z.of_nat G ->
    exists logs,
      res_map (fun x => flog10 (fadd x p)) (present group_vec g pre) = Ok logs /\
      getindex (sum_cache s) g = Ok (fold_left fadd logs fzero) /\
      getindex (prev_cache s) g = Ok (Z.of_nat (length logs)).

(** The pseudo-count of the means, in the words of the specification:
    zero when all the means are non-zero, otherwise the minimum over the
    non-zero means, divided by ten. *)
Definition mean_pseudo_count (means : list F) : res F :=
  if forallb (fun m => negb (fiszero m)) means then Ok fzero
  else match minimum fmin (List.filter (fun m => negb (fiszero m)) means) with
       | Ok lo => Ok (fdiv lo (of_int 10))
       | Err e => Err e
       end.

(** The sparse representation of a dense vector: the non-zero entries
    with their indices, in order. *)
Definition sparse_of (xs : list F) : list (Z * F) :=
  List.filter (fun e => negb (fiszero (snd e))) (zip (range1 (length xs)) xs).

(** Two states of the caches that differ in the counts at most. *)
Definition same_sums (c1 c2 : caches F) : Prop :=
  abunds_cache c1 = abunds_cache c2 /\ mean_cache c1 = mean_cache c2 /\
  sum_cache c1 = sum_cache c2 /\ group_count_cache c1 = group_count_cache c2 /\
  length (prev_cache c1) = length (prev_cache c2).

End Notions.

(** ** Further notions *)

Section MoreNotions.
Context {F : Type} {HF : Number F}.

(** The samples a pass over a vector visits, with their values: every
    sample of a dense vector, the stored entries of a sparse one. *)
Definition visited (v : vec F) : list (Z * F) :=
  match v with
  | Dense xs => zip (range1 (length xs)) xs
  | Sparse _ entries => entries
  end.

(** Group [g] has a visited sample. *)
Definition observed (group_vec : list Z) (v : vec F) (g : Z) : bool :=
  existsb (in_group group_vec g) (visited v).


(** Two states of one caches object: the same buffers, whatever the sums,
    the counts and the means hold. *)
Definition same_accumulator (c1 c2 : caches F) : Prop :=
  length (mean_cache c1) = length (mean_cache c2) /\
  length (sum_cache c1) = length (sum_cache c2) /\
  length (prev_cache c1) = length (prev_cache c2) /\
  group_count_cache c1 = group_count_cache c2 /\
  abunds_cache c1 = abunds_cache c2.

End MoreNotions.

(** The number of the samples of group [g] in a vector of group indices. *)
Definition count_in (inds : list Z) (g : Z) : Z :=
  Z.of_nat (length (List.filter (Z.eqb g) inds)).

(** ** Binning *)

Section Binning.

(** [X] is the type of the values, [E] that of the edges of a histogram
    and [V] that of the value of a keyword; [gt e x] is [e > x].
    [fit(Histogram, x; kws...)] is a library function: [fit_edges x kws]
    stands for the edges [h.edges[1]] of the histogram it fits.  The
    keywords of a call are a map from their names: of a name given more
    than once in a call, the rightmost occurrence takes precedence. *)
Context {X E V : Type}.
Context (gt : E -> X -> bool).
Context (fit_edges : list X -> gmap string V -> res (list E)).

(** [findfirst(p, a)]: the first index of [a] where [p] holds, [nothing]
    when there is none. *)
Fixpoint findfirst_from (i : Z) (p : E -> bool) (a : list E) : option Z :=
  match a with
  | [] => None
  | e :: a' => if p e then Some i else findfirst_from (i + 1) p a'
  end.
Definition findfirst (p : E -> bool) (a : list E) : option Z := findfirst_from 1 p a.

(** [hist_edges[findfirst(>(xi), hist_edges)-1]]; there is no method to
    subtract from [nothing]. *)
Definition bin_of (hist_edges : list E) (xi : X) : res E :=
  match findfirst (fun e => gt e xi) hist_edges with
  | Some j => getindex hist_edges (int_sub j 1)
  | None => Err MethodError
  end.

(** The keywords [(nbins=n_bins, bin_kws...)]. *)
Definition with_nbins (n_bins : V) (bin_kws : gmap string V) : gmap string V :=
  bin_kws ∪ {["nbins" := n_bins]}.

(** [make_bins]; [bin_kws[:nbins]] is looked up only where [haskey] holds. *)
Definition make_bins (x : list X) (n_bins : option V) (bin_kws : gmap string V)
  : res (list E) :=
  (hist_edges <-
     match n_bins, bin_kws !! "nbins" with
     | Some n, _ => fit_edges x (with_nbins n bin_kws)
     | None, Some n => fit_edges x (with_nbins n bin_kws)
     | None, None => fit_edges x bin_kws
     end ;;
   res_map (bin_of hist_edges) x)%res.

End Binning.

(** The keywords [fit] is called with. *)
Definition fit_keywords {V} (n_bins : option V) (bin_kws : gmap string V)
  : gmap string V :=
  match bin_kws !! "nbins", n_bins with
  | None, Some n => <["nbins" := n]> bin_kws
  | _, _ => bin_kws
  end.

(** * Properties *)

(** ** Vectors and machine integers *)

Lemma wrap64_id z : int_range z -> wrap64 z = z.
Proof.
  unfold int_range, wrap64. intros Hz.
  rewrite Z.mod_small; lia.
Qed.

Lemma getindex_Ok {A} (a : list A) i x :
  getindex a i = Ok x <-> 1 <= i /\ a !! Z.to_nat (i - 1) = Some x.
Proof.
  unfold getindex. destruct (Z.leb_spec 1 i) as [Hi|Hi].
  - destruct (a !! Z.to_nat (i - 1)) eqn:E; split.
    + intros [= ->]. auto.
    + intros [_ [= ->]]. reflexivity.
    + discriminate.
    + intros [_ [=]].
  - split; [discriminate | lia].
Qed.

Lemma getindex_in_range {A} (a : list A) i :
  1 <= i <= Z.of_nat (length a) -> exists x, getindex a i = Ok x.
Proof.
  intros Hi. destruct (lookup_lt_is_Some_2 a (Z.to_nat (i - 1))) as [x Hx]; [lia|].
  exists x. apply getindex_Ok. split; [lia | done].
Qed.

Lemma getindex_range {A} (a : list A) i x :
  getindex a i = Ok x -> 1 <= i <= Z.of_nat (length a).
Proof.
  intros [Hi Hx]%getindex_Ok. apply lookup_lt_Some in Hx. lia.
Qed.

Lemma setindex_Ok {A} (a : list A) x i :
  1 <= i <= Z.of_nat (length a) ->
  setindex a x i = Ok (<[Z.to_nat (i - 1) := x]> a).
Proof.
  intros Hi. unfold setindex.
  destruct (Z.leb_spec 1 i); [|lia].
  destruct (Z.leb_spec i (Z.of_nat (length a))); [|lia]. reflexivity.
Qed.

Lemma length_fill {A} (a : list A) x : length (fill a x) = length a.
Proof. unfold fill. apply length_replicate. Qed.

(** ** Loops *)

(** A loop that completes establishes an invariant of the elements done so
    far, when every body that completes maintains it. *)
Lemma for_each_partial {S A} (I : list A -> S -> Prop) (body : A -> M S unit) l s s' :
  I [] s ->
  (forall pre x suf s1 s2, l = pre ++ x :: suf -> I pre s1 ->
     body x s1 = Ok (tt, s2) -> I (pre ++ [x]) s2) ->
  for_each l body s = Ok (tt, s') -> I l s'.
Proof.
  intros H0 Hstep.
  assert (G : forall suf pre s1, l = pre ++ suf -> I pre s1 ->
               for_each suf body s1 = Ok (tt, s') -> I l s').
  { induction suf as [|x suf IH]; intros pre s1 Hl Hpre Hrun.
    - cbn in Hrun. injection Hrun as <-. rewrite Hl, app_nil_r. exact Hpre.
    - cbn in Hrun. unfold bind in Hrun.
      destruct (body x s1) as [[[] s2]|e] eqn:Hb; [|discriminate].
      apply (IH (pre ++ [x]) s2); [rewrite <- app_assoc; exact Hl | | exact Hrun].
      eapply Hstep; eauto. }
  intros Hrun. apply (G l [] s); auto.
Qed.

(** A loop completes, and establishes the invariant, when every body
    completes and maintains it. *)
Lemma for_each_total {S A} (I : list A -> S -> Prop) (body : A -> M S unit) l s :
  I [] s ->
  (forall pre x suf s1, l = pre ++ x :: suf -> I pre s1 ->
     exists s2, body x s1 = Ok (tt, s2) /\ I (pre ++ [x]) s2) ->
  exists s', for_each l body s = Ok (tt, s') /\ I l s'.
Proof.
  intros H0 Hstep.
  assert (G : forall suf pre s1, l = pre ++ suf -> I pre s1 ->
               exists s', for_each suf body s1 = Ok (tt, s') /\ I l s').
  { induction suf as [|x suf IH]; intros pre s1 Hl Hpre.
    - exists s1. split; [reflexivity|]. rewrite Hl, app_nil_r. exact Hpre.
    - destruct (Hstep pre x suf s1 Hl Hpre) as (s2 & Hb & H2).
      destruct (IH (pre ++ [x]) s2) as (s' & Hrun & Hs'); [rewrite <- app_assoc; exact Hl | exact H2 |].
      exists s'. split; [|exact Hs']. cbn. unfold bind. rewrite Hb. exact Hrun. }
  apply (G l [] s); auto.
Qed.

Lemma getindex_insert {A} (a : list A) g g' x :
  1 <= g <= Z.of_nat (length a) -> 1 <= g' ->
  getindex (<[Z.to_nat (g - 1) := x]> a) g' =
  if g' =? g then Ok x else getindex a g'.
Proof.
  intros Hg Hg'. unfold getindex.
  destruct (Z.leb_spec 1 g'); [|lia].
  destruct (Z.eqb_spec g' g) as [->|Hne].
  - rewrite list_lookup_insert_eq by lia. reflexivity.
  - rewrite list_lookup_insert_ne by lia. reflexivity.
Qed.

Lemma res_map_length {A B} (f : A -> res B) l ys :
  res_map f l = Ok ys -> length ys = length l.
Proof.
  revert ys. induction l as [|x l IH]; intros ys; cbn.
  - intros [= <-]. reflexivity.
  - destruct (f x); [|discriminate]. cbn.
    destruct (res_map f l); [|discriminate]. cbn.
    intros [= <-]. cbn. f_equal. apply IH. reflexivity.
Qed.

Lemma res_map_snoc {A B} (f : A -> res B) l x ys y :
  res_map f l = Ok ys -> f x = Ok y -> res_map f (l ++ [x]) = Ok (ys ++ [y]).
Proof.
  revert ys. induction l as [|a l IH]; intros ys; cbn.
  - intros [= <-] ->. reflexivity.
  - destruct (f a); [|discriminate]. cbn.
    destruct (res_map f l) as [zs|]; [|discriminate]. cbn.
    intros [= <-] Hy. rewrite (IH zs eq_refl Hy). reflexivity.
Qed.

Lemma fold_left_snoc {A B} (f : A -> B -> A) l x a :
  fold_left f (l ++ [x]) a = f (fold_left f l a) x.
Proof. rewrite fold_left_app. reflexivity. Qed.

(** ** The passes over the values *)

Section AggregatorFacts.
Context {F : Type} {HF : Number F}.
Implicit Types (c : caches F) (group_vec : list Z).

Lemma frame_refl c : frame c c.
Proof. unfold frame. auto. Qed.

Lemma frame_trans c1 c2 c3 : frame c1 c2 -> frame c2 c3 -> frame c1 c3.
Proof. unfold frame. intuition congruence. Qed.

Lemma sum_cache_add_run g x c :
  sum_cache_add g x c =
  match getindex (sum_cache c) g with
  | Ok old => Ok (tt, set_sum (<[Z.to_nat (g - 1) := fadd old x]> (sum_cache c)) c)
  | Err e => Err e
  end.
Proof.
  unfold sum_cache_add, bind, gets, lift, modify.
  destruct (getindex (sum_cache c) g) as [old|e] eqn:E; [|reflexivity].
  rewrite setindex_Ok by (eapply getindex_range; eauto). reflexivity.
Qed.

Lemma prev_cache_incr_run g c :
  prev_cache_incr g c =
  match getindex (prev_cache c) g with
  | Ok old => Ok (tt, set_prev (<[Z.to_nat (g - 1) := int_add old 1]> (prev_cache c)) c)
  | Err e => Err e
  end.
Proof.
  unfold prev_cache_incr, bind, gets, lift, modify.
  destruct (getindex (prev_cache c) g) as [old|e] eqn:E; [|reflexivity].
  rewrite setindex_Ok by (eapply getindex_range; eauto). reflexivity.
Qed.

Lemma sum_cache_add_frame g x c c' :
  sum_cache_add g x c = Ok (tt, c') -> frame c c'.
Proof.
  rewrite sum_cache_add_run. destruct (getindex (sum_cache c) g); [|discriminate].
  intros [= <-]. unfold frame. cbn. rewrite length_insert. auto.
Qed.

Lemma prev_cache_incr_frame g c c' :
  prev_cache_incr g c = Ok (tt, c') -> frame c c'.
Proof.
  rewrite prev_cache_incr_run. destruct (getindex (prev_cache c) g); [|discriminate].
  intros [= <-]. unfold frame. cbn. rewrite length_insert. auto.
Qed.

Lemma for_each_frame {A} (body : A -> M (caches F) unit) l c c' :
  (forall x s1 s2, body x s1 = Ok (tt, s2) -> frame s1 s2) ->
  for_each l body c = Ok (tt, c') -> frame c c'.
Proof.
  intros Hbody Hrun.
  apply (for_each_partial (fun _ s => frame c s) body l c c'); auto using frame_refl.
  intros pre x suf s1 s2 _ H1 Hb. eapply frame_trans; eauto.
Qed.

End AggregatorFacts.

(** ** Runs of the monad *)

Lemma bind_Ok {S A B} (m : M S A) (k : A -> M S B) s b s' :
  bind m k s = Ok (b, s') <-> exists a s1, m s = Ok (a, s1) /\ k a s1 = Ok (b, s').
Proof.
  unfold bind. split.
  - destruct (m s) as [[a s1]|e]; [|discriminate]. intros Hk. eauto.
  - intros (a & s1 & -> & Hk). exact Hk.
Qed.

Lemma lift_Ok {S A} (r : res A) (s : S) a s' :
  lift r s = Ok (a, s') <-> r = Ok a /\ s' = s.
Proof.
  unfold lift. destruct r; split; try discriminate.
  - intros [= -> ->]. auto.
  - intros [[= ->] ->]. reflexivity.
  - intros [[=] _].
Qed.

Lemma gets_Ok {S A} (f : S -> A) (s : S) a s' :
  gets f s = Ok (a, s') <-> a = f s /\ s' = s.
Proof. unfold gets. split; [intros [= <- <-]; auto | intros [-> ->]; reflexivity]. Qed.

Lemma modify_Ok {S} (f : S -> S) (s : S) u s' :
  modify f s = Ok (u, s') <-> s' = f s.
Proof.
  unfold modify. destruct u. split; [intros [= <-]; auto | intros ->; reflexivity].
Qed.

Lemma ret_Ok {S A} (x : A) (s : S) a s' :
  ret x s = Ok (a, s') <-> a = x /\ s' = s.
Proof. unfold ret. split; [intros [= <- <-]; auto | intros [-> ->]; reflexivity]. Qed.

Section PassFacts.
Context {F : Type} {HF : Number F}.
Implicit Types (c : caches F) (group_vec : list Z).

Lemma set_sum_frame c s :
  length s = length (sum_cache c) -> frame c (set_sum s c).
Proof. unfold frame. cbn. auto. Qed.

Lemma _populate_caches_generic_frame xs group_vec c c' :
  _populate_caches_generic xs group_vec c = Ok (tt, c') -> frame c c'.
Proof.
  apply for_each_frame. intros i s1 s2 Hb.
  apply bind_Ok in Hb as (g & s & Hg & Hb). apply lift_Ok in Hg as [Hg ->].
  apply bind_Ok in Hb as (x & s & Hx & Hb). apply lift_Ok in Hx as [Hx ->].
  apply bind_Ok in Hb as ([] & s & Hs & Hb).
  eapply frame_trans; [eapply sum_cache_add_frame | eapply prev_cache_incr_frame]; eauto.
Qed.

Lemma _populate_caches_sparse_frame entries group_vec c c' :
  _populate_caches_sparse entries group_vec c = Ok (tt, c') -> frame c c'.
Proof.
  apply for_each_frame. intros [i v] s1 s2 Hb.
  apply bind_Ok in Hb as (g & s & Hg & Hb). apply lift_Ok in Hg as [Hg ->].
  apply bind_Ok in Hb as ([] & s & Hs & Hb).
  eapply frame_trans; [eapply sum_cache_add_frame | eapply prev_cache_incr_frame]; eauto.
Qed.

Lemma _populate_caches_frame v group_vec c c' :
  _populate_caches v group_vec c = Ok (tt, c') -> frame c c'.
Proof.
  destruct v; [apply _populate_caches_generic_frame | apply _populate_caches_sparse_frame].
Qed.

Lemma _populate_caches_logged_frame v group_vec c c' :
  _populate_caches_logged v group_vec c = Ok (tt, c') -> frame c c'.
Proof.
  destruct v as [xs|n entries]; [discriminate|]. cbn.
  intros Hrun.
  apply bind_Ok in Hrun as (lo & s & Hlo & Hrun). apply lift_Ok in Hlo as [Hlo ->].
  apply bind_Ok in Hrun as ([] & s1 & Hloop1 & Hrun).
  apply bind_Ok in Hrun as (n' & s & Hn & Hloop2). apply gets_Ok in Hn as [-> ->].
  eapply frame_trans.
  - eapply for_each_frame; [|exact Hloop1]. intros [i v] t1 t2 Hb.
    apply bind_Ok in Hb as (g & s & Hg & Hb). apply lift_Ok in Hg as [Hg ->].
    apply bind_Ok in Hb as (sc & s & Hsc & Hb). apply gets_Ok in Hsc as [-> ->].
    apply bind_Ok in Hb as (old & s & Hold & Hb). apply lift_Ok in Hold as [Hold ->].
    apply bind_Ok in Hb as (l & s & Hl & Hb). apply lift_Ok in Hl as [Hl ->].
    apply bind_Ok in Hb as (s' & s & Hs' & Hb). apply lift_Ok in Hs' as [Hs' ->].
    apply bind_Ok in Hb as ([] & s & Hm & Hb). apply modify_Ok in Hm as ->.
    eapply frame_trans; [|eapply prev_cache_incr_frame; eauto].
    apply set_sum_frame.
    rewrite setindex_Ok in Hs' by (eapply getindex_range; eauto).
    injection Hs' as <-. apply length_insert.
  - eapply for_each_frame; [|exact Hloop2]. intros i t1 t2 Hb.
    apply bind_Ok in Hb as (gc & s & Hgc & Hb). apply gets_Ok in Hgc as [-> ->].
    apply bind_Ok in Hb as (g & s & Hg & Hb). apply lift_Ok in Hg as [Hg ->].
    apply bind_Ok in Hb as (p & s & Hp & Hb). apply gets_Ok in Hp as [-> ->].
    apply bind_Ok in Hb as (k & s & Hk & Hb). apply lift_Ok in Hk as [Hk ->].
    apply bind_Ok in Hb as (lp & s & Hlp & Hb). apply lift_Ok in Hlp as [Hlp ->].
    eapply sum_cache_add_frame; eauto.
Qed.

End PassFacts.

(** ** [groupby_mean!] *)

Section GroupbyFacts.
Context {F : Type} {HF : Number F}.
Implicit Types (c : caches F) (group_vec : list Z) (v : vec F) (b : bool).

Lemma groupby_mean_run v group_vec b c :
  groupby_mean v group_vec b c =
  match (if b then _populate_caches_logged v group_vec
         else _populate_caches v group_vec) (reset c) with
  | Ok (_, c1) =>
      match broadcast_div (mean_cache c1) (sum_cache c1) (group_count_cache c1) with
      | Ok m => Ok (tt, set_mean m c1)
      | Err e => Err e
      end
  | Err e => Err e
  end.
Proof.
  unfold groupby_mean, bind, modify, get, lift.
  destruct b.
  - destruct (_populate_caches_logged v group_vec (reset c)) as [[[] c1]|e]; [|reflexivity].
    destruct (broadcast_div _ _ _); reflexivity.
  - destruct (_populate_caches v group_vec (reset c)) as [[[] c1]|e]; [|reflexivity].
    destruct (broadcast_div _ _ _); reflexivity.
Qed.

Lemma populate_frame v group_vec b c c' :
  (if b then _populate_caches_logged v group_vec
   else _populate_caches v group_vec) c = Ok (tt, c') -> frame c c'.
Proof.
  destruct b; [apply _populate_caches_logged_frame | apply _populate_caches_frame].
Qed.

Lemma length_bc_extend {A} n (a : list A) :
  bc_ok n a = true -> length (bc_extend n a) = n.
Proof.
  unfold bc_ok, bc_extend. destruct (Nat.eqb_spec (length a) n) as [Hn|Hn]; [auto|].
  cbn. intros H1%Nat.eqb_eq. destruct a as [|x [|y a]]; try discriminate.
  apply length_replicate.
Qed.

Lemma broadcast_div_length (dest a : list F) (b : list Z) m :
  broadcast_div dest a b = Ok m -> length m = length dest.
Proof.
  unfold broadcast_div.
  destruct (bc_ok (length dest) a) eqn:Ha; [|discriminate].
  destruct (bc_ok (length dest) b) eqn:Hb; [|discriminate].
  cbn. intros [= <-]. rewrite length_zip_with, !length_bc_extend by assumption. lia.
Qed.

Lemma broadcast_div_same (dest a : list F) (b : list Z) :
  length a = length dest -> length b = length dest ->
  broadcast_div dest a b = Ok (zip_with (fun x g => fdiv x (of_int g)) a b).
Proof.
  intros Ha Hb. unfold broadcast_div, bc_ok, bc_extend.
  rewrite Ha, Hb, Nat.eqb_refl. reflexivity.
Qed.

Lemma reset_reset c : reset (reset c) = reset c.
Proof. unfold reset. cbn. rewrite !length_fill. reflexivity. Qed.

Lemma reset_same c1 c2 :
  length (mean_cache c1) = length (mean_cache c2) ->
  length (sum_cache c1) = length (sum_cache c2) ->
  length (prev_cache c1) = length (prev_cache c2) ->
  group_count_cache c1 = group_count_cache c2 ->
  abunds_cache c1 = abunds_cache c2 ->
  reset c1 = reset c2.
Proof.
  intros Hm Hs Hp Hg Ha. unfold reset, fill. rewrite Hm, Hs, Hp, Hg, Ha. reflexivity.
Qed.

(** A completed call keeps the group sizes, the unused buffer and every
    length. *)
Lemma groupby_mean_frame v group_vec b c c' :
  groupby_mean v group_vec b c = Ok (tt, c') ->
  abunds_cache c' = abunds_cache c /\
  group_count_cache c' = group_count_cache c /\
  length (mean_cache c') = length (mean_cache c) /\
  length (sum_cache c') = length (sum_cache c) /\
  length (prev_cache c') = length (prev_cache c).
Proof.
  rewrite groupby_mean_run.
  destruct ((if b then _populate_caches_logged v group_vec
             else _populate_caches v group_vec) (reset c)) as [[[] c1]|e] eqn:Hpass;
    [|discriminate].
  apply populate_frame in Hpass as (Ha & Hm & Hg & Hs & Hp).
  destruct (broadcast_div _ _ _) as [m|e] eqn:Hdiv; [|discriminate].
  intros [= <-]. apply broadcast_div_length in Hdiv. cbn in *.
  rewrite Hm in Hdiv. rewrite !length_fill in *. auto.
Qed.

End GroupbyFacts.

(** C8. Repeated aggregation calls do not leak: the result of a call
    depends on the accumulator only through the length of its buffers, its
    group sizes and its unused buffer, whatever the sum, count and mean
    arrays held (they are reset first); a completed call leaves the group
    sizes as they were; and calling again with the same inputs on the
    accumulator a completed call has left gives that same accumulator
    again. *)
Theorem groupby_mean_repeatable :
  forall (F : Type) (HF : Number F) (v : vec F) (group_vec : list Z) (log_vals : bool),
    (forall c, groupby_mean v group_vec log_vals c
               = groupby_mean v group_vec log_vals (reset c)) /\
    (forall c1 c2 : caches F,
       length (mean_cache c1) = length (mean_cache c2) ->
       length (sum_cache c1) = length (sum_cache c2) ->
       length (prev_cache c1) = length (prev_cache c2) ->
       group_count_cache c1 = group_count_cache c2 ->
       abunds_cache c1 = abunds_cache c2 ->
       groupby_mean v group_vec log_vals c1 = groupby_mean v group_vec log_vals c2) /\
    (forall c c' : caches F,
       groupby_mean v group_vec log_vals c = Ok (tt, c') ->
       group_count_cache c' = group_count_cache c /\
       groupby_mean v group_vec log_vals c' = Ok (tt, c')).
Proof.
  intros F HF v group_vec b.
  assert (Hreset : forall c, groupby_mean v group_vec b c
                             = groupby_mean v group_vec b (reset c)).
  { intros c. rewrite !groupby_mean_run, reset_reset. reflexivity. }
  assert (Hsame : forall c1 c2 : caches F,
            length (mean_cache c1) = length (mean_cache c2) ->
            length (sum_cache c1) = length (sum_cache c2) ->
            length (prev_cache c1) = length (prev_cache c2) ->
            group_count_cache c1 = group_count_cache c2 ->
            abunds_cache c1 = abunds_cache c2 ->
            groupby_mean v group_vec b c1 = groupby_mean v group_vec b c2).
  { intros c1 c2 Hm Hs Hp Hg Ha.
    rewrite (Hreset c1), (Hreset c2), (reset_same c1 c2); auto. }
  split; [exact Hreset|]. split; [exact Hsame|].
  intros c c' Hrun.
  destruct (groupby_mean_frame _ _ _ _ _ Hrun) as (Ha & Hg & Hm & Hs & Hp).
  split; [exact Hg|].
  rewrite <- Hrun. apply Hsame; auto.
Qed.

(** ** Facts of the real instance *)

Lemma Riszero_true (x : R) : x = 0%R -> Riszero x = true.
Proof. intros Hx. unfold Riszero. destruct (Req_dec_T x 0); [reflexivity | contradiction]. Qed.

Lemma Riszero_false (x : R) : x <> 0%R -> Riszero x = false.
Proof. intros Hx. unfold Riszero. destruct (Req_dec_T x 0); [contradiction | reflexivity]. Qed.

Lemma Rlog10_pos (x : R) : (0 < x)%R -> Rlog10 x = Ok (log10 x).
Proof. intros Hx. unfold Rlog10. destruct (Rlt_dec 0 x); [reflexivity | contradiction]. Qed.

(** ** Facts of the instance with infinities *)


Lemma by_sign_zero (x : R) (pos zero neg : xreal) :
  x = 0%R -> by_sign x pos zero neg = zero.
Proof.
  intros ->. unfold by_sign.
  destruct (Rlt_dec 0 0) as [H|_]; [exfalso; lra|].
  destruct (Rlt_dec 0 0) as [H|_]; [exfalso; lra | reflexivity].
Qed.

Lemma xlog10_zero (x : R) : x = 0%R -> xlog10 (XFin x) = Ok XNegInf.
Proof.
  intros ->. unfold xlog10.
  destruct (Rlt_dec 0 0) as [H|_]; [exfalso; lra|].
  destruct (Rlt_dec 0 0) as [H|_]; [exfalso; lra | reflexivity].
Qed.


Lemma xdiv_fin (x y : R) : y <> 0%R -> xdiv (XFin x) (XFin y) = XFin (x / y).
Proof. intros Hy. unfold xdiv. destruct (Req_dec_T y 0); [contradiction | reflexivity]. Qed.

Lemma xiszero_zero (x : R) : x = 0%R -> xiszero (XFin x) = true.
Proof. apply Riszero_true. Qed.

(** ** The all-zero feature *)

(** C4. On a value vector whose entries are all zero, [_fast_cor_binned]
    returns [(cor = NaN, n_bins_obs = 0, prev = 0)]: it raises nothing and
    the caches it is given are the caches it leaves, whatever they hold. *)
Theorem fast_cor_binned_all_zero :
  forall (F : Type) (HF : Number F) (C L : Type) (NaN : C)
         (Statistics_cor : list F -> list L -> res C)
         (val_vec : vec F) (v2_binned : list Z) (bins_srt : list L)
         (log_means : bool) (c : caches F),
    all_iszero val_vec = true ->
    _fast_cor_binned NaN Statistics_cor val_vec v2_binned bins_srt log_means c
    = Ok (mk_cor_result NaN 0 0, c).
Proof.
  intros F HF C L NaN Statistics_cor val_vec v2_binned bins_srt log_means c Hz.
  unfold _fast_cor_binned. rewrite Hz. reflexivity.
Qed.

Lemma fast_cor_binned_all_zero_witness :
  all_iszero (Dense [0; 0; 0]%R) = true /\
  _fast_cor_binned None Rcor (Dense [0; 0; 0]%R) [1; 2; 1] [10; 20] true
                   (mk_caches [] [5; 7]%R [3; 4]%R [2; 1] [1; 1])
  = Ok (mk_cor_result None 0 0, mk_caches [] [5; 7]%R [3; 4]%R [2; 1] [1; 1]).
Proof.
  assert (Hz : all_iszero (Dense [0; 0; 0]%R) = true).
  { cbn. rewrite (Riszero_true 0 eq_refl). reflexivity. }
  split; [exact Hz|].
  apply (fast_cor_binned_all_zero R Rnumber (option R) Z None Rcor
           (Dense [0; 0; 0]%R) [1; 2; 1] [10; 20] true _ Hz).
Defined.

(** ** The log path without a stored value *)

(** C5 (amended). The log-transform path on a sparse vector that stores
    no entry fails, whatever the group vector and the caches: the minimum
    of no value raises [ArgumentError], before any accumulator is written
    with a logarithm.  A dense vector is refused altogether: the
    log-transform pass has no method for it.  (A sparse vector whose
    stored entries are all zero is not refused.) *)
Theorem groupby_mean_logged_no_nonzero :
  forall (F : Type) (HF : Number F) (group_vec : list Z) (c : caches F),
    (forall n : Z, groupby_mean (Sparse n []) group_vec true c = Err ArgumentError) /\
    (forall xs : list F, groupby_mean (Dense xs) group_vec true c = Err MethodError).
Proof.
  intros F HF group_vec c. split.
  - intros n. rewrite groupby_mean_run. reflexivity.
  - intros xs. rewrite groupby_mean_run. reflexivity.
Qed.

(** ** Totals of the sums, in exact arithmetic *)

Lemma Rsum_app (l1 l2 : list R) : Rsum (l1 ++ l2) = (Rsum l1 + Rsum l2)%R.
Proof. induction l1 as [|x l1 IH]; cbn; [lra | rewrite IH; lra]. Qed.

Lemma Rsum_replicate_0 n : Rsum (replicate n 0%R) = 0%R.
Proof. induction n as [|n IH]; cbn; [reflexivity | rewrite IH; lra]. Qed.

Lemma Rsum_insert (l : list R) k old x :
  l !! k = Some old -> Rsum (<[k := (old + x)%R]> l) = (Rsum l + x)%R.
Proof.
  revert k. induction l as [|y l IH]; intros [|k]; simpl; try discriminate.
  - intros [= ->]. lra.
  - intros Hk. rewrite (IH k Hk). lra.
Qed.

Lemma zip_rowvals_nonzeros {F} (entries : list (Z * F)) :
  zip (rowvals entries) (nonzeros entries) = entries.
Proof.
  induction entries as [|[i x] entries IH]; cbn; [reflexivity|].
  f_equal. exact IH.
Qed.

Lemma res_map_getindex_from {A} (pre xs : list A) :
  res_map (getindex (pre ++ xs)) (seqZ (1 + Z.of_nat (length pre)) (Z.of_nat (length xs)))
  = Ok xs.
Proof.
  revert pre. induction xs as [|x xs IH]; intros pre; [reflexivity|].
  rewrite seqZ_cons by (cbn; lia).
  replace (Z.pred (Z.of_nat (length (x :: xs)))) with (Z.of_nat (length xs)) by (cbn; lia).
  cbn [res_map].
  assert (Hx : getindex (pre ++ x :: xs) (1 + Z.of_nat (length pre)) = Ok x).
  { apply getindex_Ok. split; [lia|].
    replace (Z.to_nat (1 + Z.of_nat (length pre) - 1)) with (length pre) by lia.
    apply list_lookup_middle. reflexivity. }
  rewrite Hx. cbn.
  specialize (IH (pre ++ [x])). rewrite <- app_assoc in IH. cbn in IH.
  rewrite length_app in IH. cbn in IH.
  replace (Z.succ (1 + Z.of_nat (length pre)))
    with (1 + Z.of_nat (length pre + 1)) by lia.
  rewrite IH. reflexivity.
Qed.

Lemma res_map_getindex_range1 {A} (xs : list A) :
  res_map (getindex xs) (range1 (length xs)) = Ok xs.
Proof. exact (res_map_getindex_from [] xs). Qed.

Lemma sum_cache_add_total g x (c c' : caches R) :
  sum_cache_add g x c = Ok (tt, c') ->
  Rsum (sum_cache c') = (Rsum (sum_cache c) + x)%R.
Proof.
  rewrite sum_cache_add_run.
  destruct (getindex (sum_cache c) g) as [old|e] eqn:Hold; [|discriminate].
  intros [= <-]. cbn. apply Rsum_insert. apply getindex_Ok in Hold as [_ Hold]. exact Hold.
Qed.

Lemma prev_cache_incr_sum {F} {HF : Number F} g (c c' : caches F) :
  prev_cache_incr g c = Ok (tt, c') -> sum_cache c' = sum_cache c.
Proof.
  rewrite prev_cache_incr_run. destruct (getindex (prev_cache c) g); [|discriminate].
  intros [= <-]. reflexivity.
Qed.

(** The pass without logarithm adds every value it visits to one sum. *)
Lemma _populate_caches_total (v : vec R) group_vec (c c' : caches R) :
  _populate_caches v group_vec c = Ok (tt, c') ->
  Rsum (sum_cache c') = (Rsum (sum_cache c) + Rsum (values v))%R.
Proof.
  destruct v as [xs|n entries]; cbn [_populate_caches values].
  - unfold _populate_caches_generic. intros Hrun.
    pose (I := fun (pre : list Z) (s : caches R) =>
                 exists ys, res_map (getindex xs) pre = Ok ys /\
                            Rsum (sum_cache s) = (Rsum (sum_cache c) + Rsum ys)%R).
    assert (HI : I (range1 (length xs)) c').
    { refine (for_each_partial I _ _ c c' _ _ Hrun).
      - exists []. split; [reflexivity | cbn; lra].
      - intros pre i suf s1 s2 _ (ys & Hys & Hsum) Hb.
        apply bind_Ok in Hb as (g & s & Hg & Hb). apply lift_Ok in Hg as [Hg ->].
        apply bind_Ok in Hb as (x & s & Hx & Hb). apply lift_Ok in Hx as [Hx ->].
        apply bind_Ok in Hb as ([] & s & Hs & Hb).
        exists (ys ++ [x]). split; [apply res_map_snoc; assumption|].
        rewrite (prev_cache_incr_sum _ _ _ Hb), (sum_cache_add_total _ _ _ _ Hs).
        rewrite Hsum, Rsum_app. cbn. lra. }
    destruct HI as (ys & Hys & Hsum).
    rewrite res_map_getindex_range1 in Hys. injection Hys as <-. exact Hsum.
  - unfold _populate_caches_sparse. rewrite zip_rowvals_nonzeros. intros Hrun.
    refine (for_each_partial
              (fun pre s => Rsum (sum_cache s)
                            = (Rsum (sum_cache c) + Rsum (nonzeros pre))%R)
              _ _ c c' _ _ Hrun).
    + cbn. lra.
    + intros pre [i x] suf s1 s2 _ Hsum Hb.
      apply bind_Ok in Hb as (g & s & Hg & Hb). apply lift_Ok in Hg as [Hg ->].
      apply bind_Ok in Hb as ([] & s & Hs & Hb).
      rewrite (prev_cache_incr_sum _ _ _ Hb), (sum_cache_add_total _ _ _ _ Hs).
      rewrite Hsum. unfold nonzeros. rewrite map_app, Rsum_app. simpl. lra.
Qed.

Lemma Rsum_div_mul (sums : list R) (sizes : list Z) :
  length sums = length sizes -> Forall (fun z => 0 < z) sizes ->
  Rsum (zip_with (fun m z => (m * IZR z)%R)
                 (zip_with (fun x z => (x / IZR z)%R) sums sizes) sizes)
  = Rsum sums.
Proof.
  revert sizes. induction sums as [|x sums IH]; intros [|z sizes]; cbn;
    try discriminate; [reflexivity|].
  intros [= Hlen] [Hz Hall]%Forall_cons_1. rewrite (IH sizes Hlen Hall).
  assert (IZR z <> 0%R) by (apply not_0_IZR; lia).
  field. assumption.
Qed.

Lemma getindex_zip_with {A B D} (f : A -> B -> D) (a : list A) (b : list B) g x y :
  getindex a g = Ok x -> getindex b g = Ok y ->
  getindex (zip_with f a b) g = Ok (f x y).
Proof.
  intros [Hg Hx]%getindex_Ok [_ Hy]%getindex_Ok. apply getindex_Ok. split; [exact Hg|].
  rewrite lookup_zip_with, Hx. cbn. rewrite Hy. reflexivity.
Qed.

(** C2. After a completed aggregation without log transform on
    accumulators of [G] groups whose sizes are all positive, every mean is
    the sum of its group divided by the size of the group, and the means
    weighted by the group sizes add up to the sum of the values (exact
    arithmetic). *)
Theorem groupby_mean_weighted_total :
  forall (v : vec R) (group_vec : list Z) (c c' : caches R) (G : nat),
    shape G c ->
    Forall (fun z => 0 < z) (group_count_cache c) ->
    groupby_mean v group_vec false c = Ok (tt, c') ->
    (forall g, 1 <= g <= Z.of_nat G ->
       exists s z, getindex (sum_cache c') g = Ok s /\
                   getindex (group_count_cache c') g = Ok z /\
                   getindex (mean_cache c') g = Ok (s / IZR z)%R) /\
    Rsum (zip_with (fun m z => (m * IZR z)%R) (mean_cache c') (group_count_cache c'))
    = Rsum (values v).
Proof.
  intros v group_vec c c' G (Hlm & Hls & Hlg & Hlp) Hpos Hrun.
  rewrite groupby_mean_run in Hrun.
  destruct (_populate_caches v group_vec (reset c)) as [[[] c1]|e] eqn:Hpass;
    [|discriminate].
  pose proof (_populate_caches_frame _ _ _ _ Hpass) as (Ha & Hm & Hg & Hs & Hp).
  unfold reset in Ha, Hm, Hg, Hs, Hp.
  cbn [abunds_cache mean_cache sum_cache group_count_cache prev_cache] in Ha, Hm, Hg, Hs, Hp.
  rewrite length_fill in Hs. rewrite length_fill in Hp.
  rewrite broadcast_div_same in Hrun
    by (rewrite Hm, length_fill; congruence).
  injection Hrun as <-. cbn [mean_cache sum_cache group_count_cache set_mean].
  split.
  - intros g Hrange.
    destruct (getindex_in_range (sum_cache c1) g) as [s Hs1]; [lia|].
    destruct (getindex_in_range (group_count_cache c1) g) as [z Hz1]; [rewrite Hg; lia|].
    exists s, z. split; [exact Hs1|]. split; [exact Hz1|].
    apply (getindex_zip_with (fun x g => (x / IZR g)%R)); assumption.
  - rewrite Hg.
    rewrite (Rsum_div_mul (sum_cache c1) (group_count_cache c)) by (congruence || assumption).
    rewrite (_populate_caches_total _ _ _ _ Hpass). cbn [sum_cache reset].
    unfold fill. rewrite Rsum_replicate_0. lra.
Qed.

(** ** The log-transform pass, group by group *)

Lemma getindex_replicate {A} n (x : A) g :
  1 <= g <= Z.of_nat n -> getindex (replicate n x) g = Ok x.
Proof.
  intros Hg. apply getindex_Ok. split; [lia|].
  apply lookup_replicate_2. lia.
Qed.

Lemma elem_of_range1 n g : g ∈ range1 n <-> 1 <= g <= Z.of_nat n.
Proof. unfold range1. rewrite elem_of_seqZ. lia. Qed.

Lemma NoDup_range1 n : NoDup (range1 n).
Proof. apply NoDup_seqZ. Qed.

Section LogPass.
Context {F : Type} {HF : Number F}.
Variables (entries : list (Z * F)) (group_vec : list Z) (G : nat) (p : F).
Hypothesis Hvalid : forallb (valid_group group_vec G) (rowvals entries) = true.
Hypothesis Hlen : Z.of_nat (length entries) < 2 ^ 63.
Hypothesis Hlogs : Forall (fun x => is_ok (flog10 (fadd x p)) = true) (nonzeros entries).

Lemma present_snoc g (pre : list (Z * F)) (e : Z * F) :
  present group_vec g (pre ++ [e])
  = present group_vec g pre ++ (if in_group group_vec g e then [snd e] else []).
Proof.
  unfold present, nonzeros. rewrite List.filter_app, map_app. cbn.
  destruct (in_group group_vec g e); reflexivity.
Qed.

Lemma length_present g (pre : list (Z * F)) :
  (length (present group_vec g pre) <= length pre)%nat.
Proof.
  unfold present, nonzeros. rewrite length_map. apply List.filter_length_le.
Qed.

Lemma logged_first_loop (c0 : caches F) :
  sum_cache c0 = replicate G fzero -> prev_cache c0 = replicate G 0 ->
  exists s,
    for_each (zip (rowvals entries) (nonzeros entries)) (fun '(i, val) =>
      (group <- lift (getindex group_vec i) ;;
       s <- gets sum_cache ;;
       old <- lift (getindex s group) ;;
       l <- lift (flog10 (fadd val p)) ;;
       s' <- lift (setindex s (fadd old l) group) ;;
       modify (set_sum s') ;;
       prev_cache_incr group)%monad) c0 = Ok (tt, s) /\
    logged_so_far group_vec G p c0 entries s.
Proof.
  intros Hs0 Hp0. rewrite zip_rowvals_nonzeros.
  apply (for_each_total (logged_so_far group_vec G p c0)).
  - split; [apply frame_refl|]. intros g Hg. exists []. cbn.
    rewrite Hs0, Hp0, !getindex_replicate by lia. auto.
  - intros pre [i x] suf s1 Hsplit (Hfr & Hinv).
    assert (Hin : (i, x) ∈ entries).
    { rewrite Hsplit, elem_of_app, elem_of_cons. auto. }
    assert (Hgrp : exists g0, getindex group_vec i = Ok g0 /\ 1 <= g0 <= Z.of_nat G).
    { assert (Hi : valid_group group_vec G i = true).
      { pose proof Hvalid as Hv. rewrite forallb_forall in Hv. apply Hv.
        unfold rowvals. apply in_map_iff. exists (i, x). split; [reflexivity|].
        apply list_elem_of_In. exact Hin. }
      unfold valid_group in Hi.
      destruct (getindex group_vec i) as [g0|]; [|discriminate].
      exists g0. split; [reflexivity|].
      apply andb_true_iff in Hi as [H1 H2].
      apply Z.leb_le in H1. apply Z.leb_le in H2. lia. }
    destruct Hgrp as (g0 & Hg0 & Hrange0).
    assert (Hy : exists y, flog10 (fadd x p) = Ok y).
    { assert (Hx : is_ok (flog10 (fadd x p)) = true).
      { pose proof Hlogs as Hl. rewrite Forall_forall in Hl. apply Hl.
        unfold nonzeros. apply list_elem_of_In, in_map_iff.
        exists (i, x). split; [reflexivity|]. apply list_elem_of_In. exact Hin. }
      destruct (flog10 (fadd x p)) as [y|]; [eauto | discriminate]. }
    destruct Hy as [y Hy].
    destruct (Hinv g0 Hrange0) as (logs0 & Hmap0 & Hsum0 & Hprev0).
    assert (Hcnt : Z.of_nat (length logs0) + 1 < 2 ^ 63).
    { rewrite (res_map_length _ _ _ Hmap0).
      pose proof (length_present g0 pre) as Hle.
      rewrite Hsplit, length_app in Hlen. cbn in Hlen. lia. }
    eexists. split.
    + unfold bind at 1. unfold lift at 1. rewrite Hg0.
      unfold bind at 1. unfold gets at 1.
      unfold bind at 1. unfold lift at 1. rewrite Hsum0.
      unfold bind at 1. unfold lift at 1. rewrite Hy.
      unfold bind at 1. unfold lift at 1.
      rewrite setindex_Ok by (eapply getindex_range; eauto).
      unfold bind at 1. unfold modify at 1.
      rewrite prev_cache_incr_run. cbn [prev_cache set_sum]. rewrite Hprev0.
      reflexivity.
    + split.
      * eapply frame_trans; [exact Hfr|]. unfold frame. cbn.
        rewrite !length_insert. auto.
      * intros g Hg. cbn [sum_cache prev_cache set_prev set_sum].
        rewrite present_snoc. unfold in_group. cbn [fst snd]. rewrite Hg0.
        pose proof (getindex_range _ _ _ Hsum0) as Hr1.
        pose proof (getindex_range _ _ _ Hprev0) as Hr2.
        rewrite !getindex_insert by lia.
        destruct (Hinv g Hg) as (logs & Hmap & Hsum & Hprev).
        destruct (Z.eqb_spec g0 g) as [->|Hne].
        -- rewrite Z.eqb_refl. exists (logs ++ [y]).
           rewrite Hmap in Hmap0. injection Hmap0 as <-.
           split; [apply res_map_snoc; assumption|].
           split; [rewrite fold_left_snoc; reflexivity|].
           f_equal. rewrite length_app. cbn. unfold int_add.
           rewrite wrap64_id by (unfold int_range; lia). lia.
        -- replace (g =? g0) with false by (symmetry; apply Z.eqb_neq; lia).
           exists logs. rewrite app_nil_r. auto.
Qed.

End LogPass.

Section LogPassZeros.
Context {F : Type} {HF : Number F}.
Variables (G : nat) (p lp : F).
Hypothesis Hlp : flog10 p = Ok lp.

Lemma logged_second_loop (s1 : caches F) :
  length (sum_cache s1) = G -> length (group_count_cache s1) = G ->
  length (prev_cache s1) = G ->
  exists s2,
    for_each (range1 G) (fun i =>
      (gc <- gets group_count_cache ;;
       g <- lift (getindex gc i) ;;
       pc <- gets prev_cache ;;
       k <- lift (getindex pc i) ;;
       l <- lift (flog10 p) ;;
       sum_cache_add i (fmul l (of_int (int_sub g k))))%monad) s1 = Ok (tt, s2) /\
    frame s1 s2 /\ prev_cache s2 = prev_cache s1 /\
    forall g x gs k,
      getindex (sum_cache s1) g = Ok x ->
      getindex (group_count_cache s1) g = Ok gs ->
      getindex (prev_cache s1) g = Ok k ->
      getindex (sum_cache s2) g = Ok (fadd x (fmul lp (of_int (int_sub gs k)))).
Proof.
  intros Hls Hlg Hlp1.
  pose (I := fun (pre : list Z) (s : caches F) =>
    frame s1 s /\ prev_cache s = prev_cache s1 /\
    forall g x gs k,
      getindex (sum_cache s1) g = Ok x ->
      getindex (group_count_cache s1) g = Ok gs ->
      getindex (prev_cache s1) g = Ok k ->
      getindex (sum_cache s) g =
      Ok (if bool_decide (g ∈ pre) then fadd x (fmul lp (of_int (int_sub gs k))) else x)).
  destruct (for_each_total I (fun i =>
      (gc <- gets group_count_cache ;;
       g <- lift (getindex gc i) ;;
       pc <- gets prev_cache ;;
       k <- lift (getindex pc i) ;;
       l <- lift (flog10 p) ;;
       sum_cache_add i (fmul l (of_int (int_sub g k))))%monad) (range1 G) s1)
    as (s2 & Hrun & Hfr & Hprev & Hsum).
  - split; [apply frame_refl|]. split; [reflexivity|].
    intros g x gs k Hx _ _. rewrite bool_decide_eq_false_2 by apply not_elem_of_nil.
    exact Hx.
  - intros pre i suf s Hsplit (Hfr & Hprev & Hsum).
    assert (Hi : 1 <= i <= Z.of_nat G).
    { apply elem_of_range1. rewrite Hsplit, elem_of_app, elem_of_cons. auto. }
    assert (Hfresh : i ∉ pre).
    { pose proof (NoDup_range1 G) as Hnd. rewrite Hsplit in Hnd.
      apply NoDup_app in Hnd as (_ & Hnd & _). intros Hin. apply (Hnd i Hin).
      apply elem_of_cons. auto. }
    destruct Hfr as (Ha & Hm & Hgc & Hlsum & Hlprev).
    destruct (getindex_in_range (sum_cache s1) i) as [x Hx]; [lia|].
    destruct (getindex_in_range (group_count_cache s1) i) as [gs Hgs]; [lia|].
    destruct (getindex_in_range (prev_cache s1) i) as [k Hk]; [lia|].
    pose proof (Hsum i x gs k Hx Hgs Hk) as Hcur.
    rewrite bool_decide_eq_false_2 in Hcur by exact Hfresh.
    eexists. split.
    + unfold bind at 1. unfold gets at 1.
      unfold bind at 1. unfold lift at 1. rewrite Hgc, Hgs.
      unfold bind at 1. unfold gets at 1.
      unfold bind at 1. unfold lift at 1. rewrite Hprev, Hk.
      unfold bind at 1. unfold lift at 1. rewrite Hlp.
      rewrite sum_cache_add_run, Hcur. reflexivity.
    + split; [|split].
      * unfold frame. cbn. rewrite length_insert. auto.
      * exact Hprev.
      * intros g x' gs' k' Hx' Hgs' Hk'. cbn [sum_cache set_sum].
        pose proof (getindex_range _ _ _ Hx') as Hg.
        rewrite getindex_insert by lia.
        destruct (Z.eqb_spec g i) as [->|Hne].
        -- rewrite bool_decide_eq_true_2
             by (rewrite elem_of_app, list_elem_of_singleton; auto).
           congruence.
        -- rewrite (Hsum g x' gs' k' Hx' Hgs' Hk').
           rewrite (bool_decide_ext (g ∈ pre) (g ∈ pre ++ [i]))
             by (rewrite elem_of_app, list_elem_of_singleton; intuition congruence).
           reflexivity.
  - exists s2. split; [exact Hrun|]. split; [exact Hfr|]. split; [exact Hprev|].
    intros g x gs k Hx Hgs Hk. rewrite (Hsum g x gs k Hx Hgs Hk).
    rewrite bool_decide_eq_true_2; [reflexivity|].
    apply elem_of_range1. apply getindex_range in Hx. lia.
Qed.

End LogPassZeros.

(** The log-transform path on a sparse vector with a stored entry:
    the call completes, and the sum and the count of every group have a
    closed form. *)
Lemma log_path_closed_form {F : Type} {HF : Number F}
    (n : Z) (entries : list (Z * F)) (group_vec : list Z) (c : caches F) (G : nat) (lo : F) :
  let p := fdiv lo (of_int 10) in
  minimum fmin (nonzeros entries) = Ok lo ->
  shape G c ->
  forallb (valid_group group_vec G) (rowvals entries) = true ->
  Z.of_nat (length entries) < 2 ^ 63 ->
  Forall (fun x => is_ok (flog10 (fadd x p)) = true) (nonzeros entries) ->
  is_ok (flog10 p) = true ->
  exists c' lp,
    groupby_mean (Sparse n entries) group_vec true c = Ok (tt, c') /\
    flog10 p = Ok lp /\
    forall g, 1 <= g <= Z.of_nat G ->
      exists logs gs,
        res_map (fun x => flog10 (fadd x p)) (present group_vec g entries) = Ok logs /\
        getindex (group_count_cache c) g = Ok gs /\
        getindex (prev_cache c') g = Ok (Z.of_nat (length logs)) /\
        getindex (sum_cache c') g =
          Ok (fadd (fold_left fadd logs fzero)
                   (fmul lp (of_int (int_sub gs (Z.of_nat (length logs)))))).
Proof.
  intros p Hmin (Hlm & Hls & Hlg & Hlp) Hvalid Hlen Hlogs Hokp.
  destruct (flog10 p) as [lp|] eqn:Hlogp; [|discriminate].
  destruct (logged_first_loop entries group_vec G p Hvalid Hlen Hlogs (reset c))
    as (s1 & Hrun1 & Hfr1 & Hinv1).
  { unfold reset, fill. cbn. rewrite Hls. reflexivity. }
  { unfold reset, fill. cbn. rewrite Hlp. reflexivity. }
  destruct Hfr1 as (Ha1 & Hm1 & Hg1 & Hs1 & Hp1).
  unfold reset in Ha1, Hm1, Hg1, Hs1, Hp1.
  cbn [abunds_cache mean_cache sum_cache group_count_cache prev_cache] in Ha1, Hm1, Hg1, Hs1, Hp1.
  rewrite length_fill in Hs1. rewrite length_fill in Hp1.
  destruct (logged_second_loop G p lp Hlogp s1) as (s2 & Hrun2 & Hfr2 & Hprev2 & Hsum2);
    [congruence..|].
  destruct Hfr2 as (Ha2 & Hm2 & Hg2 & Hs2 & Hp2).
  exists (set_mean (zip_with (fun x g => fdiv x (of_int g))
                             (sum_cache s2) (group_count_cache s2)) s2), lp.
  split; [|split; [reflexivity|]].
  - rewrite groupby_mean_run. cbn [_populate_caches_logged].
    unfold bind at 1. unfold lift at 1. rewrite Hmin.
    fold p. unfold bind at 1. rewrite Hrun1.
    unfold bind at 1. unfold gets at 1.
    replace (length (sum_cache s1)) with G by congruence.
    rewrite Hrun2.
    rewrite broadcast_div_same; [reflexivity | |].
    + rewrite Hm2, Hm1, length_fill. congruence.
    + rewrite Hm2, Hm1, length_fill, Hg2, Hg1. congruence.
  - intros g Hg. cbn [sum_cache prev_cache set_mean].
    destruct (Hinv1 g Hg) as (logs & Hmap & Hsum1 & Hprev1).
    destruct (getindex_in_range (group_count_cache c) g) as [gs Hgs]; [lia|].
    exists logs, gs. split; [exact Hmap|]. split; [exact Hgs|].
    split; [rewrite Hprev2; exact Hprev1|].
    apply Hsum2; [exact Hsum1 | rewrite Hg1; exact Hgs | exact Hprev1].
Qed.

Lemma singleton_getindex {A} (l : list A) x :
  length l = 1%nat -> getindex l 1 = Ok x -> l = [x].
Proof.
  destruct l as [|y [|z l]]; try discriminate. intros _ [= ->]. reflexivity.
Qed.



(** ** Explicitly stored zeros *)

(** After a completed call the means are the sums over the group sizes,
    with or without the logarithm. *)
Lemma groupby_mean_mean_cache {F} {HF : Number F} (v : vec F) group_vec b
    (c c' : caches F) (G : nat) :
  shape G c ->
  groupby_mean v group_vec b c = Ok (tt, c') ->
  mean_cache c' = zip_with (fun x g => fdiv x (of_int g)) (sum_cache c')
                           (group_count_cache c').
Proof.
  intros (Hlm & Hls & Hlg & Hlp). rewrite groupby_mean_run.
  destruct ((if b then _populate_caches_logged v group_vec
             else _populate_caches v group_vec) (reset c)) as [[[] c1]|] eqn:Hpop;
    [|discriminate].
  apply populate_frame in Hpop as (_ & Hm & Hg & Hs & _).
  unfold reset in Hm, Hg, Hs. cbn [mean_cache sum_cache group_count_cache] in Hm, Hg, Hs.
  rewrite length_fill in Hs.
  rewrite broadcast_div_same by (rewrite Hm, length_fill; congruence).
  intros [= <-]. reflexivity.
Qed.

Lemma stored_zero_pcount (y : R) :
  (0 <= y)%R -> fdiv (xmin (XFin 0) (XFin y)) (of_int 10) = XFin 0.
Proof.
  intros Hy. cbn [fdiv of_int Xnumber xmin]. rewrite xdiv_fin by lra.
  f_equal. rewrite Rmin_left by lra. lra.
Qed.


(** A vector of two stored zeros contains no value that is not zero; the
    log-transform path completes on it, and leaves [NaN] as the sum and
    as the mean of the group. *)
Lemma groupby_mean_logged_stored_zeros :
  all_iszero (Sparse 2 [(1, XFin 0); (2, XFin 0)]) = true /\
  exists c' : caches xreal,
    groupby_mean (Sparse 2 [(1, XFin 0); (2, XFin 0)]) [1; 1] true
                 (mk_caches [] [XFin 0] [XFin 0] [2] [0]) = Ok (tt, c') /\
    sum_cache c' = [XNaN] /\ mean_cache c' = [XNaN] /\
    groupby_mean (Sparse 2 [(1, XFin 0); (2, XFin 0)]) [1; 1] true
                 (mk_caches [] [XFin 0] [XFin 0] [2] [0]) <> Err ArgumentError.
Proof.
  split.
  { cbn [all_iszero nonzeros map snd forallb fiszero Xnumber].
    rewrite xiszero_zero by reflexivity. reflexivity. }
  assert (Hshape : shape 1 (mk_caches [] [XFin 0] [XFin 0] [2] [0])) by (repeat split).
  destruct (log_path_closed_form 2 [(1, XFin 0); (2, XFin 0)] [1; 1]
              (mk_caches [] [XFin 0] [XFin 0] [2] [0]) 1 (xmin (XFin 0) (XFin 0)))
    as (c' & lp & Hrun & Hlp & Hcf).
  - reflexivity.
  - exact Hshape.
  - reflexivity.
  - cbn. lia.
  - rewrite stored_zero_pcount by lra. cbv [nonzeros map snd].
    apply List.Forall_cons; [|apply List.Forall_cons; [|apply List.Forall_nil]];
      cbn [fadd flog10 Xnumber xadd]; rewrite xlog10_zero by lra; reflexivity.
  - rewrite stored_zero_pcount by lra. cbn [flog10 Xnumber].
    rewrite xlog10_zero by reflexivity. reflexivity.
  - rewrite stored_zero_pcount in Hlp by lra. cbn [flog10 Xnumber] in Hlp.
    rewrite xlog10_zero in Hlp by reflexivity. injection Hlp as <-.
    pose proof (groupby_mean_mean_cache _ _ _ _ _ _ Hshape Hrun) as Hmean.
    destruct (groupby_mean_frame _ _ _ _ _ Hrun) as (_ & Hgc & _ & Hls & _).
    destruct (Hcf 1 ltac:(lia)) as (logs & gs & Hmap & Hgs & _ & Hsum).
    rewrite stored_zero_pcount in Hmap by lra.
    change (present [1; 1] 1 [(1, XFin 0); (2, XFin 0)]) with [XFin 0; XFin 0] in Hmap.
    cbn [res_map fadd flog10 Xnumber xadd] in Hmap.
    rewrite xlog10_zero in Hmap by lra.
    cbn [res_bind] in Hmap. injection Hmap as <-.
    cbn in Hgs. injection Hgs as <-.
    assert (Hs : sum_cache c' = [XNaN]).
    { apply singleton_getindex; [exact Hls|]. rewrite Hsum. f_equal.
      change (int_sub 2 (Z.of_nat (length [XNegInf; XNegInf]))) with 0.
      cbn [fold_left fadd fmul fzero of_int Xnumber xadd xmul].
      rewrite by_sign_zero by reflexivity. reflexivity. }
    exists c'. split; [exact Hrun|]. split; [exact Hs|]. split.
    + rewrite Hmean, Hs, Hgc. reflexivity.
    + rewrite Hrun. discriminate.
Qed.

(** ** Binned correlation of a feature that is not all zero *)

Section BinnedFacts.
Context {F : Type} {HF : Number F} {C L : Type}.
Variables (NaN : C) (Statistics_cor : list F -> list L -> res C).

Lemma existsb_iszero (means : list F) :
  existsb fiszero means = negb (forallb (fun m => negb (fiszero m)) means).
Proof.
  induction means as [|m means IH]; cbn; [reflexivity|].
  rewrite IH. destruct (fiszero m); reflexivity.
Qed.

Lemma filter_nonzero (means : list F) :
  filter (fun x => fiszero x = false) means
  = List.filter (fun m => negb (fiszero m)) means.
Proof.
  induction means as [|m means IH]; [reflexivity|].
  rewrite filter_cons. cbn [List.filter]. rewrite IH.
  destruct (fiszero m); reflexivity.
Qed.

(** The steps of [_fast_cor_binned] with [log_means], one after the
    other: the aggregation without log transform, the pseudo-count of the
    means, the logarithm of every mean, the correlation. *)
Lemma log_means_steps (v : vec F) (v2_binned : list Z)
    (bins_srt : list L) (c : caches F) :
  all_iszero v = false ->
  _fast_cor_binned NaN Statistics_cor v v2_binned bins_srt true c =
  match groupby_mean v v2_binned false c with
  | Err e => Err e
  | Ok (_, c1) =>
      match mean_pseudo_count (mean_cache c1) with
      | Err e => Err e
      | Ok pcount =>
          match res_map (fun m => flog10 (fadd m pcount)) (mean_cache c1) with
          | Err e => Err e
          | Ok logged =>
              match Statistics_cor logged bins_srt with
              | Err e => Err e
              | Ok stat =>
                  Ok (mk_cor_result stat (count_nonzero (prev_cache c1))
                                    (int_sum (prev_cache c1)),
                      set_mean logged c1)
              end
          end
      end
  end.
Proof.
  intros Hz. unfold _fast_cor_binned. rewrite Hz.
  unfold bind at 1. destruct (groupby_mean v v2_binned false c) as [[[] c1]|e];
    [|reflexivity].
  unfold bind at 1. unfold gets at 1.
  unfold bind at 1. unfold bind at 1. unfold gets at 1.
  unfold mean_pseudo_count. rewrite existsb_iszero, filter_nonzero.
  destruct (forallb (fun m => negb (fiszero m)) (mean_cache c1)); cbn [negb].
  - unfold bind at 1. unfold ret at 1.
    unfold bind at 1. unfold gets at 1.
    unfold bind at 1. unfold lift at 1.
    destruct (res_map _ (mean_cache c1)) as [logged|e]; [|reflexivity].
    unfold modify, bind, gets, lift, ret. cbn.
    destruct (Statistics_cor logged bins_srt); reflexivity.
  - unfold bind at 1. unfold bind at 1. unfold lift at 1.
    destruct (minimum fmin _) as [lo|e]; [|reflexivity].
    unfold ret at 1.
    unfold bind at 1. unfold gets at 1.
    unfold bind at 1. unfold lift at 1.
    destruct (res_map _ (mean_cache c1)) as [logged|e]; [|reflexivity].
    unfold modify, bind, gets, lift, ret. cbn.
    destruct (Statistics_cor logged bins_srt); reflexivity.
Qed.

End BinnedFacts.

(** ** Dense and sparse input *)

Lemma bind_cong {S A B} (m1 m2 : M S A) (k1 k2 : A -> M S B) (s : S) :
  m1 s = m2 s -> (forall a s', k1 a s' = k2 a s') -> bind m1 k1 s = bind m2 k2 s.
Proof.
  intros Hm Hk. unfold bind. rewrite Hm. destruct (m2 s) as [[a s']|e]; auto.
Qed.

(** The generic fallback is the sparse method on a vector that stores
    every entry. *)
Lemma _populate_caches_generic_from {F} {HF : Number F} (pre xs : list F) group_vec
    (c : caches F) :
  for_each (seqZ (1 + Z.of_nat (length pre)) (Z.of_nat (length xs))) (fun i =>
    (group <- lift (getindex group_vec i) ;;
     x <- lift (getindex (pre ++ xs) i) ;;
     sum_cache_add group x ;;
     prev_cache_incr group)%monad) c
  = for_each (zip (seqZ (1 + Z.of_nat (length pre)) (Z.of_nat (length xs))) xs)
      (fun '(i, val) =>
        (group <- lift (getindex group_vec i) ;;
         sum_cache_add group val ;;
         prev_cache_incr group)%monad) c.
Proof.
  revert pre c. induction xs as [|x xs IH]; intros pre c; [reflexivity|].
  rewrite seqZ_cons by (cbn; lia).
  replace (Z.pred (Z.of_nat (length (x :: xs)))) with (Z.of_nat (length xs)) by (cbn; lia).
  assert (Hx : getindex (pre ++ x :: xs) (1 + Z.of_nat (length pre)) = Ok x).
  { apply getindex_Ok. split; [lia|].
    replace (Z.to_nat (1 + Z.of_nat (length pre) - 1)) with (length pre) by lia.
    apply list_lookup_middle. reflexivity. }
  cbn [zip zip_with for_each]. apply bind_cong.
  - apply bind_cong; [reflexivity|]. intros g s'.
    unfold bind at 1. unfold lift at 1. rewrite Hx. reflexivity.
  - intros _ s'. specialize (IH (pre ++ [x]) s').
    rewrite <- app_assoc, length_app in IH. cbn [app length] in IH.
    replace (Z.succ (1 + Z.of_nat (length pre)))
      with (1 + Z.of_nat (length pre + 1)) by lia.
    exact IH.
Qed.

Lemma _populate_caches_generic_sparse {F} {HF : Number F} (xs : list F) group_vec
    (c : caches F) :
  _populate_caches_generic xs group_vec c
  = _populate_caches_sparse (zip (range1 (length xs)) xs) group_vec c.
Proof.
  unfold _populate_caches_generic, _populate_caches_sparse.
  rewrite zip_rowvals_nonzeros. apply (_populate_caches_generic_from [] xs).
Qed.

Lemma Riszero_true_inv (x : R) : Riszero x = true -> x = 0%R.
Proof. unfold Riszero. destruct (Req_dec_T x 0); [auto | discriminate]. Qed.

(** In exact arithmetic, the sparse method on the non-zero entries only
    leaves the sums the method leaves on all the entries. *)
Lemma _populate_caches_sparse_skip_zeros (entries : list (Z * R)) group_vec
    (sd sd' ss : caches R) :
  same_sums sd ss ->
  _populate_caches_sparse entries group_vec sd = Ok (tt, sd') ->
  exists ss',
    _populate_caches_sparse (List.filter (fun e => negb (fiszero (snd e))) entries)
                            group_vec ss = Ok (tt, ss') /\
    same_sums sd' ss'.
Proof.
  unfold _populate_caches_sparse. rewrite !zip_rowvals_nonzeros.
  revert sd ss. induction entries as [|[i x] entries IH]; intros sd ss Hrel Hrun.
  - cbn in Hrun. injection Hrun as <-. exists ss. split; [reflexivity | exact Hrel].
  - cbn [for_each] in Hrun. apply bind_Ok in Hrun as ([] & s1 & Hbody & Hrest).
    apply bind_Ok in Hbody as (g & s & Hg & Hbody). apply lift_Ok in Hg as [Hg ->].
    apply bind_Ok in Hbody as ([] & s2 & Hadd & Hincr).
    rewrite sum_cache_add_run in Hadd.
    destruct (getindex (sum_cache sd) g) as [old|] eqn:Hold; [|discriminate].
    injection Hadd as <-.
    rewrite prev_cache_incr_run in Hincr. cbn [prev_cache set_sum] in Hincr.
    destruct (getindex (prev_cache sd) g) as [k|] eqn:Hk; [|discriminate].
    injection Hincr as <-.
    destruct Hrel as (Ha & Hm & Hs & Hgc & Hlen).
    cbn [List.filter snd]. destruct (fiszero x) eqn:Hx; cbn [negb].
    + apply (IH _ ss) in Hrest; [exact Hrest|].
      apply Riszero_true_inv in Hx. subst x.
      unfold same_sums. cbn. rewrite length_insert.
      repeat split; try assumption.
      rewrite <- Hs. apply list_insert_id. apply getindex_Ok in Hold as [_ Hold].
      rewrite Hold. f_equal. cbn. lra.
    + destruct (getindex_in_range (prev_cache ss) g) as [k' Hk'].
      { rewrite <- Hlen. eapply getindex_range; eauto. }
      destruct (IH (set_prev (<[Z.to_nat (g - 1) := int_add k 1]> (prev_cache sd))
                     (set_sum (<[Z.to_nat (g - 1) := fadd old x]> (sum_cache sd)) sd))
                   (set_prev (<[Z.to_nat (g - 1) := int_add k' 1]> (prev_cache ss))
                     (set_sum (<[Z.to_nat (g - 1) := fadd old x]> (sum_cache ss)) ss)))
        as (ss' & Hrun' & Hrel'); [|exact Hrest|].
      { unfold same_sums. cbn. rewrite !length_insert, Hs. auto. }
      exists ss'. split; [|exact Hrel'].
      cbn [for_each]. unfold bind at 1. unfold bind at 1. unfold lift at 1. rewrite Hg.
      unfold bind at 1. rewrite sum_cache_add_run, <- Hs, Hold.
      rewrite prev_cache_incr_run. cbn [prev_cache set_sum]. rewrite Hk'.
      rewrite <- Hs in Hrun'. exact Hrun'.
Qed.

(** In exact arithmetic the aggregation of a dense vector and of its
    sparse representation leave the same sums and the same means. *)
Lemma dense_sparse_sums_means (xs : list R) group_vec (c cd : caches R) :
  groupby_mean (Dense xs) group_vec false c = Ok (tt, cd) ->
  exists cs,
    groupby_mean (Sparse (Z.of_nat (length xs)) (sparse_of xs)) group_vec false c
    = Ok (tt, cs) /\
    sum_cache cs = sum_cache cd /\ mean_cache cs = mean_cache cd.
Proof.
  rewrite !groupby_mean_run. cbn [_populate_caches].
  rewrite _populate_caches_generic_sparse.
  destruct (_populate_caches_sparse (zip (range1 (length xs)) xs) group_vec (reset c))
    as [[[] sd]|] eqn:Hd; [|discriminate].
  destruct (_populate_caches_sparse_skip_zeros (zip (range1 (length xs)) xs) group_vec
              (reset c) sd (reset c)) as (ss & Hs & Hrel);
    [repeat split | exact Hd |].
  unfold sparse_of. rewrite Hs.
  destruct Hrel as (Ha & Hm & Hsum & Hgc & Hlen). rewrite <- Hm, <- Hsum, <- Hgc.
  destruct (broadcast_div _ _ _) as [m|]; [|discriminate].
  intros [= <-]. eexists. split; [reflexivity|]. cbn. auto.
Qed.

(** C3 (the code departs from it). The dense vector [[0, 4]] and its
    sparse representation, in one group: the sums and the means agree (as
    they do on every dense vector, [dense_sparse_sums_means]), the counts
    do not: the generic fallback counts the zero as well. *)
Theorem dense_sparse_counts :
  exists cd cs : caches R,
    groupby_mean (Dense [0; 4]%R) [1; 1] false (mk_caches [] [0%R] [0%R] [2] [0])
    = Ok (tt, cd) /\
    groupby_mean (Sparse 2 [(2, 4%R)]) [1; 1] false (mk_caches [] [0%R] [0%R] [2] [0])
    = Ok (tt, cs) /\
    sum_cache cd = sum_cache cs /\
    mean_cache cd = mean_cache cs /\
    prev_cache cd = [2] /\ prev_cache cs = [1].
Proof.
  eexists _, _. split; [vm_compute; reflexivity|]. split; [vm_compute; reflexivity|].
  cbn [sum_cache mean_cache prev_cache].
  split; [f_equal; lra|]. split; [f_equal; lra|]. split; reflexivity.
Qed.

(** ** The prevalence of a feature *)

Lemma Zsum_insert (l : list Z) k old :
  l !! k = Some old -> fold_right Z.add 0 (<[k := old + 1]> l) = fold_right Z.add 0 l + 1.
Proof.
  revert k. induction l as [|y l IH]; intros [|k]; simpl; try discriminate.
  - intros [= ->]. lia.
  - intros Hk. rewrite (IH k Hk). lia.
Qed.

Lemma int_sum_from (l : list Z) a :
  0 <= a -> Forall (fun k => 0 <= k) l -> a + fold_right Z.add 0 l < 2 ^ 63 ->
  fold_left int_add l a = a + fold_right Z.add 0 l.
Proof.
  revert a. induction l as [|k l IH]; intros a Ha Hl Hsum; simpl in *; [lia|].
  apply Forall_cons_1 in Hl as [Hk Hl].
  assert (Hrest : 0 <= fold_right Z.add 0 l).
  { clear -Hl. induction Hl; simpl; lia. }
  unfold int_add at 2. rewrite wrap64_id by (unfold int_range; lia).
  rewrite IH by (assumption || lia). lia.
Qed.

Lemma int_sum_nonneg (l : list Z) :
  Forall (fun k => 0 <= k) l -> fold_right Z.add 0 l < 2 ^ 63 ->
  int_sum l = fold_right Z.add 0 l.
Proof. intros Hl Hsum. unfold int_sum. rewrite int_sum_from by (assumption || lia). lia. Qed.

Lemma Zsum_replicate_0 n : fold_right Z.add 0 (replicate n 0) = 0.
Proof. induction n as [|n IH]; simpl; [reflexivity | exact IH]. Qed.

(** The sparse method counts every stored entry once. *)
Lemma _populate_caches_sparse_prev {F} {HF : Number F} (entries : list (Z * F)) group_vec
    (c c' : caches F) :
  _populate_caches_sparse entries group_vec c = Ok (tt, c') ->
  (exists n, prev_cache c = replicate n 0) ->
  Z.of_nat (length entries) < 2 ^ 63 ->
  int_sum (prev_cache c') = Z.of_nat (length entries).
Proof.
  unfold _populate_caches_sparse. rewrite zip_rowvals_nonzeros.
  intros Hrun [n Hzero] Hlen.
  assert (HI : Forall (fun k => 0 <= k) (prev_cache c') /\
               fold_right Z.add 0 (prev_cache c') = Z.of_nat (length entries)).
  { refine (for_each_partial
              (fun pre s => Forall (fun k => 0 <= k) (prev_cache s) /\
                            fold_right Z.add 0 (prev_cache s) = Z.of_nat (length pre))
              _ _ c c' _ _ Hrun).
    - rewrite Hzero. split; [apply Forall_replicate; lia | apply Zsum_replicate_0].
    - intros pre [i x] suf s1 s2 Hsplit [Hpos Hsum] Hb.
      apply bind_Ok in Hb as (g & s & Hg & Hb). apply lift_Ok in Hg as [Hg ->].
      apply bind_Ok in Hb as ([] & s & Hadd & Hincr).
      rewrite sum_cache_add_run in Hadd.
      destruct (getindex (sum_cache s1) g); [|discriminate]. injection Hadd as <-.
      rewrite prev_cache_incr_run in Hincr. cbn [prev_cache set_sum] in Hincr.
      destruct (getindex (prev_cache s1) g) as [k|] eqn:Hk; [|discriminate].
      injection Hincr as <-. cbn [prev_cache set_prev].
      apply getindex_Ok in Hk as [_ Hk].
      assert (Hk0 : 0 <= k) by (rewrite Forall_forall in Hpos; eapply Hpos, list_elem_of_lookup_2, Hk).
      assert (Hkle : k <= fold_right Z.add 0 (prev_cache s1)).
      { clear -Hpos Hk. revert Hk. generalize (Z.to_nat (g - 1)).
        induction Hpos as [|y l Hy Hl IH]; intros [|j]; simpl; try discriminate.
        - intros [= ->]. assert (0 <= fold_right Z.add 0 l) by (clear -Hl; induction Hl; simpl; lia).
          lia.
        - intros Hj. specialize (IH j Hj). lia. }
      rewrite Hsplit, length_app in Hlen. cbn [length] in Hlen.
      unfold int_add. rewrite wrap64_id by (unfold int_range; lia).
      split.
      + apply Forall_insert; [exact Hpos | lia].
      + rewrite (Zsum_insert _ _ _ Hk), Hsum, length_app. cbn [length]. lia. }
  destruct HI as [Hpos Hsum]. rewrite int_sum_nonneg; [exact Hsum | exact Hpos | lia].
Qed.

Section PrevalenceFacts.
Context {F : Type} {HF : Number F} {C L : Type}.
Variables (NaN : C) (Statistics_cor : list F -> list L -> res C).

Lemma fast_cor_binned_prev (v : vec F) (v2_binned : list Z) (bins_srt : list L)
    (log_means : bool) (c c' : caches F) (r : cor_result C) :
  all_iszero v = false ->
  _fast_cor_binned NaN Statistics_cor v v2_binned bins_srt log_means c = Ok (r, c') ->
  exists c1, groupby_mean v v2_binned false c = Ok (tt, c1) /\
             prev r = int_sum (prev_cache c1) /\
             n_bins_obs r = count_nonzero (prev_cache c1).
Proof.
  intros Hz. destruct log_means.
  - rewrite log_means_steps by exact Hz.
    destruct (groupby_mean v v2_binned false c) as [[[] c1]|]; [|discriminate].
    destruct (mean_pseudo_count _); [|discriminate].
    destruct (res_map _ _); [|discriminate].
    destruct (Statistics_cor _ _); [|discriminate].
    intros [= <- _]. exists c1. auto.
  - unfold _fast_cor_binned. rewrite Hz.
    intros ([] & c1 & Hg & Hrun)%bind_Ok.
    apply bind_Ok in Hrun as (p & s2 & Hp & Hrun). apply gets_Ok in Hp as [-> ->].
    apply bind_Ok in Hrun as (u & s3 & Hu & Hrun). apply ret_Ok in Hu as [-> ->].
    apply bind_Ok in Hrun as (m & s4 & Hm & Hrun). apply gets_Ok in Hm as [-> ->].
    apply bind_Ok in Hrun as (stat & s5 & Hstat & Hrun). apply lift_Ok in Hstat as [_ ->].
    apply bind_Ok in Hrun as (p' & s6 & Hp' & Hrun). apply gets_Ok in Hp' as [-> ->].
    apply ret_Ok in Hrun as [-> _]. exists c1. auto.
Qed.

Lemma groupby_mean_prev (v : vec F) (v2_binned : list Z) (c c' : caches F) :
  groupby_mean v v2_binned false c = Ok (tt, c') ->
  exists c1, _populate_caches v v2_binned (reset c) = Ok (tt, c1) /\
             prev_cache c' = prev_cache c1.
Proof.
  rewrite groupby_mean_run.
  destruct (_populate_caches v v2_binned (reset c)) as [[[] c1]|]; [|discriminate].
  destruct (broadcast_div _ _ _); [|discriminate].
  intros [= <-]. exists c1. auto.
Qed.

(** On sparse input the prevalence is the number of stored entries; on
    dense input it is the number of samples. *)
Lemma fast_cor_binned_prevalence (v : vec F) (v2_binned : list Z) (bins_srt : list L)
    (log_means : bool) (c c' : caches F) (r : cor_result C) :
  all_iszero v = false ->
  _fast_cor_binned NaN Statistics_cor v v2_binned bins_srt log_means c = Ok (r, c') ->
  Z.of_nat (length (values v)) < 2 ^ 63 ->
  prev r = Z.of_nat (length (values v)).
Proof.
  intros Hz Hrun Hlen.
  destruct (fast_cor_binned_prev _ _ _ _ _ _ _ Hz Hrun) as (c1 & Hg & -> & _).
  destruct (groupby_mean_prev _ _ _ _ Hg) as (c2 & Hpass & ->).
  assert (Hzero : exists n, prev_cache (reset c) = replicate n 0)
    by (eexists; reflexivity).
  destruct v as [xs|n entries]; cbn [_populate_caches values] in *.
  - rewrite _populate_caches_generic_sparse in Hpass.
    rewrite (_populate_caches_sparse_prev _ _ _ _ Hpass Hzero).
    + rewrite length_zip. unfold range1. rewrite length_seqZ. lia.
    + rewrite length_zip. unfold range1. rewrite length_seqZ. lia.
  - unfold nonzeros in *. rewrite length_map in *.
    apply (_populate_caches_sparse_prev _ _ _ _ Hpass Hzero Hlen).
Qed.

End PrevalenceFacts.

Lemma all_iszero_dense_0_4 : all_iszero (Dense [0; 4]%R) = false.
Proof.
  cbn. rewrite (Riszero_true 0 eq_refl), (Riszero_false 4) by lra. reflexivity.
Qed.

(** C7 (the code departs from it). On the dense vector [[0, 4]] of one
    group, the [prev] returned by [_fast_cor_binned] is 2, the number of
    samples, although one observation only is non-zero.  On sparse input
    [prev] is the number of stored entries, on dense input the number of
    samples ([fast_cor_binned_prevalence]). *)
Theorem dense_prevalence_counts_zeros :
  exists (r : cor_result (option R)) (c' : caches R),
    _fast_cor_binned None Rcor (Dense [0; 4]%R) [1; 1] [10] true
                     (mk_caches [] [0%R] [0%R] [2] [0]) = Ok (r, c') /\
    prev r = 2 /\
    length (filter (fun x => fiszero x = false) [0; 4]%R) = 1%nat.
Proof.
  assert (Hm : ((0 + 0 + 4) / 2 <> 0)%R) by lra.
  assert (Hpos : (0 < (0 + 0 + 4) / 2 + 0)%R) by lra.
  eexists _, _. split; [|split].
  - rewrite log_means_steps by exact all_iszero_dense_0_4.
    replace (groupby_mean (Dense [0; 4]%R) [1; 1] false (mk_caches [] [0%R] [0%R] [2] [0]))
      with (Ok (tt, mk_caches [] [((0 + 0 + 4) / 2)%R] [(0 + 0 + 4)%R] [2] [2]))
      by (vm_compute; reflexivity).
    unfold mean_pseudo_count. cbn [mean_cache forallb fiszero Rnumber].
    rewrite (Riszero_false _ Hm). cbn [negb andb res_map flog10 fadd fzero Rnumber].
    rewrite (Rlog10_pos _ Hpos). cbn [res_bind].
    unfold Rcor. cbn [length Nat.eqb]. reflexivity.
  - reflexivity.
  - rewrite filter_cons, filter_cons. cbn [fiszero Rnumber].
    rewrite (Riszero_true 0 eq_refl), (Riszero_false 4) by lra.
    reflexivity.
Qed.

(** ** The reliability filter *)

Lemma map_each_Forall2 {S A B} (f : A -> M S B) l s ys s' :
  map_each l f s = Ok (ys, s') ->
  Forall2 (fun x y => exists s1 s2, f x s1 = Ok (y, s2)) l ys.
Proof.
  revert s ys. induction l as [|x l IH]; intros s ys; cbn [map_each].
  - intros [-> _]%ret_Ok. constructor.
  - intros (y & s1 & Hy & Hrest)%bind_Ok.
    apply bind_Ok in Hrest as (ys' & s2 & Hys & Hret).
    apply ret_Ok in Hret as [-> ->].
    constructor; [eauto | eapply IH; eauto].
Qed.

Lemma base_zip_with_None {C O P} (rows : list (row C O)) (pvals : list P) :
  length pvals = length rows ->
  map base (zip_with (fun r p => mk_test_row r p None) rows pvals) = rows.
Proof.
  revert pvals. induction rows as [|r rows IH]; intros [|p pvals]; cbn;
    try discriminate; [reflexivity|].
  intros [= Hlen]. f_equal. apply IH. exact Hlen.
Qed.

Lemma base_zip_with_Some {C O P} (rows : list (row C O)) (pvals adj : list P) :
  length pvals = length rows -> length adj = length rows ->
  map base (zip_with (fun '(r, p) a => mk_test_row r p (Some a)) (zip rows pvals) adj)
  = rows.
Proof.
  revert pvals adj. induction rows as [|r rows IH]; intros [|p pvals] [|a adj]; cbn;
    try discriminate; [reflexivity|].
  intros [= Hlen] [= Hlen']. f_equal. apply IH; assumption.
Qed.

Section LatitudinalFacts.
Context {F : Type} {HF : Number F}.
Context {C L K O P : Type}.
Context `{Countable L} `{EqDecision K}.
Variables (NaN : C) (Statistics_cor : list F -> list L -> res C).
Variables (isless : L -> L -> bool) (nonneg : L -> bool).
Variables (fz_pval : C -> Z -> Z -> P) (adjust : list P -> list P).

Lemma count_nonzero_nonneg (v : list Z) : 0 <= count_nonzero v.
Proof. unfold count_nonzero. lia. Qed.

Lemma fast_cor_binned_n_bins_obs (v : vec F) (v2_binned : list Z) (bins_srt : list L)
    (log_means : bool) (c c' : caches F) (r : cor_result C) :
  _fast_cor_binned NaN Statistics_cor v v2_binned bins_srt log_means c = Ok (r, c') ->
  0 <= n_bins_obs r.
Proof.
  unfold _fast_cor_binned. destruct (all_iszero v).
  - intros [-> _]%ret_Ok. cbn. lia.
  - intros (u & s1 & _ & Hrun)%bind_Ok.
    apply bind_Ok in Hrun as (p & s2 & _ & Hrun).
    apply bind_Ok in Hrun as (u' & s3 & _ & Hrun).
    apply bind_Ok in Hrun as (m & s4 & _ & Hrun).
    apply bind_Ok in Hrun as (stat & s5 & _ & Hrun).
    apply bind_Ok in Hrun as (p' & s6 & _ & Hrun).
    apply ret_Ok in Hrun as [-> _]. cbn. apply count_nonzero_nonneg.
Qed.

Lemma snd_enumerate {A} (l : list A) : map snd (enumerate l) = l.
Proof.
  unfold enumerate, range1. apply snd_zip. rewrite length_seqZ. lia.
Qed.

Lemma cor_res_rows (otu_matn : keyed_matrix F K O) (lats_binned_indmap : list Z)
    (bins_srt : list L) (n_bins : Z) (c c' : caches F) (rows : list (row C O)) :
  cor_res NaN Statistics_cor otu_matn lats_binned_indmap bins_srt n_bins c
  = Ok (rows, c') ->
  map oid rows = axiskeys2 otu_matn /\
  Forall (fun r => 0 <= n_bins_obs (stats r)) rows.
Proof.
  unfold cor_res. intros Hall%map_each_Forall2.
  rewrite <- (snd_enumerate (axiskeys2 otu_matn)).
  induction Hall as [|[i o] r l rows (s1 & s2 & Hr) _ [IH1 IH2]]; [split; constructor|].
  apply bind_Ok in Hr as (v & s & _ & Hr).
  apply bind_Ok in Hr as (sub & s' & Hsub & Hr).
  apply ret_Ok in Hr as [-> _].
  apply fast_cor_binned_n_bins_obs in Hsub.
  split; [cbn; f_equal; exact IH1 | constructor; [exact Hsub | exact IH2]].
Qed.

(** What a completed call returns: the rows of the OTUs, split by the
    filter mask. *)
Lemma compute_latitudinal_abundance_cors_Ok
    (otu_matn : keyed_matrix F K O) (lats_binned : keyed_vector L K)
    (prev_min bins_obs_min_factor : Z) (do_FDR : bool)
    (test_df : list (test_row C O P)) (unrel_df : list (row C O)) :
  compute_latitudinal_abundance_cors NaN Statistics_cor isless nonneg fz_pval adjust
    otu_matn lats_binned prev_min bins_obs_min_factor do_FDR = Ok (test_df, unrel_df) ->
  exists (n_bins_obs_min : Z) (cor_df : list (row C O)),
    n_bins_obs_min_of
      (Z.of_nat (length (sort isless (unique (vector_data lats_binned)))))
      bins_obs_min_factor = Ok n_bins_obs_min /\
    map oid cor_df = axiskeys2 otu_matn /\
    Forall (fun r => 0 <= n_bins_obs (stats r)) cor_df /\
    unrel_df = List.filter (filt_mask prev_min n_bins_obs_min) cor_df /\
    map base test_df
    = List.filter (fun r => negb (filt_mask prev_min n_bins_obs_min r)) cor_df.
Proof.
  unfold compute_latitudinal_abundance_cors.
  destruct (negb (bool_decide _)); [discriminate|].
  destruct (negb (forallb _ _)); [discriminate|].
  destruct (n_bins_obs_min_of _ _) as [thr|] eqn:Hthr; [|discriminate].
  cbn [res_bind].
  destruct (res_map _ _) as [indmap|]; [|discriminate]. cbn [res_bind].
  destruct (for_each indmap group_count_incr _) as [counted|]; [|discriminate].
  cbn [res_bind].
  destruct (cor_res _ _ _ _ _ _ _) as [[cor_df c']|] eqn:Hres; [|discriminate].
  cbn [res_bind fst].
  apply cor_res_rows in Hres as [Hoid Hobs].
  intros Hret. exists thr, cor_df.
  split; [reflexivity|]. split; [exact Hoid|]. split; [exact Hobs|].
  destruct do_FDR.
  - destruct (Nat.eqb_spec
                (length (adjust (map (fun x => fz_pval (cor (stats x)) (n_obs x) 0)
                   (List.filter (fun r => negb (filt_mask prev_min thr r)) cor_df))))
                (length (List.filter (fun r => negb (filt_mask prev_min thr r)) cor_df)))
      as [Hlen|]; [|discriminate].
    injection Hret as <- <-. split; [reflexivity|].
    apply base_zip_with_Some; [apply length_map | exact Hlen].
  - injection Hret as <- <-. split; [reflexivity|].
    apply base_zip_with_None. apply length_map.
Qed.

End LatitudinalFacts.



(** C10. With the default factor -1 the minimum number of bins is 0: of a
    completed call, the table of unreliable OTUs holds exactly the rows
    whose prevalence is below [prev_min], and no row is there for its
    number of observed bins. *)
Theorem bins_obs_min_default :
  forall (F : Type) (HF : Number F) (C L K O P : Type)
         (EqL : EqDecision L) (CountL : Countable L) (EqK : EqDecision K)
         (NaN : C) (Statistics_cor : list F -> list L -> res C)
         (isless : L -> L -> bool) (nonneg : L -> bool)
         (fz_pval : C -> Z -> Z -> P) (adjust : list P -> list P)
         (otu_matn : keyed_matrix F K O) (lats_binned : keyed_vector L K)
         (prev_min : Z) (do_FDR : bool)
         (test_df : list (test_row C O P)) (unrel_df : list (row C O)),
    (forall n_bins, n_bins_obs_min_of n_bins (-1) = Ok 0) /\
    (compute_latitudinal_abundance_cors NaN Statistics_cor isless nonneg fz_pval adjust
       otu_matn lats_binned prev_min (-1) do_FDR = Ok (test_df, unrel_df) ->
     exists cor_df : list (row C O),
       map oid cor_df = axiskeys2 otu_matn /\
       unrel_df = List.filter (fun r => prev (stats r) <? prev_min) cor_df /\
       map base test_df = List.filter (fun r => negb (prev (stats r) <? prev_min)) cor_df /\
       (forall r, In r cor_df -> (n_bins_obs (stats r) <? 0) = false) /\
       (forall r, In r cor_df -> (In r unrel_df <-> prev (stats r) < prev_min))).
Proof.
  intros F HF C L K O P EqL CountL EqK NaN Statistics_cor isless nonneg fz_pval adjust
         otu_matn lats_binned prev_min do_FDR test_df unrel_df.
  split; [reflexivity|]. intros Hrun.
  apply compute_latitudinal_abundance_cors_Ok in Hrun
    as (thr & cor_df & Hthr & Hoid & Hobs & Hunrel & Htest).
  injection Hthr as <-.
  assert (Hbins : forall r, In r cor_df -> (n_bins_obs (stats r) <? 0) = false).
  { intros r Hin. rewrite Forall_forall in Hobs. apply Z.ltb_ge. apply Hobs.
    apply list_elem_of_In. exact Hin. }
  assert (Hmask : forall r, In r cor_df ->
            filt_mask prev_min 0 r = (prev (stats r) <? prev_min)).
  { intros r Hin. unfold filt_mask. rewrite (Hbins r Hin). apply orb_false_r. }
  exists cor_df. split; [exact Hoid|].
  split; [|split; [|split; [exact Hbins|]]].
  - rewrite Hunrel. apply List.filter_ext_in. exact Hmask.
  - rewrite Htest. apply List.filter_ext_in. intros r Hin. rewrite (Hmask r Hin).
    reflexivity.
  - intros r Hin. rewrite Hunrel, List.filter_In, (Hmask r Hin), Z.ltb_lt. tauto.
Qed.

(** ** The data set of the example *)

Lemma groupby_mean_reset {F} {HF : Number F} (v : vec F) group_vec b (c : caches F) :
  groupby_mean v group_vec b c = groupby_mean v group_vec b (reset c).
Proof. rewrite !groupby_mean_run, reset_reset. reflexivity. Qed.

Lemma demo_run_101 (a : list R) (m1 m2 s1 s2 : R) (k1 k2 : Z) :
  _fast_cor_binned None Rcor (Sparse 4 [(1, 4%R); (2, 6%R)]) [1; 2; 1; 2] [10; 20] true
                   (mk_caches a [m1; m2] [s1; s2] [2; 2] [k1; k2])
  = Ok (stats demo_row_101,
        mk_caches a demo_logged_101 [(0 + 4)%R; (0 + 6)%R] [2; 2] [1; 1]).
Proof.
  assert (H4 : (4 <> 0)%R) by lra.
  assert (Hm1 : ((0 + 4) / 2 <> 0)%R) by lra.
  assert (Hm2 : ((0 + 6) / 2 <> 0)%R) by lra.
  assert (Hp1 : (0 < (0 + 4) / 2 + 0)%R) by lra.
  assert (Hp2 : (0 < (0 + 6) / 2 + 0)%R) by lra.
  rewrite log_means_steps
    by (cbn; rewrite (Riszero_false _ H4); reflexivity).
  rewrite groupby_mean_reset.
  replace (groupby_mean (Sparse 4 [(1, 4%R); (2, 6%R)]) [1; 2; 1; 2] false
             (reset (mk_caches a [m1; m2] [s1; s2] [2; 2] [k1; k2])))
    with (Ok (tt, mk_caches a [((0 + 4) / 2)%R; ((0 + 6) / 2)%R]
                            [(0 + 4)%R; (0 + 6)%R] [2; 2] [1; 1]))
    by (vm_compute; reflexivity).
  unfold mean_pseudo_count. cbn [mean_cache forallb fiszero Rnumber].
  rewrite (Riszero_false _ Hm1), (Riszero_false _ Hm2).
  cbn [negb andb res_map flog10 fadd fzero Rnumber].
  rewrite (Rlog10_pos _ Hp1), (Rlog10_pos _ Hp2). cbn [res_bind].
  reflexivity.
Qed.

Lemma demo_run_102 (a : list R) (m1 m2 s1 s2 : R) (k1 k2 : Z) :
  _fast_cor_binned None Rcor (Sparse 4 [(1, 4%R)]) [1; 2; 1; 2] [10; 20] true
                   (mk_caches a [m1; m2] [s1; s2] [2; 2] [k1; k2])
  = Ok (stats demo_row_102,
        mk_caches a demo_logged_102 [(0 + 4)%R; 0%R] [2; 2] [1; 0]).
Proof.
  assert (H4 : (4 <> 0)%R) by lra.
  assert (Hm1 : ((0 + 4) / 2 <> 0)%R) by lra.
  assert (Hm2 : (0 / 2 = 0)%R) by lra.
  assert (Hp1 : (0 < (0 + 4) / 2 + (0 + 4) / 2 / 10)%R) by lra.
  assert (Hp2 : (0 < 0 / 2 + (0 + 4) / 2 / 10)%R) by lra.
  rewrite log_means_steps
    by (cbn; rewrite (Riszero_false _ H4); reflexivity).
  rewrite groupby_mean_reset.
  replace (groupby_mean (Sparse 4 [(1, 4%R)]) [1; 2; 1; 2] false
             (reset (mk_caches a [m1; m2] [s1; s2] [2; 2] [k1; k2])))
    with (Ok (tt, mk_caches a [((0 + 4) / 2)%R; (0 / 2)%R]
                            [(0 + 4)%R; 0%R] [2; 2] [1; 0]))
    by (vm_compute; reflexivity).
  unfold mean_pseudo_count. cbn [mean_cache forallb List.filter fiszero Rnumber].
  rewrite (Riszero_false _ Hm1), (Riszero_true _ Hm2).
  cbn [negb andb minimum fold_left fdiv of_int res_map flog10 fadd fzero Rnumber].
  rewrite (Rlog10_pos _ Hp1), (Rlog10_pos _ Hp2). cbn [res_bind].
  reflexivity.
Qed.

Lemma demo_cor_res :
  cor_res None Rcor demo_otu [1; 2; 1; 2] [10; 20] 2
          (mk_caches (replicate 4 0%R) [0; 0]%R [0; 0]%R [2; 2] [0; 0])
  = Ok ([demo_row_101; demo_row_102],
        mk_caches (replicate 4 0%R) demo_logged_102 [(0 + 4)%R; 0%R] [2; 2] [1; 0]).
Proof.
  unfold cor_res, demo_otu. cbn [axiskeys2 parent].
  change (enumerate [101; 102]) with [(1, 101); (2, 102)].
  cbn [map_each].
  unfold bind at 1. unfold bind at 1.
  change (view_column (SparseMatrixCSC 4 [[(1, 4%R); (2, 6%R)]; [(1, 4%R)]]) 1)
    with (Ok (Sparse 4 [(1, 4%R); (2, 6%R)])).
  cbn [lift]. unfold bind at 1. rewrite demo_run_101. cbn [ret].
  unfold bind at 1. unfold bind at 1. unfold bind at 1.
  change (view_column (SparseMatrixCSC 4 [[(1, 4%R); (2, 6%R)]; [(1, 4%R)]]) 2)
    with (Ok (Sparse 4 [(1, 4%R)])).
  cbn [lift]. unfold bind at 1. unfold demo_logged_101 at 1.
  rewrite demo_run_102. cbn [ret].
  reflexivity.
Qed.

Lemma demo_compute (prev_min f thr : Z) :
  n_bins_obs_min_of 2 f = Ok thr ->
  compute_latitudinal_abundance_cors None Rcor Z.ltb (Z.leb 0) demo_pval demo_adjust
    demo_otu demo_lats prev_min f true
  = Ok (map (fun r => mk_test_row r tt (Some tt))
            (List.filter (fun r => negb (filt_mask prev_min thr r))
                         [demo_row_101; demo_row_102]),
        List.filter (filt_mask prev_min thr) [demo_row_101; demo_row_102]).
Proof.
  intros Hthr.
  unfold compute_latitudinal_abundance_cors, demo_lats.
  cbn [axiskeys1 vector_keys vector_data].
  change (sort Z.ltb (unique [10; 20; 10; 20])) with [10; 20].
  change (negb (bool_decide (axiskeys1 demo_otu = [1; 2; 3; 4]%nat))) with false.
  change (negb (forallb (Z.leb 0) [10; 20; 10; 20])) with false.
  cbn iota. change (Z.of_nat (length [10; 20])) with 2. rewrite Hthr. cbn [res_bind].
  change (res_map (dict_getindex (make_indmap [10; 20])) [10; 20; 10; 20])
    with (Ok [1; 2; 1; 2]).
  cbn [res_bind].
  change (for_each [1; 2; 1; 2] group_count_incr
            (mk_caches (replicate (length (axiskeys1 demo_otu)) fzero)
                       (replicate (length [10; 20]) fzero)
                       (replicate (length [10; 20]) fzero)
                       (replicate (length [10; 20]) 0) (replicate (length [10; 20]) 0)))
    with (Ok (tt, mk_caches (replicate 4 0%R) [0; 0]%R [0; 0]%R [2; 2] [0; 0])).
  cbn [res_bind snd]. rewrite demo_cor_res. cbn [res_bind fst].
  unfold filt_mask, demo_row_101, demo_row_102, demo_adjust, demo_pval.
  cbn [List.filter stats prev n_bins_obs].
  destruct ((2 <? prev_min) || (2 <? thr)), ((1 <? prev_min) || (1 <? thr)); reflexivity.
Qed.



(** ** The statements above, on concrete inputs *)


Lemma groupby_mean_weighted_total_witness :
  shape 2 (mk_caches [] [0; 0]%R [0; 0]%R [3; 1] [0; 0]) /\
  Forall (fun z => 0 < z) (group_count_cache (mk_caches [] [0; 0]%R [0; 0]%R [3; 1] [0; 0])) /\
  groupby_mean (Sparse 4 [(1, 1%R); (2, 2%R); (4, 3%R)]) [1; 2; 1; 1] false
               (mk_caches [] [0; 0]%R [0; 0]%R [3; 1] [0; 0])
  = Ok (tt, mk_caches [] [(0 + 1 + 3) / 3; (0 + 2) / 1]%R [0 + 1 + 3; 0 + 2]%R
                      [3; 1] [2; 1]) /\
  (forall g, 1 <= g <= Z.of_nat 2 ->
     exists s z,
       getindex [0 + 1 + 3; 0 + 2]%R g = Ok s /\
       getindex [3; 1] g = Ok z /\
       getindex [(0 + 1 + 3) / 3; (0 + 2) / 1]%R g = Ok (s / IZR z)%R) /\
  Rsum (zip_with (fun m z => (m * IZR z)%R) [(0 + 1 + 3) / 3; (0 + 2) / 1]%R [3; 1])
  = Rsum [1; 2; 3]%R.
Proof.
  assert (H1 : shape 2 (mk_caches [] [0; 0]%R [0; 0]%R [3; 1] [0; 0])) by (repeat split).
  assert (H2 : Forall (fun z => 0 < z)
                 (group_count_cache (mk_caches [] [0; 0]%R [0; 0]%R [3; 1] [0; 0])))
    by (repeat constructor).
  assert (H3 : groupby_mean (Sparse 4 [(1, 1%R); (2, 2%R); (4, 3%R)]) [1; 2; 1; 1] false
                 (mk_caches [] [0; 0]%R [0; 0]%R [3; 1] [0; 0])
               = Ok (tt, mk_caches [] [(0 + 1 + 3) / 3; (0 + 2) / 1]%R
                                   [0 + 1 + 3; 0 + 2]%R [3; 1] [2; 1]))
    by (vm_compute; reflexivity).
  repeat (split; [assumption|]).
  exact (groupby_mean_weighted_total _ _ _ _ 2%nat H1 H2 H3).
Defined.

Lemma groupby_mean_repeatable_witness :
  (length (mean_cache (mk_caches [] [9; 9]%R [7; 7]%R [2; 1] [5; 5]))
   = length (mean_cache (mk_caches [] [0; 0]%R [0; 0]%R [2; 1] [0; 0])) /\
   length (sum_cache (mk_caches [] [9; 9]%R [7; 7]%R [2; 1] [5; 5]))
   = length (sum_cache (mk_caches [] [0; 0]%R [0; 0]%R [2; 1] [0; 0])) /\
   length (prev_cache (mk_caches [] [9; 9]%R [7; 7]%R [2; 1] [5; 5]))
   = length (prev_cache (mk_caches [] [0; 0]%R [0; 0]%R [2; 1] [0; 0])) /\
   group_count_cache (mk_caches [] [9; 9]%R [7; 7]%R [2; 1] [5; 5])
   = group_count_cache (mk_caches [] [0; 0]%R [0; 0]%R [2; 1] [0; 0]) /\
   abunds_cache (mk_caches [] [9; 9]%R [7; 7]%R [2; 1] [5; 5])
   = abunds_cache (mk_caches [] [0; 0]%R [0; 0]%R [2; 1] [0; 0]) /\
   groupby_mean (Dense [1; 2; 3]%R) [1; 2; 1] false
                (mk_caches [] [9; 9]%R [7; 7]%R [2; 1] [5; 5])
   = groupby_mean (Dense [1; 2; 3]%R) [1; 2; 1] false
                  (mk_caches [] [0; 0]%R [0; 0]%R [2; 1] [0; 0])) /\
  groupby_mean (Dense [1; 2; 3]%R) [1; 2; 1] false
               (mk_caches [] [9; 9]%R [7; 7]%R [2; 1] [5; 5])
  = Ok (tt, mk_caches [] [(0 + 1 + 3) / 2; (0 + 2) / 1]%R [0 + 1 + 3; 0 + 2]%R
                      [2; 1] [2; 1]) /\
  group_count_cache (mk_caches [] [(0 + 1 + 3) / 2; (0 + 2) / 1]%R [0 + 1 + 3; 0 + 2]%R
                               [2; 1] [2; 1])
  = group_count_cache (mk_caches [] [9; 9]%R [7; 7]%R [2; 1] [5; 5]) /\
  groupby_mean (Dense [1; 2; 3]%R) [1; 2; 1] false
               (mk_caches [] [(0 + 1 + 3) / 2; (0 + 2) / 1]%R [0 + 1 + 3; 0 + 2]%R
                          [2; 1] [2; 1])
  = Ok (tt, mk_caches [] [(0 + 1 + 3) / 2; (0 + 2) / 1]%R [0 + 1 + 3; 0 + 2]%R
                      [2; 1] [2; 1]).
Proof.
  assert (H1 : groupby_mean (Dense [1; 2; 3]%R) [1; 2; 1] false
                 (mk_caches [] [9; 9]%R [7; 7]%R [2; 1] [5; 5])
               = Ok (tt, mk_caches [] [(0 + 1 + 3) / 2; (0 + 2) / 1]%R
                                   [0 + 1 + 3; 0 + 2]%R [2; 1] [2; 1]))
    by (vm_compute; reflexivity).
  split.
  - repeat (split; [reflexivity|]).
    apply (proj1 (proj2 (groupby_mean_repeatable R Rnumber (Dense [1; 2; 3]%R)
                           [1; 2; 1] false))); reflexivity.
  - split; [exact H1|].
    exact (proj2 (proj2 (groupby_mean_repeatable R Rnumber (Dense [1; 2; 3]%R)
                           [1; 2; 1] false)) _ _ H1).
Defined.

Lemma bins_obs_min_default_witness :
  compute_latitudinal_abundance_cors None Rcor Z.ltb (Z.leb 0) demo_pval demo_adjust
    demo_otu demo_lats 2 (-1) true
  = Ok ([mk_test_row demo_row_101 tt (Some tt)], [demo_row_102]) /\
  exists cor_df : list (row (option R) Z),
    map oid cor_df = [101; 102] /\
    [demo_row_102] = List.filter (fun r => prev (stats r) <? 2) cor_df /\
    [demo_row_101] = List.filter (fun r => negb (prev (stats r) <? 2)) cor_df /\
    (forall r, In r cor_df -> (n_bins_obs (stats r) <? 0) = false) /\
    (forall r, In r cor_df -> (In r [demo_row_102] <-> prev (stats r) < 2)).
Proof.
  assert (H1 : compute_latitudinal_abundance_cors None Rcor Z.ltb (Z.leb 0)
                 demo_pval demo_adjust demo_otu demo_lats 2 (-1) true
               = Ok ([mk_test_row demo_row_101 tt (Some tt)], [demo_row_102]))
    by (apply (demo_compute 2 (-1) 0); reflexivity).
  split; [exact H1|].
  exact (proj2 (bins_obs_min_default R Rnumber (option R) Z nat Z unit _ _ _
                  None Rcor Z.ltb (Z.leb 0) demo_pval demo_adjust demo_otu demo_lats
                  2 true [mk_test_row demo_row_101 tt (Some tt)] [demo_row_102]) H1).
Defined.

(** * Further properties of the code *)

(** ** When a pass completes *)

Lemma getindex_Err {A} (a : list A) i e :
  getindex a i = Err e -> e = BoundsError /\ ~ (1 <= i <= Z.of_nat (length a)).
Proof.
  intros He. split.
  - unfold getindex in He. destruct (1 <=? i); [|congruence].
    destruct (a !! Z.to_nat (i - 1)); congruence.
  - intros Hi. destruct (getindex_in_range a i Hi) as [x Hx]. congruence.
Qed.

Lemma getindex_outside {A} (a : list A) i :
  ~ (1 <= i <= Z.of_nat (length a)) -> getindex a i = Err BoundsError.
Proof.
  intros Hi. destruct (getindex a i) as [x|e] eqn:E.
  - apply getindex_range in E. contradiction.
  - apply getindex_Err in E as [-> _]. reflexivity.
Qed.

Lemma valid_group_true group_vec G i :
  valid_group group_vec G i = true <->
  exists g, getindex group_vec i = Ok g /\ 1 <= g <= Z.of_nat G.
Proof.
  unfold valid_group. destruct (getindex group_vec i) as [g|e]; split.
  - intros [H1 H2]%andb_true_iff. apply Z.leb_le in H1. apply Z.leb_le in H2.
    exists g. split; [reflexivity | lia].
  - intros (g' & [= <-] & Hg). apply andb_true_iff. split; apply Z.leb_le; lia.
  - discriminate.
  - intros (g & [=] & _).
Qed.

Section Completion.
Context {F : Type} {HF : Number F}.
Implicit Types (c s : caches F) (group_vec : list Z).

Lemma sparse_step_Ok group_vec G i (x : F) s :
  valid_group group_vec G i = true ->
  length (sum_cache s) = G -> length (prev_cache s) = G ->
  exists s',
    (group <- lift (getindex group_vec i) ;;
     sum_cache_add group x ;;
     prev_cache_incr group)%monad s = Ok (tt, s') /\ frame s s'.
Proof.
  intros (g & Hg & Hrange)%valid_group_true Hls Hlp.
  destruct (getindex_in_range (sum_cache s) g) as [old Hold]; [lia|].
  destruct (getindex_in_range (prev_cache s) g) as [k Hk]; [lia|].
  eexists. split.
  - unfold bind at 1. unfold lift at 1. rewrite Hg.
    unfold bind at 1. rewrite sum_cache_add_run, Hold.
    rewrite prev_cache_incr_run. cbn [prev_cache set_sum]. rewrite Hk. reflexivity.
  - unfold frame. cbn. rewrite !length_insert. auto.
Qed.

Lemma sparse_step_Err group_vec G i (x : F) s :
  valid_group group_vec G i = false ->
  length (sum_cache s) = G ->
  (group <- lift (getindex group_vec i) ;;
   sum_cache_add group x ;;
   prev_cache_incr group)%monad s = Err BoundsError.
Proof.
  intros Hinv Hls. unfold bind at 1. unfold lift at 1.
  destruct (getindex group_vec i) as [g|e] eqn:Hg.
  - unfold bind at 1. rewrite sum_cache_add_run.
    rewrite getindex_outside; [reflexivity|].
    intros Hrange. rewrite Hls in Hrange.
    assert (valid_group group_vec G i = true)
      by (apply valid_group_true; eauto).
    congruence.
  - apply getindex_Err in Hg as [-> _]. reflexivity.
Qed.

(** The sparse pass completes when every stored sample has a group among
    the accumulators, and raises [BoundsError] otherwise. *)
Lemma _populate_caches_sparse_completes (entries : list (Z * F)) group_vec G c :
  length (sum_cache c) = G -> length (prev_cache c) = G ->
  if forallb (valid_group group_vec G) (rowvals entries)
  then exists c', _populate_caches_sparse entries group_vec c = Ok (tt, c') /\ frame c c'
  else _populate_caches_sparse entries group_vec c = Err BoundsError.
Proof.
  unfold _populate_caches_sparse. rewrite zip_rowvals_nonzeros.
  revert c. induction entries as [|[i x] entries IH]; intros c Hls Hlp.
  - cbn. exists c. split; [reflexivity | apply frame_refl].
  - cbn [rowvals map fst forallb for_each].
    destruct (valid_group group_vec G i) eqn:Hi; cbn [andb].
    + destruct (sparse_step_Ok group_vec G i x c Hi Hls Hlp) as (s & Hstep & Hfr).
      pose proof Hfr as (_ & _ & _ & Hls' & Hlp').
      specialize (IH s ltac:(congruence) ltac:(congruence)). fold (rowvals entries).
      destruct (forallb (valid_group group_vec G) (rowvals entries)).
      * destruct IH as (c' & Hrun & Hfr'). exists c'.
        unfold bind at 1. rewrite Hstep. split; [exact Hrun|].
        eapply frame_trans; eauto.
      * unfold bind at 1. rewrite Hstep. exact IH.
    + unfold bind at 1. rewrite (sparse_step_Err group_vec G i x c Hi Hls). reflexivity.
Qed.

Lemma rowvals_visited_dense (xs : list F) :
  rowvals (visited (Dense xs)) = range1 (length xs).
Proof.
  unfold rowvals, visited. apply fst_zip. unfold range1. rewrite length_seqZ. lia.
Qed.

Lemma _populate_caches_visited (v : vec F) group_vec c :
  _populate_caches v group_vec c = _populate_caches_sparse (visited v) group_vec c.
Proof.
  destruct v as [xs|n entries]; cbn [_populate_caches visited]; [|reflexivity].
  apply _populate_caches_generic_sparse.
Qed.

End Completion.

(** X3. On accumulators of [G] groups, the aggregation without log
    transform completes when every sample it visits (all the samples of a
    dense vector, the stored ones of a sparse vector) has a group in
    [1..G], and raises [BoundsError] otherwise: no other exception leaves
    it. *)
Theorem groupby_mean_completes_or_bounds :
  forall (F : Type) (HF : Number F) (v : vec F) (group_vec : list Z)
         (c : caches F) (G : nat),
    shape G c ->
    if forallb (valid_group group_vec G) (rowvals (visited v))
    then exists c', groupby_mean v group_vec false c = Ok (tt, c')
    else groupby_mean v group_vec false c = Err BoundsError.
Proof.
  intros F HF v group_vec c G (Hlm & Hls & Hlg & Hlp).
  rewrite groupby_mean_run, _populate_caches_visited.
  pose proof (_populate_caches_sparse_completes (visited v) group_vec G (reset c)) as Hpass.
  unfold reset in Hpass at 1 2. cbn [sum_cache prev_cache] in Hpass.
  rewrite !length_fill in Hpass. specialize (Hpass Hls Hlp).
  destruct (forallb (valid_group group_vec G) (rowvals (visited v))).
  - destruct Hpass as (c1 & -> & Ha & Hm & Hg & Hs & Hp).
    unfold reset in Hm, Hg, Hs. cbn [mean_cache sum_cache group_count_cache] in Hm, Hg, Hs.
    rewrite length_fill in Hs.
    rewrite broadcast_div_same by (rewrite Hm, length_fill; congruence).
    eexists. reflexivity.
  - rewrite Hpass. reflexivity.
Qed.

(** ** The sums and the counts, group by group *)

Section GroupSums.
Context {F : Type} {HF : Number F}.
Implicit Types (c s : caches F) (group_vec : list Z).

Lemma present_app group_vec g (l1 l2 : list (Z * F)) :
  present group_vec g (l1 ++ l2) = present group_vec g l1 ++ present group_vec g l2.
Proof. unfold present, nonzeros. rewrite List.filter_app, map_app. reflexivity. Qed.

Lemma present_length_le group_vec g (l : list (Z * F)) :
  (length (present group_vec g l) <= length l)%nat.
Proof. unfold present, nonzeros. rewrite length_map. apply List.filter_length_le. Qed.

Lemma present_single group_vec g i (x : F) g0 :
  getindex group_vec i = Ok g0 ->
  present group_vec g [(i, x)] = if g0 =? g then [x] else [].
Proof.
  intros Hg0. unfold present, in_group. cbn [List.filter fst]. rewrite Hg0.
  destruct (g0 =? g); reflexivity.
Qed.

(** The sparse pass, started on zeroed sums and counts: the sum of a group
    is the sum of its stored values in the order of the vector, its count
    their number. *)
Lemma _populate_caches_sparse_groups (entries : list (Z * F)) group_vec G c :
  sum_cache c = replicate G fzero -> prev_cache c = replicate G 0 ->
  forallb (valid_group group_vec G) (rowvals entries) = true ->
  Z.of_nat (length entries) < 2 ^ 63 ->
  exists c',
    _populate_caches_sparse entries group_vec c = Ok (tt, c') /\ frame c c' /\
    forall g, 1 <= g <= Z.of_nat G ->
      getindex (sum_cache c') g = Ok (fold_left fadd (present group_vec g entries) fzero) /\
      getindex (prev_cache c') g = Ok (Z.of_nat (length (present group_vec g entries))).
Proof.
  intros Hs0 Hp0 Hvalid Hlen.
  unfold _populate_caches_sparse. rewrite zip_rowvals_nonzeros.
  pose (I := fun (pre : list (Z * F)) (s : caches F) =>
    frame c s /\
    forall g, 1 <= g <= Z.of_nat G ->
      getindex (sum_cache s) g = Ok (fold_left fadd (present group_vec g pre) fzero) /\
      getindex (prev_cache s) g = Ok (Z.of_nat (length (present group_vec g pre)))).
  destruct (for_each_total I (fun '(i, val) =>
      (group <- lift (getindex group_vec i) ;;
       sum_cache_add group val ;;
       prev_cache_incr group)%monad) entries c) as (c' & Hrun & Hfr & Hinv).
  - split; [apply frame_refl|]. intros g Hg. cbn.
    rewrite Hs0, Hp0, !getindex_replicate by lia. auto.
  - intros pre [i x] suf s Hsplit (Hfr & Hinv).
    assert (Hi : valid_group group_vec G i = true).
    { rewrite forallb_forall in Hvalid. apply Hvalid. unfold rowvals.
      apply in_map_iff. exists (i, x). split; [reflexivity|].
      rewrite Hsplit. apply in_or_app. right. left. reflexivity. }
    apply valid_group_true in Hi as (g0 & Hg0 & Hrange0).
    destruct (Hinv g0 Hrange0) as (Hsum0 & Hprev0).
    pose proof (getindex_range _ _ _ Hsum0) as Hr1.
    pose proof (getindex_range _ _ _ Hprev0) as Hr2.
    eexists. split.
    + unfold bind at 1. unfold lift at 1. rewrite Hg0.
      unfold bind at 1. rewrite sum_cache_add_run, Hsum0.
      rewrite prev_cache_incr_run. cbn [prev_cache set_sum]. rewrite Hprev0. reflexivity.
    + split.
      * eapply frame_trans; [exact Hfr|]. unfold frame. cbn. rewrite !length_insert. auto.
      * intros g Hg. cbn [sum_cache prev_cache set_prev set_sum].
        rewrite !getindex_insert by lia.
        rewrite present_app, (present_single group_vec g i x g0 Hg0).
        destruct (Hinv g Hg) as (Hsum & Hprev).
        destruct (Z.eqb_spec g g0) as [->|Hne].
        -- rewrite Z.eqb_refl.
           rewrite fold_left_snoc, length_app. cbn [length]. split; [reflexivity|].
           f_equal. unfold int_add.
           pose proof (present_length_le group_vec g0 pre) as Hle.
           rewrite Hsplit, length_app in Hlen. cbn [length] in Hlen.
           rewrite wrap64_id by (unfold int_range; lia). lia.
        -- replace (g0 =? g) with false by (symmetry; apply Z.eqb_neq; lia).
           rewrite app_nil_r. auto.
  - exists c'. auto.
Qed.

End GroupSums.

(** The groups of a call without logarithm, on accumulators of [G]
    groups. *)
Lemma groupby_mean_groups {F : Type} {HF : Number F} (v : vec F) (group_vec : list Z)
    (c : caches F) (G : nat) :
  shape G c ->
  forallb (valid_group group_vec G) (rowvals (visited v)) = true ->
  Z.of_nat (length (visited v)) < 2 ^ 63 ->
  exists c',
    groupby_mean v group_vec false c = Ok (tt, c') /\
    forall g, 1 <= g <= Z.of_nat G ->
      exists size,
        getindex (group_count_cache c) g = Ok size /\
        getindex (sum_cache c') g
        = Ok (fold_left fadd (present group_vec g (visited v)) fzero) /\
        getindex (prev_cache c') g
        = Ok (Z.of_nat (length (present group_vec g (visited v)))) /\
        getindex (mean_cache c') g
        = Ok (fdiv (fold_left fadd (present group_vec g (visited v)) fzero)
                   (of_int size)).
Proof.
  intros (Hlm & Hls & Hlg & Hlp) Hvalid Hlen.
  destruct (_populate_caches_sparse_groups (visited v) group_vec G (reset c))
    as (c1 & Hrun & (Ha & Hm & Hg & Hs & Hp) & Hgroups); try assumption.
  { unfold reset, fill. cbn. rewrite Hls. reflexivity. }
  { unfold reset, fill. cbn. rewrite Hlp. reflexivity. }
  unfold reset in Hm, Hg, Hs. cbn [mean_cache sum_cache group_count_cache] in Hm, Hg, Hs.
  rewrite length_fill in Hs.
  eexists. split.
  - rewrite groupby_mean_run, _populate_caches_visited, Hrun.
    rewrite broadcast_div_same by (rewrite Hm, length_fill; congruence). reflexivity.
  - intros g Hrange. destruct (Hgroups g Hrange) as (Hsum & Hprev).
    destruct (getindex_in_range (group_count_cache c) g) as [size Hsize]; [lia|].
    exists size. cbn [sum_cache prev_cache mean_cache set_mean].
    repeat split; try assumption.
    apply (getindex_zip_with (fun x g => fdiv x (of_int g))); [exact Hsum|].
    rewrite Hg. exact Hsize.
Qed.

(** X2. The aggregation without log transform, on a vector whose visited
    samples all have a group in [1..G] (fewer than 2^63 of them) and on
    accumulators of [G] groups, completes; the sum of every group is the
    sum of the visited values of the group, added from zero in the order of
    the vector, its count is their number, and its mean is the sum divided
    by the size of the group. *)
Theorem groupby_mean_group_sums :
  forall (F : Type) (HF : Number F) (v : vec F) (group_vec : list Z)
         (c : caches F) (G : nat),
    shape G c ->
    forallb (valid_group group_vec G) (rowvals (visited v)) = true ->
    Z.of_nat (length (visited v)) < 2 ^ 63 ->
    exists c',
      groupby_mean v group_vec false c = Ok (tt, c') /\
      forall g, 1 <= g <= Z.of_nat G ->
        exists size,
          getindex (group_count_cache c) g = Ok size /\
          getindex (sum_cache c') g
          = Ok (fold_left fadd (present group_vec g (visited v)) fzero) /\
          getindex (prev_cache c') g
          = Ok (Z.of_nat (length (present group_vec g (visited v)))) /\
          getindex (mean_cache c') g
          = Ok (fdiv (fold_left fadd (present group_vec g (visited v)) fzero)
                     (of_int size)).
Proof.
  intros F HF v group_vec c G. apply groupby_mean_groups.
Qed.

(** ** Observed bins and prevalence *)

Lemma count_nonzero_map {A} (f : A -> Z) (l : list A) :
  count_nonzero (map f l) = Z.of_nat (length (List.filter (fun x => negb (f x =? 0)) l)).
Proof.
  unfold count_nonzero. f_equal.
  induction l as [|x l IH]; [reflexivity|].
  cbn [map List.filter]. rewrite filter_cons.
  destruct (Z.eqb_spec (f x) 0) as [E|E]; cbn [negb].
  - rewrite decide_False by (intros H; apply H; exact E). exact IH.
  - rewrite decide_True by exact E. cbn [length]. f_equal. exact IH.
Qed.

Lemma getindex_map_range1 {A} (l : list A) (f : Z -> A) G :
  length l = G ->
  (forall g, 1 <= g <= Z.of_nat G -> getindex l g = Ok (f g)) ->
  l = map f (range1 G).
Proof.
  intros Hlen Hget. apply list_eq. intros k.
  change (map f (range1 G)) with (f <$> range1 G). rewrite list_lookup_fmap.
  unfold range1. destruct (decide (k < G)%nat) as [Hk|Hk].
  - rewrite lookup_seqZ_lt by lia. cbn.
    specialize (Hget (1 + Z.of_nat k) ltac:(lia)).
    apply getindex_Ok in Hget as [_ Hget].
    replace (Z.to_nat (1 + Z.of_nat k - 1)) with k in Hget by lia. exact Hget.
  - rewrite lookup_seqZ_ge by lia. cbn. apply lookup_ge_None. lia.
Qed.

Section Observed.
Context {F : Type} {HF : Number F}.
Implicit Types (c s : caches F) (group_vec : list Z) (v : vec F).

Lemma observed_present group_vec v g :
  observed group_vec v g
  = negb (Z.of_nat (length (present group_vec g (visited v))) =? 0).
Proof.
  unfold observed, present, nonzeros. rewrite length_map.
  induction (visited v) as [|e l IH]; [reflexivity|].
  cbn [existsb List.filter]. destruct (in_group group_vec g e); [reflexivity | exact IH].
Qed.

(** Each visited sample makes one group at most observed. *)
Lemma length_filter_in_group group_vec (e : Z * F) (groups : list Z) :
  NoDup groups ->
  (length (List.filter (fun g => in_group group_vec g e) groups) <= 1)%nat.
Proof.
  unfold in_group. destruct (getindex group_vec e.1) as [g0|]; intros Hnd.
  - induction Hnd as [|g groups Hg Hnd IH]; cbn [List.filter length]; [lia|].
    destruct (Z.eqb_spec g0 g) as [->|Hne]; [|exact IH].
    cbn [length]. replace (List.filter (fun g' => g =? g') groups) with (@nil Z); [cbn; lia|].
    symmetry. clear IH Hnd. induction groups as [|g' groups IH]; [reflexivity|].
    cbn [List.filter]. destruct (Z.eqb_spec g g') as [->|Hne'].
    + exfalso. apply Hg. left.
    + apply IH. intros Hin. apply Hg. right. exact Hin.
  - induction groups as [|g groups IH]; cbn [List.filter length]; [lia|].
    apply IH. inversion Hnd; assumption.
Qed.

Lemma length_filter_observed group_vec (entries : list (Z * F)) (groups : list Z) :
  NoDup groups ->
  (length (List.filter (fun g => existsb (in_group group_vec g) entries) groups)
   <= length entries)%nat.
Proof.
  intros Hnd. induction entries as [|e entries IH].
  - cbn [existsb length]. induction groups as [|g groups IHg]; cbn; [lia|].
    apply IHg. inversion Hnd; assumption.
  - cbn [existsb length].
    pose proof (length_filter_in_group group_vec e groups Hnd) as He.
    assert (Hor : forall (p q : Z -> bool) (l : list Z),
              (length (List.filter (fun g => p g || q g) l)
               <= length (List.filter p l) + length (List.filter q l))%nat).
    { intros p q l. induction l as [|g l IHl]; cbn [List.filter length]; [lia|].
      destruct (p g), (q g); cbn [orb length]; lia. }
    specialize (Hor (fun g => in_group group_vec g e)
                    (fun g => existsb (in_group group_vec g) entries) groups).
    lia.
Qed.

End Observed.

Lemma length_visited {F} {HF : Number F} (v : vec F) :
  length (visited v) = length (values v).
Proof.
  destruct v as [xs|n entries]; cbn [visited values].
  - rewrite length_zip. unfold range1. rewrite length_seqZ. lia.
  - unfold nonzeros. rewrite length_map. reflexivity.
Qed.

Lemma visited_nonempty {F} {HF : Number F} (v : vec F) :
  all_iszero v = false -> visited v <> [].
Proof.
  destruct v as [[|x xs]|n [|e entries]]; cbn [all_iszero visited nonzeros map forallb];
    try discriminate; intros _.
  unfold range1. rewrite seqZ_cons by (cbn; lia). discriminate.
Qed.

(** A completed aggregation has visited samples with valid groups only. *)
Lemma groupby_mean_Ok_valid {F} {HF : Number F} (v : vec F) group_vec (c c' : caches F) G :
  shape G c -> groupby_mean v group_vec false c = Ok (tt, c') ->
  forallb (valid_group group_vec G) (rowvals (visited v)) = true.
Proof.
  intros (Hlm & Hls & Hlg & Hlp) Hrun.
  rewrite groupby_mean_run, _populate_caches_visited in Hrun.
  pose proof (_populate_caches_sparse_completes (visited v) group_vec G (reset c)) as Hpass.
  unfold reset in Hpass at 1 2. cbn [sum_cache prev_cache] in Hpass.
  rewrite !length_fill in Hpass. specialize (Hpass Hls Hlp).
  destruct (forallb (valid_group group_vec G) (rowvals (visited v))); [reflexivity|].
  rewrite Hpass in Hrun. discriminate.
Qed.

(** The counts a completed call returns, by the visited samples. *)
Lemma fast_cor_binned_visited :
  forall (F : Type) (HF : Number F) (C L : Type) (NaN : C)
         (Statistics_cor : list F -> list L -> res C)
         (v : vec F) (v2_binned : list Z) (bins_srt : list L) (log_means : bool)
         (c c' : caches F) (r : cor_result C) (G : nat),
    shape G c ->
    all_iszero v = false ->
    Z.of_nat (length (visited v)) < 2 ^ 63 ->
    _fast_cor_binned NaN Statistics_cor v v2_binned bins_srt log_means c = Ok (r, c') ->
    prev r = Z.of_nat (length (visited v)) /\
    n_bins_obs r = Z.of_nat (length (List.filter (observed v2_binned v) (range1 G))) /\
    1 <= n_bins_obs r <= Z.of_nat G /\
    n_bins_obs r <= prev r.
Proof.
  intros F HF C L NaN Statistics_cor v v2_binned bins_srt log_means c c' r G
         Hshape Hz Hlen Hrun.
  assert (Hprev : prev r = Z.of_nat (length (visited v))).
  { rewrite length_visited.
    apply (fast_cor_binned_prevalence NaN Statistics_cor v v2_binned bins_srt log_means
             c c' r Hz Hrun). rewrite <- length_visited. exact Hlen. }
  destruct (fast_cor_binned_prev NaN Statistics_cor _ _ _ _ _ _ _ Hz Hrun)
    as (c1 & Hg & _ & Hobs).
  pose proof (groupby_mean_Ok_valid _ _ _ _ _ Hshape Hg) as Hvalid.
  destruct (groupby_mean_prev _ _ _ _ Hg) as (c2 & Hpass & Hpc).
  destruct Hshape as (Hlm & Hls & Hlg & Hlp).
  destruct (_populate_caches_sparse_groups (visited v) v2_binned G (reset c))
    as (c3 & Hrun3 & (_ & _ & _ & _ & Hp3) & Hgroups); try assumption.
  { unfold reset, fill. cbn. rewrite Hls. reflexivity. }
  { unfold reset, fill. cbn. rewrite Hlp. reflexivity. }
  rewrite _populate_caches_visited, Hrun3 in Hpass. injection Hpass as <-.
  unfold reset in Hp3. cbn [prev_cache] in Hp3. rewrite length_fill in Hp3.
  assert (Hlist : prev_cache c3
                  = map (fun g => Z.of_nat (length (present v2_binned g (visited v))))
                        (range1 G)).
  { apply getindex_map_range1; [congruence|]. intros g Hrange.
    apply (Hgroups g Hrange). }
  assert (Hcount : n_bins_obs r
                   = Z.of_nat (length (List.filter (observed v2_binned v) (range1 G)))).
  { rewrite Hobs, Hpc, Hlist, count_nonzero_map. do 2 f_equal.
    apply List.filter_ext. intros g. symmetry. apply observed_present. }
  split; [exact Hprev|]. split; [exact Hcount|].
  rewrite Hcount, Hprev.
  pose proof (List.filter_length_le (observed v2_binned v) (range1 G)) as HleG.
  unfold range1 in HleG at 2. rewrite length_seqZ in HleG.
  pose proof (length_filter_observed v2_binned (visited v) (range1 G) (NoDup_range1 G))
    as Hleprev.
  fold (observed v2_binned v) in Hleprev.
  assert (Hpos : (1 <= length (List.filter (observed v2_binned v) (range1 G)))%nat).
  { destruct (visited v) as [|[i x] entries] eqn:Hv;
      [exfalso; eapply visited_nonempty; eauto|].
    cbn [rowvals map fst forallb] in Hvalid.
    apply andb_true_iff in Hvalid as [Hi _].
    apply valid_group_true in Hi as (g0 & Hg0 & Hrange0).
    assert (Hin : In g0 (List.filter (observed v2_binned v) (range1 G))).
    { apply List.filter_In. split.
      - apply list_elem_of_In, elem_of_range1. exact Hrange0.
      - unfold observed. rewrite Hv. cbn [existsb]. unfold in_group at 1. cbn [fst].
        rewrite Hg0, Z.eqb_refl. reflexivity. }
    destruct (List.filter (observed v2_binned v) (range1 G)); [contradiction | cbn; lia]. }
  lia.
Qed.

(** X4. Of a completed [_fast_cor_binned] on a vector that is not all
    zero, with accumulators of [G] groups: [prev] is the number of visited
    samples (the stored entries of a sparse vector, all the samples of a
    dense one), [n_bins_obs] is the number of groups that have a visited
    sample, and it is at least 1 and at most [G] and [prev]. *)
Theorem fast_cor_binned_counts :
  forall (F : Type) (HF : Number F) (C L : Type) (NaN : C)
         (Statistics_cor : list F -> list L -> res C)
         (v : vec F) (v2_binned : list Z) (bins_srt : list L) (log_means : bool)
         (c c' : caches F) (r : cor_result C) (G : nat),
    shape G c ->
    all_iszero v = false ->
    Z.of_nat (length (visited v)) < 2 ^ 63 ->
    _fast_cor_binned NaN Statistics_cor v v2_binned bins_srt log_means c = Ok (r, c') ->
    prev r = Z.of_nat (length (visited v)) /\
    n_bins_obs r = Z.of_nat (length (List.filter (observed v2_binned v) (range1 G))) /\
    1 <= n_bins_obs r <= Z.of_nat G /\
    n_bins_obs r <= prev r.
Proof. exact fast_cor_binned_visited. Qed.

(** X1. The generic fallback treats a dense vector as the sparse method
    treats the sparse vector that stores every entry of it, zeros
    included: the aggregation without log transform gives the same result
    on both, whatever the accumulators hold and whether it completes or
    not. *)
Theorem dense_as_fully_stored :
  forall (F : Type) (HF : Number F) (xs : list F) (group_vec : list Z) (c : caches F),
    _populate_caches (Dense xs) group_vec c
    = _populate_caches (Sparse (Z.of_nat (length xs)) (zip (range1 (length xs)) xs))
                       group_vec c /\
    groupby_mean (Dense xs) group_vec false c
    = groupby_mean (Sparse (Z.of_nat (length xs)) (zip (range1 (length xs)) xs))
                   group_vec false c.
Proof.
  intros F HF xs group_vec c. split.
  - apply _populate_caches_generic_sparse.
  - rewrite !groupby_mean_run. cbn [_populate_caches].
    rewrite _populate_caches_generic_sparse. reflexivity.
Qed.

(** X5. In exact arithmetic, when the aggregation without log transform
    of a dense vector completes, the aggregation of its sparse
    representation (the non-zero entries with their indices) completes
    too, with the same sums and the same means. *)
Theorem dense_sparse_same_sums_means :
  forall (xs : list R) (group_vec : list Z) (c cd : caches R),
    groupby_mean (Dense xs) group_vec false c = Ok (tt, cd) ->
    exists cs,
      groupby_mean (Sparse (Z.of_nat (length xs)) (sparse_of xs)) group_vec false c
      = Ok (tt, cs) /\
      sum_cache cs = sum_cache cd /\ mean_cache cs = mean_cache cd.
Proof. exact dense_sparse_sums_means. Qed.

(** ** The logarithm of the means *)

(** C6. For a value vector that is not all zero and with [log_means],
    [_fast_cor_binned] first aggregates the raw values without log
    transform; it then takes the logarithm of the means, not of the
    samples, with the pseudo-count of the means (zero when all the means
    are non-zero, otherwise the minimum non-zero mean divided by ten), and
    correlates the transformed means with the reference values; an
    exception of a step is the exception of the call.  On accumulators of
    [G] groups and samples with a group in [1..G] the aggregation
    completes, and the mean of a group is the sum of the raw values of its
    samples over its size. *)
Theorem fast_cor_binned_log_means :
  forall (F : Type) (HF : Number F) (C L : Type) (NaN : C)
         (Statistics_cor : list F -> list L -> res C)
         (val_vec : vec F) (v2_binned : list Z) (bins_srt : list L) (c : caches F)
         (G : nat),
    all_iszero val_vec = false ->
    _fast_cor_binned NaN Statistics_cor val_vec v2_binned bins_srt true c =
    match groupby_mean val_vec v2_binned false c with
    | Err e => Err e
    | Ok (_, c1) =>
        match mean_pseudo_count (mean_cache c1) with
        | Err e => Err e
        | Ok pcount =>
            match res_map (fun m => flog10 (fadd m pcount)) (mean_cache c1) with
            | Err e => Err e
            | Ok logged =>
                match Statistics_cor logged bins_srt with
                | Err e => Err e
                | Ok stat =>
                    Ok (mk_cor_result stat (count_nonzero (prev_cache c1))
                                      (int_sum (prev_cache c1)),
                        set_mean logged c1)
                end
            end
        end
    end /\
    (shape G c ->
     forallb (valid_group v2_binned G) (rowvals (visited val_vec)) = true ->
     Z.of_nat (length (visited val_vec)) < 2 ^ 63 ->
     exists (means : list F) (c1 : caches F),
       groupby_mean val_vec v2_binned false c = Ok (tt, c1) /\
       mean_cache c1 = means /\
       length means = G /\
       (forall g, 1 <= g <= Z.of_nat G ->
          exists size,
            getindex (group_count_cache c) g = Ok size /\
            getindex means g
            = Ok (fdiv (fold_left fadd (present v2_binned g (visited val_vec)) fzero)
                       (of_int size))) /\
       _fast_cor_binned NaN Statistics_cor val_vec v2_binned bins_srt true c =
       match mean_pseudo_count means with
       | Err e => Err e
       | Ok pcount =>
           match res_map (fun m => flog10 (fadd m pcount)) means with
           | Err e => Err e
           | Ok logged =>
               match Statistics_cor logged bins_srt with
               | Err e => Err e
               | Ok stat =>
                   Ok (mk_cor_result stat (count_nonzero (prev_cache c1))
                                     (int_sum (prev_cache c1)),
                       set_mean logged c1)
               end
           end
       end).
Proof.
  intros F HF C L NaN Statistics_cor val_vec v2_binned bins_srt c G Hz.
  split; [apply log_means_steps; exact Hz|].
  intros Hshape Hvalid Hlen.
  destruct (groupby_mean_groups val_vec v2_binned c G Hshape Hvalid Hlen)
    as (c1 & Hrun & Hgroups).
  destruct (groupby_mean_frame _ _ _ _ _ Hrun) as (_ & _ & Hlm & _ & _).
  destruct Hshape as (Hlm0 & _).
  exists (mean_cache c1), c1. split; [exact Hrun|]. split; [reflexivity|].
  split; [congruence|]. split.
  - intros g Hg. destruct (Hgroups g Hg) as (size & Hsize & _ & _ & Hmean).
    exists size. split; assumption.
  - rewrite log_means_steps by exact Hz. rewrite Hrun. reflexivity.
Qed.

(** X6. When the means of a vector that is not all zero are all zero
    (values that cancel in every group), [_fast_cor_binned] with
    [log_means] raises [ArgumentError]: there is a zero mean, and no
    non-zero mean to take the minimum of. *)
Theorem log_means_all_zero_means :
  forall (F : Type) (HF : Number F) (C L : Type) (NaN : C)
         (Statistics_cor : list F -> list L -> res C)
         (v : vec F) (v2_binned : list Z) (bins_srt : list L) (c c1 : caches F),
    all_iszero v = false ->
    groupby_mean v v2_binned false c = Ok (tt, c1) ->
    mean_cache c1 <> [] ->
    forallb fiszero (mean_cache c1) = true ->
    _fast_cor_binned NaN Statistics_cor v v2_binned bins_srt true c = Err ArgumentError.
Proof.
  intros F HF C L NaN Statistics_cor v v2_binned bins_srt c c1 Hz Hg Hne Hall.
  rewrite log_means_steps by exact Hz. rewrite Hg.
  unfold mean_pseudo_count.
  assert (Hfilter : List.filter (fun m => negb (fiszero m)) (mean_cache c1) = []).
  { clear -Hall. induction (mean_cache c1) as [|m l IH]; [reflexivity|].
    cbn [forallb] in Hall. apply andb_true_iff in Hall as [Hm Hl].
    cbn [List.filter]. rewrite Hm. cbn [negb]. exact (IH Hl). }
  assert (Hnone : forallb (fun m => negb (fiszero m)) (mean_cache c1) = false).
  { destruct (mean_cache c1) as [|m l]; [contradiction|].
    cbn [forallb] in *. apply andb_true_iff in Hall as [Hm _]. rewrite Hm. reflexivity. }
  rewrite Hnone, Hfilter. reflexivity.
Qed.

(** ** The index map of the bins *)

Lemma range1_S n : range1 (S n) = range1 n ++ [Z.of_nat n + 1].
Proof.
  unfold range1. rewrite seqZ_S. do 2 f_equal. lia.
Qed.

Lemma enumerate_snoc {A} (l : list A) (x : A) :
  enumerate (l ++ [x]) = enumerate l ++ [(Z.of_nat (length l) + 1, x)].
Proof.
  unfold enumerate. rewrite length_app. cbn [length].
  replace (length l + 1)%nat with (S (length l)) by lia. rewrite range1_S.
  rewrite zip_with_app; [reflexivity|]. unfold range1. rewrite length_seqZ. lia.
Qed.

Lemma getindex_app_l {A} (l1 l2 : list A) i x :
  getindex l1 i = Ok x -> getindex (l1 ++ l2) i = Ok x.
Proof.
  intros [Hi Hx]%getindex_Ok. apply getindex_Ok. split; [exact Hi|].
  apply lookup_app_l_Some. exact Hx.
Qed.

Lemma getindex_last {A} (l : list A) x :
  getindex (l ++ [x]) (Z.of_nat (length l) + 1) = Ok x.
Proof.
  apply getindex_Ok. split; [lia|].
  replace (Z.to_nat (Z.of_nat (length l) + 1 - 1)) with (length l) by lia.
  apply list_lookup_middle. reflexivity.
Qed.

Section Indmap.
Context {L : Type} `{Countable L}.
Implicit Types (l : list L) (x : L).

Lemma make_indmap_snoc l x :
  make_indmap (l ++ [x]) = <[x := Z.of_nat (length l) + 1]> (make_indmap l).
Proof. unfold make_indmap. rewrite enumerate_snoc, foldl_app. reflexivity. Qed.

(** The index map holds, for every element of the list, a position of it
    in the list, and nothing else. *)
Lemma make_indmap_lookup l x :
  match make_indmap l !! x with
  | Some i => getindex l i = Ok x
  | None => x ∉ l
  end.
Proof.
  induction l as [|y l IH] using rev_ind.
  - change (make_indmap []) with (∅ : gmap L Z). rewrite lookup_empty.
    apply not_elem_of_nil.
  - rewrite make_indmap_snoc. destruct (decide (y = x)) as [->|Hne].
    + rewrite lookup_insert_eq. apply getindex_last.
    + rewrite lookup_insert_ne by exact Hne.
      destruct (make_indmap l !! x) as [i|].
      * apply getindex_app_l. exact IH.
      * rewrite elem_of_app, list_elem_of_singleton. intros [Hin| ->]; [auto | congruence].
Qed.

Lemma elem_of_unique_from seen l x :
  x ∈ unique_from seen l <-> x ∈ l /\ x ∉ seen.
Proof.
  revert seen. induction l as [|y l IH]; intros seen; cbn [unique_from].
  - rewrite elem_of_nil. intuition.
  - destruct (decide (y ∈ seen)) as [Hy|Hy].
    + rewrite IH, elem_of_cons. split.
      * intros [Hin Hx]. auto.
      * intros [[->|Hin] Hx]; [contradiction | auto].
    + rewrite !elem_of_cons, IH, elem_of_cons. split.
      * intros [->|[Hin Hx]]; [auto|]. split; [auto|]. intros Hs. apply Hx. auto.
      * intros [[->|Hin] Hx]; [auto|].
        destruct (decide (x = y)) as [->|Hne]; [auto|]. right. split; [exact Hin|].
        intros [->|Hs]; [congruence | contradiction].
Qed.

Lemma NoDup_unique_from seen l : NoDup (unique_from seen l).
Proof.
  revert seen. induction l as [|y l IH]; intros seen; cbn [unique_from].
  - constructor.
  - destruct (decide (y ∈ seen)); [apply IH|].
    constructor; [|apply IH]. rewrite elem_of_unique_from, elem_of_cons.
    intros [_ Hn]. apply Hn. left. reflexivity.
Qed.

Lemma elem_of_unique l x : x ∈ unique l <-> x ∈ l.
Proof.
  unfold unique. rewrite elem_of_unique_from. split; [intros [? _]; assumption|].
  intros Hin. split; [exact Hin | apply not_elem_of_nil].
Qed.

Lemma sort_Permutation (isless : L -> L -> bool) l : sort isless l ≡ₚ l.
Proof. unfold sort. apply merge_sort_Permutation. Qed.

Lemma elem_of_bins (isless : L -> L -> bool) l x :
  x ∈ sort isless (unique l) <-> x ∈ l.
Proof. rewrite (sort_Permutation isless (unique l)). apply elem_of_unique. Qed.

Lemma NoDup_bins (isless : L -> L -> bool) l : NoDup (sort isless (unique l)).
Proof.
  rewrite (sort_Permutation isless (unique l)). apply NoDup_unique_from.
Qed.

(** With distinct bins, the index map is the inverse of the indexing. *)
Lemma make_indmap_getindex l i x :
  NoDup l -> getindex l i = Ok x -> make_indmap l !! x = Some i.
Proof.
  intros Hnd Hget. pose proof (make_indmap_lookup l x) as Hl.
  destruct (make_indmap l !! x) as [j|].
  - apply getindex_Ok in Hl as [Hj Hl]. apply getindex_Ok in Hget as [Hi Hget].
    pose proof (NoDup_lookup _ _ _ _ Hnd Hl Hget). f_equal. lia.
  - exfalso. apply Hl. apply getindex_Ok in Hget as [_ Hget].
    eapply list_elem_of_lookup_2. exact Hget.
Qed.

Lemma indmap_all (bins : list L) (lats : list L) :
  (forall x, x ∈ lats -> x ∈ bins) ->
  exists inds, res_map (dict_getindex (make_indmap bins)) lats = Ok inds /\
               Forall2 (fun x i => getindex bins i = Ok x) lats inds.
Proof.
  induction lats as [|x lats IH]; intros Hin.
  - exists []. split; [reflexivity | constructor].
  - destruct IH as (inds & Hmap & Hall); [intros y Hy; apply Hin; right; exact Hy|].
    pose proof (make_indmap_lookup bins x) as Hl.
    destruct (make_indmap bins !! x) as [i|] eqn:Hi.
    + exists (i :: inds). cbn [res_map]. unfold dict_getindex at 1. rewrite Hi, Hmap.
      split; [reflexivity|]. constructor; assumption.
    + exfalso. apply Hl, Hin. left.
Qed.

End Indmap.

(** The indices of the samples' bins. *)
Lemma bins_indmap_indices :
  forall (L : Type) (EqL : EqDecision L) (CountL : Countable L)
         (isless : L -> L -> bool) (lats : list L),
    let bins_srt := sort isless (unique lats) in
    exists lats_binned_indmap : list Z,
      res_map (dict_getindex (make_indmap bins_srt)) lats = Ok lats_binned_indmap /\
      Forall2 (fun x i => getindex bins_srt i = Ok x) lats lats_binned_indmap /\
      Forall (fun i => 1 <= i <= Z.of_nat (length bins_srt)) lats_binned_indmap /\
      (forall i, 1 <= i <= Z.of_nat (length bins_srt) -> i ∈ lats_binned_indmap) /\
      (forall i x, getindex bins_srt i = Ok x ->
                   dict_getindex (make_indmap bins_srt) x = Ok i).
Proof.
  intros L EqL CountL isless lats bins_srt.
  assert (Hbins : forall x, x ∈ bins_srt <-> x ∈ lats)
    by (intros x; apply elem_of_bins).
  assert (Hnd : NoDup bins_srt) by apply NoDup_bins.
  clearbody bins_srt.
  destruct (indmap_all bins_srt lats) as (inds & Hmap & Hall).
  { intros x Hx. apply Hbins. exact Hx. }
  assert (Hinv : forall i x, getindex bins_srt i = Ok x ->
                   dict_getindex (make_indmap bins_srt) x = Ok i).
  { intros i x Hget. unfold dict_getindex.
    rewrite (make_indmap_getindex bins_srt i x); [reflexivity | exact Hnd | exact Hget]. }
  exists inds. split; [exact Hmap|]. split; [exact Hall|]. split; [|split; [|exact Hinv]].
  - clear -Hall. induction Hall as [|x i xs js Hx _ IH]; constructor; [|exact IH].
    eapply getindex_range. exact Hx.
  - intros i Hi. destruct (getindex_in_range bins_srt i Hi) as [x Hx].
    assert (Hin : x ∈ lats).
    { apply Hbins. apply getindex_Ok in Hx as [_ Hx].
      eapply list_elem_of_lookup_2. exact Hx. }
    specialize (Hinv i x Hx). clear -Hall Hin Hinv Hmap.
    revert inds Hmap Hall. induction lats as [|y lats IH]; intros inds Hmap Hall.
    + apply elem_of_nil in Hin as [].
    + inversion Hall as [|? j ? inds' Hy Hall']; subst.
      cbn [res_map] in Hmap.
      destruct (dict_getindex (make_indmap bins_srt) y) as [j'|] eqn:Hj; [|discriminate].
      cbn [res_bind] in Hmap.
      destruct (res_map (dict_getindex (make_indmap bins_srt)) lats) as [js|] eqn:Hjs;
        [|discriminate].
      cbn [res_bind] in Hmap. injection Hmap as <- <-.
      apply elem_of_cons in Hin as [->|Hin].
      * apply elem_of_cons. left. congruence.
      * apply elem_of_cons. right. apply IH; [exact Hin | reflexivity | exact Hall'].
Qed.

(** X8. The bins and their index map: for every vector of latitude bins
    the look-up of each sample's bin in the index map of the sorted
    distinct bins succeeds (no [KeyError]), the index found is one of
    [1..n_bins] and leads back to the sample's bin, every index of
    [1..n_bins] is the one of some sample, and a bin is looked up at its
    own position. *)
Theorem indmap_round_trip :
  forall (L : Type) (EqL : EqDecision L) (CountL : Countable L)
         (isless : L -> L -> bool) (lats : list L),
    let bins_srt := sort isless (unique lats) in
    exists lats_binned_indmap : list Z,
      res_map (dict_getindex (make_indmap bins_srt)) lats = Ok lats_binned_indmap /\
      Forall2 (fun x i => getindex bins_srt i = Ok x) lats lats_binned_indmap /\
      Forall (fun i => 1 <= i <= Z.of_nat (length bins_srt)) lats_binned_indmap /\
      (forall i, 1 <= i <= Z.of_nat (length bins_srt) -> i ∈ lats_binned_indmap) /\
      (forall i x, getindex bins_srt i = Ok x ->
                   dict_getindex (make_indmap bins_srt) x = Ok i).
Proof. exact bins_indmap_indices. Qed.

(** ** The sizes of the groups *)

Lemma count_in_snoc inds i g :
  count_in (inds ++ [i]) g = count_in inds g + (if g =? i then 1 else 0).
Proof.
  unfold count_in. rewrite List.filter_app, length_app. cbn [List.filter].
  destruct (g =? i); cbn [length]; lia.
Qed.

Lemma count_in_bounds inds g : 0 <= count_in inds g <= Z.of_nat (length inds).
Proof.
  unfold count_in. pose proof (List.filter_length_le (Z.eqb g) inds). lia.
Qed.

Lemma count_in_pos inds g : g ∈ inds -> 0 < count_in inds g.
Proof.
  intros Hin. unfold count_in.
  assert (Hf : In g (List.filter (Z.eqb g) inds)).
  { apply List.filter_In. split; [apply list_elem_of_In; exact Hin | apply Z.eqb_refl]. }
  destruct (List.filter (Z.eqb g) inds); [contradiction | cbn [length]; lia].
Qed.

Lemma group_count_incr_run {F} (i : Z) (c : caches F) :
  group_count_incr i c =
  match getindex (group_count_cache c) i with
  | Ok old =>
      match setindex (group_count_cache c) (int_add old 1) i with
      | Ok g' => Ok (tt, mk_caches (abunds_cache c) (mean_cache c) (sum_cache c) g'
                                   (prev_cache c))
      | Err e => Err e
      end
  | Err e => Err e
  end.
Proof.
  unfold group_count_incr, bind, gets, lift, modify.
  destruct (getindex (group_count_cache c) i) as [old|]; [|reflexivity].
  destruct (setindex (group_count_cache c) (int_add old 1) i); reflexivity.
Qed.

(** The counting loop: each group's size grows by the number of the
    samples whose index is the group's, the rest of the accumulators
    stays. *)
Lemma group_count_loop {F} (inds : list Z) (c : caches F) (G : nat) :
  length (group_count_cache c) = G ->
  Forall (fun i => 1 <= i <= Z.of_nat G) inds ->
  Forall (fun k => - 2 ^ 63 <= k /\ k + Z.of_nat (length inds) < 2 ^ 63)
         (group_count_cache c) ->
  exists c', for_each inds group_count_incr c = Ok (tt, c') /\
    abunds_cache c' = abunds_cache c /\ mean_cache c' = mean_cache c /\
    sum_cache c' = sum_cache c /\ prev_cache c' = prev_cache c /\
    length (group_count_cache c') = G /\
    fold_right Z.add 0 (group_count_cache c')
    = fold_right Z.add 0 (group_count_cache c) + Z.of_nat (length inds) /\
    forall g old, getindex (group_count_cache c) g = Ok old ->
                  getindex (group_count_cache c') g = Ok (old + count_in inds g).
Proof.
  intros Hlen Hinds Hold.
  pose (I := fun (pre : list Z) (s : caches F) =>
    abunds_cache s = abunds_cache c /\ mean_cache s = mean_cache c /\
    sum_cache s = sum_cache c /\ prev_cache s = prev_cache c /\
    length (group_count_cache s) = G /\
    fold_right Z.add 0 (group_count_cache s)
    = fold_right Z.add 0 (group_count_cache c) + Z.of_nat (length pre) /\
    forall g old, getindex (group_count_cache c) g = Ok old ->
                  getindex (group_count_cache s) g = Ok (old + count_in pre g)).
  apply (for_each_total I).
  - unfold I. repeat (split; [reflexivity || exact Hlen|]).
    split; [cbn [length]; lia|].
    intros g old Hg. rewrite Hg. unfold count_in. cbn. f_equal. lia.
  - intros pre i suf s1 Hsplit (Ha & Hm & Hs & Hp & Hl & Hsum & Hget).
    assert (Hi : 1 <= i <= Z.of_nat G).
    { rewrite Forall_forall in Hinds. apply Hinds. rewrite Hsplit.
      rewrite elem_of_app, elem_of_cons. auto. }
    destruct (getindex_in_range (group_count_cache c) i ltac:(lia)) as [old Hold_i].
    pose proof (Hget i old Hold_i) as Hcur.
    assert (Hbound : - 2 ^ 63 <= old /\ old + Z.of_nat (length inds) < 2 ^ 63).
    { rewrite Forall_forall in Hold. apply Hold. apply getindex_Ok in Hold_i as [_ Hx].
      eapply list_elem_of_lookup_2. exact Hx. }
    pose proof (count_in_bounds pre i) as Hc.
    assert (Hpre : Z.of_nat (length pre) < Z.of_nat (length inds)).
    { rewrite Hsplit, length_app. cbn [length]. lia. }
    eexists. rewrite group_count_incr_run, Hcur.
    rewrite setindex_Ok by lia. split; [reflexivity|].
    unfold I. cbn [abunds_cache mean_cache sum_cache prev_cache group_count_cache].
    repeat (split; [assumption|]). split; [rewrite length_insert; exact Hl|].
    split.
    { unfold int_add. rewrite wrap64_id by (unfold int_range; lia).
      apply getindex_Ok in Hcur as [_ Hcur]. rewrite (Zsum_insert _ _ _ Hcur), Hsum.
      rewrite length_app. cbn [length]. lia. }
    intros g old' Hg. pose proof (getindex_range _ _ _ Hg) as Hgr.
    rewrite getindex_insert by lia. rewrite count_in_snoc.
    destruct (Z.eqb_spec g i) as [->|Hne].
    + assert (old' = old) by congruence. subst old'.
      unfold int_add. rewrite wrap64_id by (unfold int_range; lia). f_equal. lia.
    + rewrite (Hget g old' Hg). f_equal. lia.
Qed.

Lemma group_count_loop_bounds {F} (inds : list Z) (c : caches F) (G : nat) :
  length (group_count_cache c) = G ->
  forallb (fun i => (1 <=? i) && (i <=? Z.of_nat G)) inds = false ->
  for_each inds group_count_incr c = Err BoundsError.
Proof.
  revert c. induction inds as [|i inds IH]; intros c Hlen; cbn [forallb for_each];
    [discriminate|].
  unfold bind at 1. rewrite group_count_incr_run.
  destruct (Z.leb_spec 1 i) as [H1|H1]; cbn [andb].
  - destruct (Z.leb_spec i (Z.of_nat G)) as [H2|H2]; cbn [andb].
    + intros Hrest.
      destruct (getindex_in_range (group_count_cache c) i ltac:(lia)) as [old ->].
      rewrite setindex_Ok by lia. apply IH; [|exact Hrest].
      cbn [group_count_cache]. rewrite length_insert. exact Hlen.
    + intros _. rewrite getindex_outside by lia. reflexivity.
  - intros _. rewrite getindex_outside by lia. reflexivity.
Qed.

(** X9. The sizes of the groups: from counts of zero, the counting loop
    of [compute_latitudinal_abundance_cors] over a vector of group indices
    in [1..G] completes and leaves in [group_count_cache], for every
    group, the number of the samples of the group; the sizes add up to the
    number of the samples, and a group some sample belongs to has a
    positive size.  With an index outside [1..G] the loop fails with a
    [BoundsError]. *)
Theorem group_sizes_counted :
  forall (F : Type) (inds : list Z) (c : caches F) (G : nat),
    group_count_cache c = replicate G 0 ->
    Z.of_nat (length inds) < 2 ^ 63 ->
    if forallb (fun i => (1 <=? i) && (i <=? Z.of_nat G)) inds
    then exists c',
        for_each inds group_count_incr c = Ok (tt, c') /\
        group_count_cache c' = map (count_in inds) (range1 G) /\
        fold_right Z.add 0 (group_count_cache c') = Z.of_nat (length inds) /\
        (forall g, g ∈ inds -> exists size,
             getindex (group_count_cache c') g = Ok size /\ 0 < size)
    else for_each inds group_count_incr c = Err BoundsError.
Proof.
  intros F inds c G Hzero Hn.
  assert (Hlen : length (group_count_cache c) = G)
    by (rewrite Hzero; apply length_replicate).
  destruct (forallb _ inds) eqn:Hall.
  - destruct (group_count_loop inds c G Hlen) as (c' & Hrun & _ & _ & _ & _ & Hl & Hsum & Hget).
    { rewrite Forall_forall. intros i Hi. rewrite forallb_forall in Hall.
      specialize (Hall i (proj1 (list_elem_of_In _ _) Hi)).
      apply andb_true_iff in Hall as [H1 H2]. apply Z.leb_le in H1. apply Z.leb_le in H2.
      lia. }
    { rewrite Hzero. apply Forall_replicate. lia. }
    assert (Hsize : forall g, 1 <= g <= Z.of_nat G ->
              getindex (group_count_cache c') g = Ok (count_in inds g)).
    { intros g Hg. rewrite (Hget g 0); [f_equal; lia|].
      rewrite Hzero. apply getindex_replicate. exact Hg. }
    exists c'. split; [exact Hrun|]. split; [|split].
    + apply getindex_map_range1; assumption.
    + rewrite Hsum, Hzero, Zsum_replicate_0. lia.
    + intros g Hg. exists (count_in inds g). split; [|apply count_in_pos; exact Hg].
      apply Hsize. rewrite forallb_forall in Hall.
      specialize (Hall g (proj1 (list_elem_of_In _ _) Hg)).
      apply andb_true_iff in Hall as [H1 H2]. apply Z.leb_le in H1. apply Z.leb_le in H2.
      lia.
  - apply (group_count_loop_bounds inds c G Hlen Hall).
Qed.

(** ** The map over the OTUs on shared accumulators *)

Lemma same_accumulator_refl {F} (c : caches F) : same_accumulator c c.
Proof. unfold same_accumulator. auto. Qed.

Lemma map_each_related {S A B} (R : S -> Prop) (P : A -> B -> Prop)
    (f : A -> M S B) l s ys s' :
  (forall x s1 y s2, R s1 -> f x s1 = Ok (y, s2) -> R s2 /\ P x y) ->
  R s -> map_each l f s = Ok (ys, s') -> R s' /\ Forall2 P l ys.
Proof.
  intros Hstep. revert s ys. induction l as [|x l IH]; intros s ys Hs; cbn [map_each].
  - intros [-> ->]%ret_Ok. split; [exact Hs | constructor].
  - intros (y & s1 & Hf & Hrest)%bind_Ok.
    apply bind_Ok in Hrest as (zs & s2 & Hmap & Hret).
    apply ret_Ok in Hret as [-> ->].
    destruct (Hstep x s y s1 Hs Hf) as [Hs1 Hxy].
    destruct (IH s1 zs Hs1 Hmap) as [Hs2 Hall]. split; [exact Hs2|].
    constructor; assumption.
Qed.

Section Isolation.
Context {F : Type} {HF : Number F} {C L : Type}.
Context (NaN : C) (Statistics_cor : list F -> list L -> res C).

(** What [_fast_cor_binned] returns depends on the group sizes and on the
    lengths of the accumulators only, not on what an earlier call left in
    them. *)
Lemma fast_cor_binned_same (v : vec F) v2_binned (bins_srt : list L) b
    (c1 c2 c2' : caches F) (r : cor_result C) :
  same_accumulator c1 c2 ->
  _fast_cor_binned NaN Statistics_cor v v2_binned bins_srt b c2 = Ok (r, c2') ->
  exists c1', _fast_cor_binned NaN Statistics_cor v v2_binned bins_srt b c1 = Ok (r, c1') /\
              same_accumulator c1' c2'.
Proof.
  intros Hsame. pose proof Hsame as (Hm & Hs & Hp & Hg & Ha).
  unfold _fast_cor_binned. destruct (all_iszero v).
  - intros [-> ->]%ret_Ok. exists c1. split; [reflexivity | exact Hsame].
  - intros Hrun. exists c2'. split; [|apply same_accumulator_refl].
    revert Hrun. unfold bind at 1. intros Hrun. unfold bind at 1.
    rewrite (groupby_mean_reset v v2_binned false c1).
    rewrite (reset_same c1 c2 Hm Hs Hp Hg Ha).
    rewrite <- (groupby_mean_reset v v2_binned false c2). exact Hrun.
Qed.

(** A call leaves the group sizes and the lengths of the accumulators as
    they are. *)
Lemma fast_cor_binned_accumulator (v : vec F) v2_binned (bins_srt : list L) b
    (c c' : caches F) (r : cor_result C) :
  _fast_cor_binned NaN Statistics_cor v v2_binned bins_srt b c = Ok (r, c') ->
  same_accumulator c c'.
Proof.
  unfold _fast_cor_binned. destruct (all_iszero v).
  - intros [_ ->]%ret_Ok. apply same_accumulator_refl.
  - intros ([] & c1 & Hg & Hrest)%bind_Ok.
    apply groupby_mean_frame in Hg as (Ha & Hgc & Hm & Hs & Hp).
    apply bind_Ok in Hrest as (p & s & [-> ->]%gets_Ok & Hrest).
    apply bind_Ok in Hrest as ([] & c2 & Hlog & Hrest).
    apply bind_Ok in Hrest as (m & s & [-> ->]%gets_Ok & Hrest).
    apply bind_Ok in Hrest as (stat & s & [_ ->]%lift_Ok & Hrest).
    apply bind_Ok in Hrest as (p' & s & [-> ->]%gets_Ok & Hrest).
    apply ret_Ok in Hrest as [_ ->].
    assert (Hc2 : same_accumulator c1 c2).
    { destruct b.
      - apply bind_Ok in Hlog as (m & s & [-> ->]%gets_Ok & Hlog).
        apply bind_Ok in Hlog as (pc & s & Hpc & Hlog).
        assert (s = c1) as ->.
        { destruct (existsb fiszero (mean_cache c1)).
          - apply bind_Ok in Hpc as (lo & s' & [_ ->]%lift_Ok & [_ ->]%ret_Ok). reflexivity.
          - apply ret_Ok in Hpc as [_ ->]. reflexivity. }
        apply bind_Ok in Hlog as (m & s & [-> ->]%gets_Ok & Hlog).
        apply bind_Ok in Hlog as (m' & s & [Hm' ->]%lift_Ok & Hlog).
        apply modify_Ok in Hlog as ->. apply res_map_length in Hm'.
        unfold same_accumulator. cbn. auto.
      - apply ret_Ok in Hlog as [_ ->]. apply same_accumulator_refl. }
    destruct Hc2 as (Hm2 & Hs2 & Hp2 & Hg2 & Ha2).
    unfold same_accumulator. repeat split; congruence.
Qed.

End Isolation.

Lemma same_accumulator_trans {F} (c1 c2 c3 : caches F) :
  same_accumulator c1 c2 -> same_accumulator c2 c3 -> same_accumulator c1 c3.
Proof.
  intros (? & ? & ? & ? & ?) (? & ? & ? & ? & ?).
  unfold same_accumulator. repeat split; congruence.
Qed.

(** Each row of the map, by the column of its OTU alone. *)
Lemma cor_res_alone :
  forall (F : Type) (HF : Number F) (C L K O : Type) (NaN : C)
         (Statistics_cor : list F -> list L -> res C)
         (otu_matn : keyed_matrix F K O) (lats_binned_indmap : list Z)
         (bins_srt : list L) (n_bins : Z) (c c' : caches F) (rows : list (row C O)),
    cor_res NaN Statistics_cor otu_matn lats_binned_indmap bins_srt n_bins c
    = Ok (rows, c') ->
    Forall2 (fun '(i, o) r =>
               oid r = o /\ n_obs r = n_bins /\
               exists v c1,
                 view_column (parent otu_matn) i = Ok v /\
                 _fast_cor_binned NaN Statistics_cor v lats_binned_indmap bins_srt true c
                 = Ok (stats r, c1))
            (enumerate (axiskeys2 otu_matn)) rows.
Proof.
  intros F HF C L K O NaN Statistics_cor otu_matn inds bins_srt n_bins c c' rows Hrun.
  unfold cor_res in Hrun.
  refine (proj2 (map_each_related (same_accumulator c) _ _ _ _ _ _ _
                   (same_accumulator_refl c) Hrun)).
  intros [i o] s1 r s2 Hsame Hstep.
  apply bind_Ok in Hstep as (v & s & [Hv ->]%lift_Ok & Hstep).
  apply bind_Ok in Hstep as (res & s & Hcor & [-> <-]%ret_Ok).
  split.
  - eapply same_accumulator_trans; [exact Hsame|].
    eapply fast_cor_binned_accumulator. exact Hcor.
  - cbn [oid n_obs stats]. split; [reflexivity|]. split; [reflexivity|].
    destruct (fast_cor_binned_same NaN Statistics_cor v inds bins_srt true c s1 s2 res
                Hsame Hcor) as (c1 & Hc1 & _).
    exists v, c1. split; assumption.
Qed.

(** X11. No OTU's statistics depend on the OTUs before it: of a completed
    map over the OTUs on the shared caches, every row holds the OTU's
    identifier, the number of bins, and the statistics [_fast_cor_binned]
    returns for the OTU's column alone on the caches as they were before
    the map. *)
Theorem otu_rows_independent :
  forall (F : Type) (HF : Number F) (C L K O : Type) (NaN : C)
         (Statistics_cor : list F -> list L -> res C)
         (otu_matn : keyed_matrix F K O) (lats_binned_indmap : list Z)
         (bins_srt : list L) (n_bins : Z) (c c' : caches F) (rows : list (row C O)),
    cor_res NaN Statistics_cor otu_matn lats_binned_indmap bins_srt n_bins c
    = Ok (rows, c') ->
    Forall2 (fun '(i, o) r =>
               oid r = o /\ n_obs r = n_bins /\
               exists v c1,
                 view_column (parent otu_matn) i = Ok v /\
                 _fast_cor_binned NaN Statistics_cor v lats_binned_indmap bins_srt true c
                 = Ok (stats r, c1))
            (enumerate (axiskeys2 otu_matn)) rows.
Proof. exact cor_res_alone. Qed.

(** ** The steps of [compute_latitudinal_abundance_cors] *)

Section Pipeline.
Context {F : Type} {HF : Number F} {C L K O P : Type}.
Context `{Countable L} `{EqDecision K}.
Context (NaN : C) (Statistics_cor : list F -> list L -> res C).
Context (isless : L -> L -> bool) (nonneg : L -> bool).
Context (fz_pval : C -> Z -> Z -> P) (adjust : list P -> list P).

(** The two tables made of the rows of the map. *)
Lemma compute_latitudinal_abundance_cors_tables
    (otu_matn : keyed_matrix F K O) (lats_binned : keyed_vector L K)
    (prev_min bins_obs_min_factor : Z) (do_FDR : bool)
    (thr : Z) (inds : list Z) (c0 c' : caches F) (rows : list (row C O)) :
  let bins_srt := sort isless (unique (vector_data lats_binned)) in
  let n_bins := length bins_srt in
  let n_samp := length (axiskeys1 otu_matn) in
  axiskeys1 otu_matn = vector_keys lats_binned ->
  forallb nonneg (vector_data lats_binned) = true ->
  n_bins_obs_min_of (Z.of_nat n_bins) bins_obs_min_factor = Ok thr ->
  res_map (dict_getindex (make_indmap bins_srt)) (vector_data lats_binned) = Ok inds ->
  for_each inds group_count_incr
    (mk_caches (replicate n_samp fzero) (replicate n_bins fzero)
               (replicate n_bins fzero) (replicate n_bins 0) (replicate n_bins 0))
  = Ok (tt, c0) ->
  cor_res NaN Statistics_cor otu_matn inds bins_srt (Z.of_nat n_bins) c0 = Ok (rows, c') ->
  compute_latitudinal_abundance_cors NaN Statistics_cor isless nonneg fz_pval adjust
    otu_matn lats_binned prev_min bins_obs_min_factor do_FDR
  = let kept := List.filter (fun r => negb (filt_mask prev_min thr r)) rows in
    let pvals := map (fun x => fz_pval (cor (stats x)) (n_obs x) 0) kept in
    if do_FDR then
      if (length (adjust pvals) =? length kept)%nat
      then Ok (zip_with (fun '(r, p) a => mk_test_row r p (Some a)) (zip kept pvals)
                        (adjust pvals),
               List.filter (filt_mask prev_min thr) rows)
      else Err ArgumentError
    else Ok (zip_with (fun r p => mk_test_row r p None) kept pvals,
             List.filter (filt_mask prev_min thr) rows).
Proof.
  intros bins_srt n_bins n_samp Hkeys Hnonneg Hthr Hinds Hcount Hrows.
  unfold compute_latitudinal_abundance_cors.
  rewrite (bool_decide_eq_true_2 _ Hkeys), Hnonneg. cbn [negb].
  fold bins_srt. fold n_bins. rewrite Hthr. cbn [res_bind].
  rewrite Hinds. cbn [res_bind]. fold n_samp. rewrite Hcount. cbn [res_bind snd].
  rewrite Hrows. cbn [res_bind fst]. reflexivity.
Qed.

(** The steps of a completed call. *)
Lemma compute_latitudinal_abundance_cors_steps
    (otu_matn : keyed_matrix F K O) (lats_binned : keyed_vector L K)
    (prev_min bins_obs_min_factor : Z) (do_FDR : bool)
    (test_df : list (test_row C O P)) (unrel_df : list (row C O)) :
  let bins_srt := sort isless (unique (vector_data lats_binned)) in
  let n_bins := length bins_srt in
  let n_samp := length (axiskeys1 otu_matn) in
  compute_latitudinal_abundance_cors NaN Statistics_cor isless nonneg fz_pval adjust
    otu_matn lats_binned prev_min bins_obs_min_factor do_FDR = Ok (test_df, unrel_df) ->
  exists (thr : Z) (inds : list Z) (c0 c' : caches F) (rows : list (row C O)),
    axiskeys1 otu_matn = vector_keys lats_binned /\
    forallb nonneg (vector_data lats_binned) = true /\
    n_bins_obs_min_of (Z.of_nat n_bins) bins_obs_min_factor = Ok thr /\
    res_map (dict_getindex (make_indmap bins_srt)) (vector_data lats_binned) = Ok inds /\
    for_each inds group_count_incr
      (mk_caches (replicate n_samp fzero) (replicate n_bins fzero)
                 (replicate n_bins fzero) (replicate n_bins 0) (replicate n_bins 0))
    = Ok (tt, c0) /\
    cor_res NaN Statistics_cor otu_matn inds bins_srt (Z.of_nat n_bins) c0
    = Ok (rows, c').
Proof.
  intros bins_srt n_bins n_samp. unfold compute_latitudinal_abundance_cors.
  destruct (bool_decide_reflect (axiskeys1 otu_matn = vector_keys lats_binned))
    as [Hkeys|]; cbn [negb]; [|discriminate].
  destruct (forallb nonneg (vector_data lats_binned)) eqn:Hnonneg; cbn [negb];
    [|discriminate].
  fold bins_srt. fold n_bins. fold n_samp.
  destruct (n_bins_obs_min_of _ _) as [thr|] eqn:Hthr; [|discriminate].
  cbn [res_bind].
  destruct (res_map _ _) as [inds|] eqn:Hinds; [|discriminate]. cbn [res_bind].
  destruct (for_each inds group_count_incr _) as [[[] c0]|] eqn:Hcount; [|discriminate].
  cbn [res_bind snd].
  destruct (cor_res _ _ _ _ _ _ _) as [[rows c']|] eqn:Hrows; [|discriminate].
  intros _. exists thr, inds, c0, c', rows. auto 10.
Qed.

End Pipeline.

(** ** The two tables *)

Lemma test_rows_Some {C O P} (h : row C O -> P) (kept : list (row C O)) (adj : list P) :
  length adj = length kept ->
  let test_df := zip_with (fun '(r, p) a => mk_test_row r p (Some a))
                          (zip kept (map h kept)) adj in
  map base test_df = kept /\ Forall (fun t => pval t = h (base t)) test_df /\
  map pval_adj test_df = map Some adj.
Proof.
  revert adj. induction kept as [|r kept IH]; intros [|a adj] Hlen; try discriminate.
  - cbn. auto.
  - cbn in Hlen. injection Hlen as Hlen. destruct (IH adj Hlen) as (Hb & Hp & Ha).
    cbn. cbn in Hb, Hp, Ha. rewrite Hb, Ha. split; [reflexivity|].
    split; [|reflexivity]. constructor; [reflexivity | exact Hp].
Qed.

Lemma test_rows_None {C O P} (h : row C O -> P) (kept : list (row C O)) :
  let test_df := zip_with (fun r p => mk_test_row r p None) kept (map h kept) in
  map base test_df = kept /\ Forall (fun t => pval t = h (base t)) test_df /\
  Forall (fun t => pval_adj t = None) test_df.
Proof.
  induction kept as [|r kept (Hb & Hp & Ha)]; cbn.
  - auto.
  - cbn in Hb, Hp, Ha. rewrite Hb. split; [reflexivity|].
    split; constructor; (reflexivity || assumption).
Qed.

Lemma filter_mask_Permutation {A} (mask : A -> bool) (l : list A) :
  List.filter (fun x => negb (mask x)) l ++ List.filter mask l ≡ₚ l.
Proof.
  induction l as [|x l IH]; [reflexivity|]. cbn [List.filter].
  destruct (mask x); cbn [negb].
  - rewrite <- Permutation_middle. constructor. exact IH.
  - cbn. constructor. exact IH.
Qed.

Lemma Forall_filter_bool {A} (Q : A -> Prop) (mask : A -> bool) (l : list A) :
  Forall Q l -> Forall Q (List.filter mask l).
Proof.
  induction 1 as [|x l Hx _ IH]; cbn [List.filter]; [constructor|].
  destruct (mask x); [constructor|]; assumption.
Qed.

Lemma Forall_filter_mask {A} (mask : A -> bool) (l : list A) :
  Forall (fun x => mask x = true) (List.filter mask l).
Proof.
  induction l as [|x l IH]; cbn [List.filter]; [constructor|].
  destruct (mask x) eqn:E; [constructor|]; assumption.
Qed.

Section Tables.
Context {F : Type} {HF : Number F} {C L K O P : Type}.
Context `{Countable L} `{EqDecision K}.
Context (NaN : C) (Statistics_cor : list F -> list L -> res C).
Context (isless : L -> L -> bool) (nonneg : L -> bool).
Context (fz_pval : C -> Z -> Z -> P) (adjust : list P -> list P).

Lemma cor_res_n_obs (otu_matn : keyed_matrix F K O) (inds : list Z)
    (bins_srt : list L) (n_bins : Z) (c c' : caches F) (rows : list (row C O)) :
  cor_res NaN Statistics_cor otu_matn inds bins_srt n_bins c = Ok (rows, c') ->
  Forall (fun r => n_obs r = n_bins) rows.
Proof.
  unfold cor_res. intros Hrun.
  pose proof (map_each_Forall2 _ _ _ _ _ Hrun) as Hall. clear Hrun.
  induction Hall as [|[i o] r l rows (s1 & s2 & Hstep) _ IH]; [constructor|].
  constructor; [|exact IH].
  apply bind_Ok in Hstep as (v & s & _ & Hstep).
  apply bind_Ok in Hstep as (res & s' & _ & [-> _]%ret_Ok). reflexivity.
Qed.

(** The tables of a completed call. *)
Lemma compute_latitudinal_abundance_cors_result
    (otu_matn : keyed_matrix F K O) (lats_binned : keyed_vector L K)
    (prev_min bins_obs_min_factor : Z) (do_FDR : bool)
    (test_df : list (test_row C O P)) (unrel_df : list (row C O)) :
  let n_bins := Z.of_nat (length (sort isless (unique (vector_data lats_binned)))) in
  compute_latitudinal_abundance_cors NaN Statistics_cor isless nonneg fz_pval adjust
    otu_matn lats_binned prev_min bins_obs_min_factor do_FDR = Ok (test_df, unrel_df) ->
  exists (thr : Z) (rows : list (row C O)),
    n_bins_obs_min_of n_bins bins_obs_min_factor = Ok thr /\
    map oid rows = axiskeys2 otu_matn /\
    Forall (fun r => n_obs r = n_bins) rows /\
    unrel_df = List.filter (filt_mask prev_min thr) rows /\
    map base test_df = List.filter (fun r => negb (filt_mask prev_min thr r)) rows /\
    Forall (fun t => pval t = fz_pval (cor (stats (base t))) (n_obs (base t)) 0) test_df /\
    if do_FDR
    then map pval_adj test_df = map Some (adjust (map pval test_df))
    else Forall (fun t => pval_adj t = None) test_df.
Proof.
  intros n_bins Hrun.
  destruct (compute_latitudinal_abundance_cors_steps NaN Statistics_cor isless nonneg
              fz_pval adjust otu_matn lats_binned prev_min bins_obs_min_factor do_FDR
              test_df unrel_df Hrun)
    as (thr & inds & c0 & c' & rows & Hkeys & Hnonneg & Hthr & Hinds & Hcount & Hrows).
  rewrite (compute_latitudinal_abundance_cors_tables NaN Statistics_cor isless nonneg
             fz_pval adjust otu_matn lats_binned prev_min bins_obs_min_factor do_FDR
             thr inds c0 c' rows Hkeys Hnonneg Hthr Hinds Hcount Hrows) in Hrun.
  cbv zeta in Hrun.
  exists thr, rows. split; [exact Hthr|].
  split; [exact (proj1 (cor_res_rows _ _ _ _ _ _ _ _ _ Hrows))|].
  split; [exact (cor_res_n_obs _ _ _ _ _ _ _ Hrows)|].
  set (kept := List.filter (fun r => negb (filt_mask prev_min thr r)) rows) in *.
  set (h := fun x : row C O => fz_pval (cor (stats x)) (n_obs x) 0) in *.
  destruct do_FDR.
  - destruct (Nat.eqb_spec (length (adjust (map h kept))) (length kept)) as [Hlen|];
      [|discriminate].
    injection Hrun as <- <-. split; [reflexivity|].
    destruct (test_rows_Some h kept (adjust (map h kept)) Hlen) as (Hb & Hp & Ha).
    split; [exact Hb|]. split; [exact Hp|]. rewrite Ha. do 2 f_equal.
    rewrite <- Hb at 1. rewrite map_map. apply map_ext_Forall.
    eapply Forall_impl; [exact Hp|]. cbn. intros t Ht. symmetry. exact Ht.
  - injection Hrun as <- <-. split; [reflexivity|].
    destruct (test_rows_None h kept) as (Hb & Hp & Ha). auto.
Qed.

End Tables.

(** X10. The two tables of a completed call: every OTU of the matrix has
    one row, in the table of the tested or in that of the unreliable OTUs
    (the identifiers of both together are those of the matrix); a tested
    OTU has at least [prev_min] samples and the minimum number of bins, an
    unreliable one fails one of the two; each row holds the number of
    bins as its number of observations; the p-value of a tested OTU is
    [fz_pval] of its correlation and the number of bins; with [do_FDR] the
    adjusted p-values are [adjust] of the p-values of the tested OTUs
    alone, and without it there are none. *)
Theorem tables_of_otus :
  forall (F : Type) (HF : Number F) (C L K O P : Type)
         (EqL : EqDecision L) (CountL : Countable L) (EqK : EqDecision K)
         (NaN : C) (Statistics_cor : list F -> list L -> res C)
         (isless : L -> L -> bool) (nonneg : L -> bool)
         (fz_pval : C -> Z -> Z -> P) (adjust : list P -> list P)
         (otu_matn : keyed_matrix F K O) (lats_binned : keyed_vector L K)
         (prev_min bins_obs_min_factor : Z) (do_FDR : bool)
         (test_df : list (test_row C O P)) (unrel_df : list (row C O)),
    let n_bins := Z.of_nat (length (sort isless (unique (vector_data lats_binned)))) in
    compute_latitudinal_abundance_cors NaN Statistics_cor isless nonneg fz_pval adjust
      otu_matn lats_binned prev_min bins_obs_min_factor do_FDR = Ok (test_df, unrel_df) ->
    exists thr : Z,
      n_bins_obs_min_of n_bins bins_obs_min_factor = Ok thr /\
      map (fun t => oid (base t)) test_df ++ map oid unrel_df ≡ₚ axiskeys2 otu_matn /\
      Forall (fun t => prev_min <= prev (stats (base t)) /\
                       thr <= n_bins_obs (stats (base t)) /\
                       n_obs (base t) = n_bins /\
                       pval t = fz_pval (cor (stats (base t))) n_bins 0) test_df /\
      Forall (fun r => (prev (stats r) < prev_min \/ n_bins_obs (stats r) < thr) /\
                       n_obs r = n_bins) unrel_df /\
      (if do_FDR
       then map pval_adj test_df = map Some (adjust (map pval test_df))
       else Forall (fun t => pval_adj t = None) test_df).
Proof.
  intros F HF C L K O P EqL CountL EqK NaN Statistics_cor isless nonneg fz_pval adjust
         otu_matn lats_binned prev_min bins_obs_min_factor do_FDR test_df unrel_df
         n_bins Hrun.
  destruct (compute_latitudinal_abundance_cors_result NaN Statistics_cor isless nonneg
              fz_pval adjust otu_matn lats_binned prev_min bins_obs_min_factor do_FDR
              test_df unrel_df Hrun)
    as (thr & rows & Hthr & Hoid & Hobs & Hunrel & Hbase & Hpval & Hadj).
  fold n_bins in Hthr, Hobs.
  exists thr. split; [exact Hthr|]. split; [|split; [|split; [|exact Hadj]]].
  - rewrite <- (map_map base oid test_df), Hbase, Hunrel, <- map_app, <- Hoid.
    apply Permutation_map. apply filter_mask_Permutation.
  - assert (Hkept : Forall (fun r => negb (filt_mask prev_min thr r) = true /\
                                     n_obs r = n_bins) (map base test_df)).
    { rewrite Hbase. apply Forall_and. split.
      - apply (Forall_filter_mask (fun r => negb (filt_mask prev_min thr r))).
      - apply Forall_filter_bool. exact Hobs. }
    rewrite Forall_map in Hkept.
    pose proof (proj2 (Forall_and _ _) (conj Hkept Hpval)) as Hall.
    eapply Forall_impl; [exact Hall|]. cbn. intros t [[Hmask Hn] Hp].
    unfold filt_mask in Hmask. apply negb_true_iff, orb_false_iff in Hmask as [H1 H2].
    apply Z.ltb_ge in H1. apply Z.ltb_ge in H2. rewrite Hn in Hp. auto.
  - rewrite Hunrel. apply Forall_and. split.
    + eapply Forall_impl; [apply (Forall_filter_mask (filt_mask prev_min thr))|].
      cbn. intros r Hmask. unfold filt_mask in Hmask.
      apply orb_true_iff in Hmask as [H1|H2]; [left | right]; apply Z.ltb_lt; assumption.
    + apply Forall_filter_bool. exact Hobs.
Qed.

(** ** The minimum number of observed bins *)



Section ObservedBins.
Context {F : Type} {HF : Number F} {C L K O P : Type}.
Context `{Countable L} `{EqDecision K}.
Context (NaN : C) (Statistics_cor : list F -> list L -> res C).
Context (isless : L -> L -> bool) (nonneg : L -> bool).
Context (fz_pval : C -> Z -> Z -> P) (adjust : list P -> list P).




End ObservedBins.


(** ** Binning *)

Section BinningFacts.
Context {X E V : Type}.
Context (gt : E -> X -> bool).
Context (fit_edges : list X -> gmap string V -> res (list E)).

Lemma findfirst_from_Some (i : Z) (p : E -> bool) (a : list E) (j : Z) :
  findfirst_from i p a = Some j ->
  exists (k : nat) (e : E),
    j = i + Z.of_nat k /\ a !! k = Some e /\ p e = true /\
    forall (k' : nat) e', (k' < k)%nat -> a !! k' = Some e' -> p e' = false.
Proof.
  revert i. induction a as [|e a IH]; intros i; cbn [findfirst_from]; [discriminate|].
  destruct (p e) eqn:Hp.
  - intros [= <-]. exists 0%nat, e. split; [lia|]. split; [reflexivity|].
    split; [exact Hp|]. intros k' e' Hk'. lia.
  - intros (k & e1 & -> & Hk & He1 & Hbefore)%IH.
    exists (S k), e1. split; [lia|]. split; [exact Hk|]. split; [exact He1|].
    intros [|k'] e' Hlt; cbn.
    + intros [= <-]. exact Hp.
    + apply Hbefore. lia.
Qed.

Lemma findfirst_from_None (i : Z) (p : E -> bool) (a : list E) :
  findfirst_from i p a = None -> Forall (fun e => p e = false) a.
Proof.
  revert i. induction a as [|e a IH]; intros i; cbn [findfirst_from]; [constructor|].
  destruct (p e) eqn:Hp; [discriminate|]. intros Hrest. constructor; [exact Hp|].
  exact (IH _ Hrest).
Qed.

(** The bin of a value: the edge before the first edge greater than the
    value; a [BoundsError] when already the first edge is greater, a
    [MethodError] when no edge is. *)
Lemma bin_of_cases (hist_edges : list E) (xi : X) :
  Z.of_nat (length hist_edges) < 2 ^ 63 ->
  match bin_of gt hist_edges xi with
  | Ok b =>
      gt b xi = false /\
      exists j e, getindex hist_edges (j - 1) = Ok b /\
                  getindex hist_edges j = Ok e /\ gt e xi = true /\
                  forall k e', 1 <= k < j -> getindex hist_edges k = Ok e' ->
                               gt e' xi = false
  | Err err =>
      (err = BoundsError /\ exists e, getindex hist_edges 1 = Ok e /\ gt e xi = true) \/
      (err = MethodError /\ Forall (fun e => gt e xi = false) hist_edges)
  end.
Proof.
  intros Hlen. unfold bin_of, findfirst.
  destruct (findfirst_from 1 (fun e => gt e xi) hist_edges) as [j|] eqn:Hfind.
  - apply findfirst_from_Some in Hfind as (k & e & -> & Hk & He & Hbefore).
    pose proof (lookup_lt_Some _ _ _ Hk) as Hklt.
    unfold int_sub. rewrite wrap64_id by (unfold int_range; lia).
    replace (1 + Z.of_nat k - 1) with (Z.of_nat k) by lia.
    destruct k as [|k].
    + rewrite getindex_outside by lia. left. split; [reflexivity|].
      exists e. split; [|exact He]. apply getindex_Ok. split; [lia | exact Hk].
    + destruct (lookup_lt_is_Some_2 hist_edges k ltac:(lia)) as [b Hb].
      assert (Hget : getindex hist_edges (Z.of_nat (S k)) = Ok b).
      { apply getindex_Ok. split; [lia|].
        replace (Z.to_nat (Z.of_nat (S k) - 1)) with k by lia. exact Hb. }
      rewrite Hget. split; [exact (Hbefore k b ltac:(lia) Hb)|].
      exists (Z.of_nat (S k) + 1), e.
      replace (Z.of_nat (S k) + 1 - 1) with (Z.of_nat (S k)) by lia.
      split; [exact Hget|]. split; [|split; [exact He|]].
      * apply getindex_Ok. split; [lia|].
        replace (Z.to_nat (Z.of_nat (S k) + 1 - 1)) with (S k) by lia. exact Hk.
      * intros k' e' Hk' [_ Hget']%getindex_Ok.
        apply (Hbefore (Z.to_nat (k' - 1))); [lia | exact Hget'].
  - right. split; [reflexivity|]. eapply findfirst_from_None. exact Hfind.
Qed.

Lemma with_nbins_present (n m : V) (bin_kws : gmap string V) :
  bin_kws !! "nbins" = Some m -> with_nbins n bin_kws = bin_kws.
Proof.
  intros Hm. unfold with_nbins. apply map_eq. intros k.
  rewrite lookup_union. destruct (bin_kws !! k) as [v|] eqn:Hk.
  - destruct ({["nbins" := n]} !! k); reflexivity.
  - destruct (decide (k = "nbins")) as [->|Hne]; [congruence|].
    rewrite lookup_singleton_ne by congruence. reflexivity.
Qed.

Lemma with_nbins_absent (n : V) (bin_kws : gmap string V) :
  bin_kws !! "nbins" = None -> with_nbins n bin_kws = <["nbins" := n]> bin_kws.
Proof.
  intros Hm. unfold with_nbins. apply map_eq. intros k.
  rewrite lookup_union. destruct (decide (k = "nbins")) as [->|Hne].
  - rewrite Hm, lookup_singleton_eq, lookup_insert_eq. reflexivity.
  - rewrite lookup_singleton_ne, lookup_insert_ne by congruence.
    destruct (bin_kws !! k); reflexivity.
Qed.

Lemma make_bins_run (x : list X) (n_bins : option V) (bin_kws : gmap string V) :
  make_bins gt fit_edges x n_bins bin_kws
  = res_bind (fit_edges x (fit_keywords n_bins bin_kws))
             (fun hist_edges => res_map (bin_of gt hist_edges) x).
Proof.
  unfold make_bins, fit_keywords.
  destruct (bin_kws !! "nbins") as [m|] eqn:Hm.
  - destruct n_bins as [n|]; rewrite (with_nbins_present _ m) by exact Hm; reflexivity.
  - destruct n_bins as [n|]; [|reflexivity].
    rewrite with_nbins_absent by exact Hm. reflexivity.
Qed.

Lemma res_map_cases {A B} (f : A -> res B) (l : list A) :
  match res_map f l with
  | Ok ys => Forall2 (fun x y => f x = Ok y) l ys
  | Err e => exists x, x ∈ l /\ f x = Err e
  end.
Proof.
  induction l as [|x l IH]; cbn [res_map]; [constructor|].
  destruct (f x) as [y|e] eqn:Hx; cbn [res_bind].
  - destruct (res_map f l) as [ys|e]; cbn [res_bind].
    + constructor; assumption.
    + destruct IH as (z & Hz & Hfz). exists z. split; [right; exact Hz | exact Hfz].
  - exists x. split; [left | exact Hx].
Qed.

End BinningFacts.

(** X12. The bins [make_bins] returns, for the edges [fit] gives: each
    value gets, in the order of the values, the edge before the first edge
    greater than it, so its bin is not greater than the value; the call
    fails with a [BoundsError] at a value below the first edge, and with a
    [MethodError] at a value no edge is greater than. *)
Theorem make_bins_lower_edges :
  forall (X E V : Type) (gt : E -> X -> bool)
         (fit_edges : list X -> gmap string V -> res (list E))
         (x : list X) (n_bins : option V) (bin_kws : gmap string V)
         (hist_edges : list E),
    fit_edges x (fit_keywords n_bins bin_kws) = Ok hist_edges ->
    Z.of_nat (length hist_edges) < 2 ^ 63 ->
    match make_bins gt fit_edges x n_bins bin_kws with
    | Ok bins =>
        Forall2 (fun xi b =>
                   gt b xi = false /\
                   exists j e, getindex hist_edges (j - 1) = Ok b /\
                               getindex hist_edges j = Ok e /\ gt e xi = true /\
                               forall k e', 1 <= k < j -> getindex hist_edges k = Ok e' ->
                                            gt e' xi = false)
                x bins
    | Err err =>
        exists xi, xi ∈ x /\
          ((err = BoundsError /\
            exists e, getindex hist_edges 1 = Ok e /\ gt e xi = true) \/
           (err = MethodError /\ Forall (fun e => gt e xi = false) hist_edges))
    end.
Proof.
  intros X E V gt fit_edges x n_bins bin_kws hist_edges Hfit Hlen.
  rewrite make_bins_run, Hfit. cbn [res_bind].
  pose proof (res_map_cases (bin_of gt hist_edges) x) as Hcases.
  destruct (res_map (bin_of gt hist_edges) x) as [bins|err].
  - eapply Forall2_impl; [exact Hcases|]. cbn. intros xi b Hb.
    pose proof (bin_of_cases gt hist_edges xi Hlen) as Hbin. rewrite Hb in Hbin.
    exact Hbin.
  - destruct Hcases as (xi & Hxi & Herr). exists xi. split; [exact Hxi|].
    pose proof (bin_of_cases gt hist_edges xi Hlen) as Hbin. rewrite Herr in Hbin.
    exact Hbin.
Qed.

(** X14. The number of bins [make_bins] asks for: an [nbins] among the
    keywords takes precedence over [n_bins], which is then not used; else
    [fit] is called with [nbins = n_bins] when [n_bins] is given, and with
    the keywords as they are when it is not. *)
Theorem make_bins_nbins_precedence :
  forall (X E V : Type) (gt : E -> X -> bool)
         (fit_edges : list X -> gmap string V -> res (list E))
         (x : list X) (n_bins : option V) (bin_kws : gmap string V),
    (is_Some (bin_kws !! "nbins") ->
     make_bins gt fit_edges x n_bins bin_kws = make_bins gt fit_edges x None bin_kws) /\
    (bin_kws !! "nbins" = None ->
     forall n, make_bins gt fit_edges x (Some n) bin_kws
               = make_bins gt fit_edges x None (<["nbins" := n]> bin_kws)) /\
    make_bins gt fit_edges x None bin_kws
    = res_bind (fit_edges x bin_kws) (fun hist_edges => res_map (bin_of gt hist_edges) x).
Proof.
  intros X E V gt fit_edges x n_bins bin_kws. split; [|split].
  - intros [m Hm]. rewrite !make_bins_run. unfold fit_keywords. rewrite Hm.
    reflexivity.
  - intros Hm n. rewrite !make_bins_run. unfold fit_keywords.
    rewrite Hm, lookup_insert_eq. reflexivity.
  - rewrite make_bins_run. unfold fit_keywords.
    destruct (bin_kws !! "nbins"); reflexivity.
Qed.

(** ** The sizes of the latitude bins *)

Lemma count_in_cons i inds g :
  count_in (i :: inds) g = (if g =? i then 1 else 0) + count_in inds g.
Proof.
  unfold count_in. cbn [List.filter]. destruct (g =? i); cbn [length]; lia.
Qed.

Lemma count_in_bin {L : Type} `{EqDecision L} (bins lats : list L) (inds : list Z)
    (g : Z) (b : L) :
  NoDup bins ->
  Forall2 (fun x i => getindex bins i = Ok x) lats inds ->
  getindex bins g = Ok b ->
  count_in inds g = Z.of_nat (length (List.filter (fun x => bool_decide (x = b)) lats)).
Proof.
  intros Hnd Hall Hg. induction Hall as [|x i lats inds Hx _ IH]; [reflexivity|].
  rewrite count_in_cons, IH. cbn [List.filter].
  destruct (Z.eqb_spec g i) as [->|Hne].
  - assert (x = b) as -> by congruence.
    rewrite bool_decide_eq_true_2 by reflexivity. cbn [length]. lia.
  - rewrite bool_decide_eq_false_2; [lia|]. intros ->.
    apply getindex_Ok in Hx as [Hi Hx]. apply getindex_Ok in Hg as [Hg1 Hg].
    pose proof (NoDup_lookup _ _ _ _ Hnd Hx Hg). lia.
Qed.

(** X15. The sizes of the latitude bins: for the caches
    [compute_latitudinal_abundance_cors] makes, the look-up of the
    samples' bins and the counting loop complete, and leave as the size of
    each group the number of the samples whose bin is the group's, which
    is positive. *)
Theorem group_sizes_of_bins :
  forall (F : Type) (HF : Number F) (L : Type) (EqL : EqDecision L)
         (CountL : Countable L) (isless : L -> L -> bool) (lats : list L) (n_samp : nat),
    let bins_srt := sort isless (unique lats) in
    let n_bins := length bins_srt in
    Z.of_nat (length lats) < 2 ^ 63 ->
    exists (lats_binned_indmap : list Z) (c : caches F),
      res_map (dict_getindex (make_indmap bins_srt)) lats = Ok lats_binned_indmap /\
      for_each lats_binned_indmap group_count_incr
        (mk_caches (replicate n_samp fzero) (replicate n_bins fzero)
                   (replicate n_bins fzero) (replicate n_bins 0) (replicate n_bins 0))
      = Ok (tt, c) /\
      length (group_count_cache c) = n_bins /\
      forall g b, getindex bins_srt g = Ok b ->
        exists size,
          getindex (group_count_cache c) g = Ok size /\ 0 < size /\
          size = Z.of_nat (length (List.filter (fun x => bool_decide (x = b)) lats)).
Proof.
  intros F HF L EqL CountL isless lats n_samp bins_srt n_bins Hn.
  destruct (bins_indmap_indices L _ _ isless lats)
    as (inds & Hinds & Hback & Hrange & Hsurj & _).
  fold bins_srt in Hinds, Hback, Hrange, Hsurj. fold n_bins in Hrange, Hsurj.
  pose proof (res_map_length _ _ _ Hinds) as Hli.
  set (caches0 := mk_caches (replicate n_samp (fzero : F)) (replicate n_bins (fzero : F))
                            (replicate n_bins (fzero : F)) (replicate n_bins 0)
                            (replicate n_bins 0)).
  destruct (group_count_loop inds caches0 n_bins)
    as (c0 & Hcount & _ & _ & _ & _ & Hlg & _ & Hsize).
  { apply length_replicate. }
  { exact Hrange. }
  { cbn [group_count_cache caches0]. apply Forall_replicate. lia. }
  exists inds, c0. split; [exact Hinds|]. split; [exact Hcount|]. split; [exact Hlg|].
  intros g b Hg. pose proof (getindex_range _ _ _ Hg) as Hgr. fold n_bins in Hgr.
  exists (count_in inds g). split; [|split].
  - rewrite (Hsize g 0); [f_equal; lia|].
    cbn [group_count_cache caches0]. apply getindex_replicate. exact Hgr.
  - apply count_in_pos, Hsurj. exact Hgr.
  - apply (count_in_bin bins_srt); [apply NoDup_bins | exact Hback | exact Hg].
Qed.

(** ** The further properties, on concrete inputs *)

Lemma groupby_mean_completes_or_bounds_witness :
  shape 2 (mk_caches [] [0; 0]%R [0; 0]%R [1; 1] [0; 0]) /\
  groupby_mean (Sparse 3 [(1, 1%R); (2, 2%R)]) [1; 5; 2] false
               (mk_caches [] [0; 0]%R [0; 0]%R [1; 1] [0; 0])
  = Err BoundsError.
Proof.
  assert (H1 : shape 2 (mk_caches [] [0; 0]%R [0; 0]%R [1; 1] [0; 0])) by (repeat split).
  split; [exact H1|].
  exact (groupby_mean_completes_or_bounds R Rnumber (Sparse 3 [(1, 1%R); (2, 2%R)])
           [1; 5; 2] (mk_caches [] [0; 0]%R [0; 0]%R [1; 1] [0; 0]) 2%nat H1).
Defined.

Lemma groupby_mean_group_sums_witness :
  shape 2 (mk_caches [] [0; 0]%R [0; 0]%R [2; 1] [0; 0]) /\
  forallb (valid_group [1; 2; 1] 2) (rowvals (visited (Sparse 3 [(1, 1%R); (3, 2%R)])))
  = true /\
  Z.of_nat (length (visited (Sparse 3 [(1, 1%R); (3, 2%R)]))) < 2 ^ 63 /\
  exists c',
    groupby_mean (Sparse 3 [(1, 1%R); (3, 2%R)]) [1; 2; 1] false
                 (mk_caches [] [0; 0]%R [0; 0]%R [2; 1] [0; 0]) = Ok (tt, c') /\
    forall g, 1 <= g <= Z.of_nat 2 ->
      exists size,
        getindex [2; 1] g = Ok size /\
        getindex (sum_cache c') g
        = Ok (fold_left Rplus (present [1; 2; 1] g [(1, 1%R); (3, 2%R)]) 0%R) /\
        getindex (prev_cache c') g
        = Ok (Z.of_nat (length (present [1; 2; 1] g [(1, 1%R); (3, 2%R)]))) /\
        getindex (mean_cache c') g
        = Ok (Rdiv (fold_left Rplus (present [1; 2; 1] g [(1, 1%R); (3, 2%R)]) 0%R)
                   (IZR size)).
Proof.
  assert (H1 : shape 2 (mk_caches [] [0; 0]%R [0; 0]%R [2; 1] [0; 0])) by (repeat split).
  assert (H2 : forallb (valid_group [1; 2; 1] 2)
                 (rowvals (visited (Sparse 3 [(1, 1%R); (3, 2%R)]))) = true)
    by reflexivity.
  assert (H3 : Z.of_nat (length (visited (Sparse 3 [(1, 1%R); (3, 2%R)]))) < 2 ^ 63)
    by reflexivity.
  repeat (split; [assumption|]).
  exact (groupby_mean_group_sums R Rnumber (Sparse 3 [(1, 1%R); (3, 2%R)]) [1; 2; 1]
           (mk_caches [] [0; 0]%R [0; 0]%R [2; 1] [0; 0]) 2%nat H1 H2 H3).
Defined.

Lemma all_iszero_sparse_4_6 : all_iszero (Sparse 4 [(1, 4%R); (2, 6%R)]) = false.
Proof.
  cbn [all_iszero nonzeros map snd forallb fiszero Rnumber].
  rewrite Riszero_false by lra. reflexivity.
Qed.

Lemma fast_cor_binned_counts_witness :
  shape 2 (mk_caches [] [0; 0]%R [0; 0]%R [2; 2] [0; 0]) /\
  all_iszero (Sparse 4 [(1, 4%R); (2, 6%R)]) = false /\
  Z.of_nat (length (visited (Sparse 4 [(1, 4%R); (2, 6%R)]))) < 2 ^ 63 /\
  _fast_cor_binned None Rcor (Sparse 4 [(1, 4%R); (2, 6%R)]) [1; 2; 1; 2] [10; 20] true
                   (mk_caches [] [0; 0]%R [0; 0]%R [2; 2] [0; 0])
  = Ok (stats demo_row_101,
        mk_caches [] demo_logged_101 [(0 + 4)%R; (0 + 6)%R] [2; 2] [1; 1]) /\
  prev (stats demo_row_101)
  = Z.of_nat (length (visited (Sparse 4 [(1, 4%R); (2, 6%R)]))) /\
  n_bins_obs (stats demo_row_101)
  = Z.of_nat (length (List.filter
                        (observed [1; 2; 1; 2] (Sparse 4 [(1, 4%R); (2, 6%R)]))
                        (range1 2))) /\
  1 <= n_bins_obs (stats demo_row_101) <= Z.of_nat 2 /\
  n_bins_obs (stats demo_row_101) <= prev (stats demo_row_101).
Proof.
  assert (H1 : shape 2 (mk_caches [] [0; 0]%R [0; 0]%R [2; 2] [0; 0])) by (repeat split).
  assert (H2 := all_iszero_sparse_4_6).
  assert (H3 : Z.of_nat (length (visited (Sparse 4 [(1, 4%R); (2, 6%R)]))) < 2 ^ 63)
    by reflexivity.
  assert (H4 := demo_run_101 [] 0%R 0%R 0%R 0%R 0 0).
  repeat (split; [assumption|]).
  exact (fast_cor_binned_counts R Rnumber (option R) Z None Rcor
           (Sparse 4 [(1, 4%R); (2, 6%R)]) [1; 2; 1; 2] [10; 20] true
           (mk_caches [] [0; 0]%R [0; 0]%R [2; 2] [0; 0]) _ _ 2%nat H1 H2 H3 H4).
Defined.

Lemma dense_sparse_same_sums_means_witness :
  groupby_mean (Dense [0; 4]%R) [1; 1] false (mk_caches [] [0%R] [0%R] [2] [0])
  = Ok (tt, mk_caches [] [(0 + 0 + 4) / 2]%R [(0 + 0 + 4)%R] [2] [2]) /\
  exists cs,
    groupby_mean (Sparse (Z.of_nat (length [0; 4]%R)) (sparse_of [0; 4]%R)) [1; 1] false
                 (mk_caches [] [0%R] [0%R] [2] [0]) = Ok (tt, cs) /\
    sum_cache cs = [(0 + 0 + 4)%R] /\ mean_cache cs = [(0 + 0 + 4) / 2]%R.
Proof.
  assert (H1 : groupby_mean (Dense [0; 4]%R) [1; 1] false
                 (mk_caches [] [0%R] [0%R] [2] [0])
               = Ok (tt, mk_caches [] [(0 + 0 + 4) / 2]%R [(0 + 0 + 4)%R] [2] [2]))
    by (vm_compute; reflexivity).
  split; [exact H1|].
  exact (dense_sparse_same_sums_means [0; 4]%R [1; 1] _ _ H1).
Defined.

Lemma all_iszero_dense_1_m1 : all_iszero (Dense [1; -1]%R) = false.
Proof.
  cbn [all_iszero forallb fiszero Rnumber]. rewrite Riszero_false by lra. reflexivity.
Qed.

Lemma forallb_iszero_cancelled : forallb fiszero [(0 + 1 + -1) / 2]%R = true.
Proof.
  cbn [forallb fiszero Rnumber]. rewrite Riszero_true by lra. reflexivity.
Qed.

Lemma log_means_all_zero_means_witness :
  all_iszero (Dense [1; -1]%R) = false /\
  groupby_mean (Dense [1; -1]%R) [1; 1] false (mk_caches [] [0%R] [0%R] [2] [0])
  = Ok (tt, mk_caches [] [(0 + 1 + -1) / 2]%R [(0 + 1 + -1)%R] [2] [2]) /\
  _fast_cor_binned None Rcor (Dense [1; -1]%R) [1; 1] [10] true
                   (mk_caches [] [0%R] [0%R] [2] [0])
  = Err ArgumentError.
Proof.
  assert (H1 := all_iszero_dense_1_m1).
  assert (H2 : groupby_mean (Dense [1; -1]%R) [1; 1] false
                 (mk_caches [] [0%R] [0%R] [2] [0])
               = Ok (tt, mk_caches [] [(0 + 1 + -1) / 2]%R [(0 + 1 + -1)%R] [2] [2]))
    by (vm_compute; reflexivity).
  repeat (split; [assumption|]).
  exact (log_means_all_zero_means R Rnumber (option R) Z None Rcor (Dense [1; -1]%R)
           [1; 1] [10] _ _ H1 H2 ltac:(discriminate) forallb_iszero_cancelled).
Defined.

Lemma group_sizes_counted_witness :
  Z.of_nat (length [1; 2; 1; 1]) < 2 ^ 63 /\
  exists c' : caches R,
    for_each [1; 2; 1; 1] group_count_incr (mk_caches [] [] [] [0; 0] []) = Ok (tt, c') /\
    group_count_cache c' = map (count_in [1; 2; 1; 1]) (range1 2) /\
    fold_right Z.add 0 (group_count_cache c') = Z.of_nat (length [1; 2; 1; 1]) /\
    (forall g, g ∈ [1; 2; 1; 1] -> exists size,
         getindex (group_count_cache c') g = Ok size /\ 0 < size).
Proof.
  assert (H1 : Z.of_nat (length [1; 2; 1; 1]) < 2 ^ 63) by reflexivity.
  split; [exact H1|].
  exact (group_sizes_counted R [1; 2; 1; 1] (mk_caches [] [] [] [0; 0] []) 2%nat
           eq_refl H1).
Defined.

Lemma demo_compute_2 :
  compute_latitudinal_abundance_cors None Rcor Z.ltb (Z.leb 0) demo_pval demo_adjust
    demo_otu demo_lats 2 (-1) true
  = Ok ([mk_test_row demo_row_101 tt (Some tt)], [demo_row_102]).
Proof. apply (demo_compute 2 (-1) 0). reflexivity. Qed.

Lemma tables_of_otus_witness :
  compute_latitudinal_abundance_cors None Rcor Z.ltb (Z.leb 0) demo_pval demo_adjust
    demo_otu demo_lats 2 (-1) true
  = Ok ([mk_test_row demo_row_101 tt (Some tt)], [demo_row_102]) /\
  exists thr : Z,
    n_bins_obs_min_of
      (Z.of_nat (length (sort Z.ltb (unique (vector_data demo_lats))))) (-1) = Ok thr /\
    map (fun t => oid (base t)) [mk_test_row demo_row_101 tt (Some tt)]
      ++ map oid [demo_row_102] ≡ₚ axiskeys2 demo_otu /\
    Forall (fun t => 2 <= prev (stats (base t)) /\
                     thr <= n_bins_obs (stats (base t)) /\
                     n_obs (base t)
                     = Z.of_nat (length (sort Z.ltb (unique (vector_data demo_lats)))) /\
                     pval t
                     = demo_pval (cor (stats (base t)))
                         (Z.of_nat (length (sort Z.ltb (unique (vector_data demo_lats)))))
                         0)
           [mk_test_row demo_row_101 tt (Some tt)] /\
    Forall (fun r => (prev (stats r) < 2 \/ n_bins_obs (stats r) < thr) /\
                     n_obs r
                     = Z.of_nat (length (sort Z.ltb (unique (vector_data demo_lats)))))
           [demo_row_102] /\
    map pval_adj [mk_test_row demo_row_101 tt (Some tt)]
    = map Some (demo_adjust (map pval [mk_test_row demo_row_101 tt (Some tt)])).
Proof.
  split; [exact demo_compute_2|].
  exact (tables_of_otus R Rnumber (option R) Z nat Z unit _ _ _
           None Rcor Z.ltb (Z.leb 0) demo_pval demo_adjust demo_otu demo_lats
           2 (-1) true _ _ demo_compute_2).
Defined.

Lemma otu_rows_independent_witness :
  cor_res None Rcor demo_otu [1; 2; 1; 2] [10; 20] 2
          (mk_caches (replicate 4 0%R) [0; 0]%R [0; 0]%R [2; 2] [0; 0])
  = Ok ([demo_row_101; demo_row_102],
        mk_caches (replicate 4 0%R) demo_logged_102 [(0 + 4)%R; 0%R] [2; 2] [1; 0]) /\
  Forall2 (fun '(i, o) r =>
             oid r = o /\ n_obs r = 2 /\
             exists v c1,
               view_column (parent demo_otu) i = Ok v /\
               _fast_cor_binned None Rcor v [1; 2; 1; 2] [10; 20] true
                 (mk_caches (replicate 4 0%R) [0; 0]%R [0; 0]%R [2; 2] [0; 0])
               = Ok (stats r, c1))
          (enumerate (axiskeys2 demo_otu)) [demo_row_101; demo_row_102].
Proof.
  split; [exact demo_cor_res|].
  exact (otu_rows_independent R Rnumber (option R) Z nat Z None Rcor demo_otu
           [1; 2; 1; 2] [10; 20] 2 _ _ _ demo_cor_res).
Defined.

Lemma make_bins_lower_edges_witness :
  (fun (_ : list Z) (_ : gmap string Z) => Ok [0; 10; 20])
    [3; 12; 10] (fit_keywords (Some 2) ∅) = Ok [0; 10; 20] /\
  Z.of_nat (length [0; 10; 20]) < 2 ^ 63 /\
  make_bins (fun e x => x <? e) (fun (_ : list Z) (_ : gmap string Z) => Ok [0; 10; 20])
            [3; 12; 10] (Some 2) ∅ = Ok [0; 10; 10] /\
  Forall2 (fun xi b =>
             (xi <? b) = false /\
             exists j e, getindex [0; 10; 20] (j - 1) = Ok b /\
                         getindex [0; 10; 20] j = Ok e /\ (xi <? e) = true /\
                         forall k e', 1 <= k < j -> getindex [0; 10; 20] k = Ok e' ->
                                      (xi <? e') = false)
          [3; 12; 10] [0; 10; 10].
Proof.
  assert (H1 : (fun (_ : list Z) (_ : gmap string Z) => Ok [0; 10; 20])
                 [3; 12; 10] (fit_keywords (Some 2) ∅) = Ok [0; 10; 20]) by reflexivity.
  assert (H2 : Z.of_nat (length [0; 10; 20]) < 2 ^ 63) by reflexivity.
  assert (H3 : make_bins (fun e x => x <? e)
                 (fun (_ : list Z) (_ : gmap string Z) => Ok [0; 10; 20])
                 [3; 12; 10] (Some 2) ∅ = Ok [0; 10; 10]) by reflexivity.
  repeat (split; [assumption|]).
  pose proof (make_bins_lower_edges Z Z Z (fun e x => x <? e)
                (fun (_ : list Z) (_ : gmap string Z) => Ok [0; 10; 20])
                [3; 12; 10] (Some 2) ∅ [0; 10; 20] H1 H2) as H.
  rewrite H3 in H. exact H.
Defined.

Lemma make_bins_nbins_precedence_witness :
  is_Some (({["nbins" := 5]} : gmap string Z) !! "nbins") /\
  make_bins (fun e x => x <? e)
            (fun (_ : list Z) (kws : gmap string Z) =>
               match kws !! "nbins" with
               | Some n => Ok (map (fun k => 10 * k) (seqZ 0 (n + 1)))
               | None => Ok [0; 50]
               end)
            [3; 12; 10] (Some 2) {["nbins" := 5]}
  = make_bins (fun e x => x <? e)
            (fun (_ : list Z) (kws : gmap string Z) =>
               match kws !! "nbins" with
               | Some n => Ok (map (fun k => 10 * k) (seqZ 0 (n + 1)))
               | None => Ok [0; 50]
               end)
            [3; 12; 10] None {["nbins" := 5]}.
Proof.
  assert (H1 : is_Some (({["nbins" := 5]} : gmap string Z) !! "nbins"))
    by (exists 5; reflexivity).
  split; [exact H1|].
  exact (proj1 (make_bins_nbins_precedence Z Z Z (fun e x => x <? e)
                  (fun (_ : list Z) (kws : gmap string Z) =>
                     match kws !! "nbins" with
                     | Some n => Ok (map (fun k => 10 * k) (seqZ 0 (n + 1)))
                     | None => Ok [0; 50]
                     end)
                  [3; 12; 10] (Some 2) {["nbins" := 5]}) H1).
Defined.

Lemma group_sizes_of_bins_witness :
  Z.of_nat (length [10; 20; 10; 10]) < 2 ^ 63 /\
  exists (lats_binned_indmap : list Z) (c : caches R),
    res_map (dict_getindex (make_indmap (sort Z.ltb (unique [10; 20; 10; 10]))))
            [10; 20; 10; 10] = Ok lats_binned_indmap /\
    for_each lats_binned_indmap group_count_incr
      (mk_caches (replicate 4 fzero)
                 (replicate (length (sort Z.ltb (unique [10; 20; 10; 10]))) fzero)
                 (replicate (length (sort Z.ltb (unique [10; 20; 10; 10]))) fzero)
                 (replicate (length (sort Z.ltb (unique [10; 20; 10; 10]))) 0)
                 (replicate (length (sort Z.ltb (unique [10; 20; 10; 10]))) 0))
    = Ok (tt, c) /\
    length (group_count_cache c) = length (sort Z.ltb (unique [10; 20; 10; 10])) /\
    forall g b, getindex (sort Z.ltb (unique [10; 20; 10; 10])) g = Ok b ->
      exists size,
        getindex (group_count_cache c) g = Ok size /\ 0 < size /\
        size = Z.of_nat (length (List.filter (fun x => bool_decide (x = b))
                                             [10; 20; 10; 10])).
Proof.
  assert (H1 : Z.of_nat (length [10; 20; 10; 10]) < 2 ^ 63) by reflexivity.
  split; [exact H1|].
  exact (group_sizes_of_bins R Rnumber Z _ _ Z.ltb [10; 20; 10; 10] 4%nat H1).
Defined.

Lemma all_iszero_sparse_4 : all_iszero (Sparse 4 [(1, 4%R)]) = false.
Proof.
  cbn [all_iszero nonzeros map snd forallb fiszero Rnumber].
  rewrite Riszero_false by lra. reflexivity.
Qed.

Lemma fast_cor_binned_log_means_witness :
  all_iszero (Sparse 4 [(1, 4%R)]) = false /\
  shape 2 (mk_caches [] [0; 0]%R [0; 0]%R [2; 2] [0; 0]) /\
  forallb (valid_group [1; 2; 1; 2] 2) (rowvals (visited (Sparse 4 [(1, 4%R)]))) = true /\
  Z.of_nat (length (visited (Sparse 4 [(1, 4%R)]))) < 2 ^ 63 /\
  _fast_cor_binned None Rcor (Sparse 4 [(1, 4%R)]) [1; 2; 1; 2] [10; 20] true
                   (mk_caches [] [0; 0]%R [0; 0]%R [2; 2] [0; 0])
  = Ok (mk_cor_result
          (pearson [log10 ((0 + 4) / 2 + (0 + 4) / 2 / 10);
                    log10 (0 / 2 + (0 + 4) / 2 / 10)]%R [10; 20]%R) 1 1,
        mk_caches [] [log10 ((0 + 4) / 2 + (0 + 4) / 2 / 10);
                      log10 (0 / 2 + (0 + 4) / 2 / 10)]%R
                  [(0 + 4)%R; 0%R] [2; 2] [1; 0]) /\
  exists (means : list R) (c1 : caches R),
    groupby_mean (Sparse 4 [(1, 4%R)]) [1; 2; 1; 2] false
                 (mk_caches [] [0; 0]%R [0; 0]%R [2; 2] [0; 0]) = Ok (tt, c1) /\
    mean_cache c1 = means /\
    length means = 2%nat /\
    (forall g, 1 <= g <= Z.of_nat 2 ->
       exists size,
         getindex [2; 2] g = Ok size /\
         getindex means g
         = Ok (Rdiv (fold_left Rplus (present [1; 2; 1; 2] g [(1, 4%R)]) 0%R)
                    (IZR size))) /\
    _fast_cor_binned None Rcor (Sparse 4 [(1, 4%R)]) [1; 2; 1; 2] [10; 20] true
                     (mk_caches [] [0; 0]%R [0; 0]%R [2; 2] [0; 0]) =
    match mean_pseudo_count means with
    | Err e => Err e
    | Ok pcount =>
        match res_map (fun m => flog10 (fadd m pcount)) means with
        | Err e => Err e
        | Ok logged =>
            match Rcor logged [10; 20] with
            | Err e => Err e
            | Ok stat =>
                Ok (mk_cor_result stat (count_nonzero (prev_cache c1))
                                  (int_sum (prev_cache c1)),
                    set_mean logged c1)
            end
        end
    end.
Proof.
  assert (H1 := all_iszero_sparse_4).
  assert (H2 : shape 2 (mk_caches [] [0; 0]%R [0; 0]%R [2; 2] [0; 0])) by (repeat split).
  assert (H3 : forallb (valid_group [1; 2; 1; 2] 2)
                 (rowvals (visited (Sparse 4 [(1, 4%R)]))) = true) by reflexivity.
  assert (H4 : Z.of_nat (length (visited (Sparse 4 [(1, 4%R)]))) < 2 ^ 63)
    by reflexivity.
  repeat (split; [assumption|]).
  split; [exact (demo_run_102 [] 0%R 0%R 0%R 0%R 0 0)|].
  exact (proj2 (fast_cor_binned_log_means R Rnumber (option R) Z None Rcor
                  (Sparse 4 [(1, 4%R)]) [1; 2; 1; 2] [10; 20]
                  (mk_caches [] [0; 0]%R [0; 0]%R [2; 2] [0; 0]) 2%nat H1)
               H2 H3 H4).
Defined.

